(** * UAV strategic deconfliction: the continuous segment-distance engine

    A shallow embedding of [Method 2/spatial_analyzer.py],
    [Method 2/conflict_detector.py], [Method 2/data_loader.py] and the
    analysis workflow of [Method 2/main_controller.py].

    Numbers: Python floats are read as real numbers ([R]), which leaves
    rounding, overflow and NaN out.  The closest-point solver is also given
    on binary64 floats (module [Float64], on the primitive floats of the
    kernel): there an overflow makes it raise, and a rounded denominator
    makes it take the parallel branch.  A timestamp is the real number of
    seconds of its [datetime] on a fixed absolute axis, so that
    [datetime.fromisoformat] is the identity on it and
    [(dt - reference).total_seconds()] is a subtraction; the two timestamps
    of a record are kept exact, where the code rounds them to the
    microsecond when it builds its [timedelta].

    Values: the coordinates of a waypoint are numbers and its timestamp is
    an instant; a field that holds anything else is outside the model.

    Errors: every Python operation that can raise ([a / b], [math.sqrt],
    [l[i]], [d[k]], [min] of an empty list, arithmetic on [None]) is a
    computation in the [result] monad below. *)

From Stdlib Require Import Reals Lra Psatz ZArith.
From stdpp Require Import base option list gmap strings.
From Stdlib Require PrimFloat.

Open Scope R_scope.

(** ** Exceptions and the error monad *)

(** the exceptions the modelled code can raise *)
Inductive exn : Type :=
  | KeyError (key : string)
  | IndexError
  | ValueError
  | ZeroDivisionError
  | TypeError.

(** a returned value or a raised exception *)
Inductive result (A : Type) : Type :=
  | Ok (a : A)
  | Raise (e : exn).
Arguments Ok {A} a.
Arguments Raise {A} e.

Definition result_bind {A B : Type} (f : A -> result B) (m : result A) : result B :=
  match m with
  | Ok a => f a
  | Raise e => Raise e
  end.

#[export] Instance result_ret : MRet result := fun A a => Ok a.
#[export] Instance result_mbind : MBind result := fun A B f m => result_bind f m.

(** A [for] loop whose body may raise, threading the loop state. *)
Fixpoint for_each {A S : Type} (body : S -> A -> result S) (items : list A) (st : S)
  : result S :=
  match items with
  | [] => Ok st
  | x :: rest =>
      match body st x with
      | Ok st' => for_each body rest st'
      | Raise e => Raise e
      end
  end.

(** ** Python primitives on floats *)

(** [x <= y], [x < y] and [x > y] *)
Definition Rleb (x y : R) : bool := if Rle_dec x y then true else false.
Definition Rltb (x y : R) : bool := if Rlt_dec x y then true else false.
Definition Rgtb (x y : R) : bool := Rltb y x.

(** [x / y] raises [ZeroDivisionError] on a zero divisor. *)
Definition truediv (x y : R) : result R :=
  if Req_dec_T y 0 then Raise ZeroDivisionError else Ok (x / y).

(** [math.sqrt x] raises [ValueError] on a negative argument. *)
Definition math_sqrt (x : R) : result R :=
  if Rlt_dec x 0 then Raise ValueError else Ok (sqrt x).

(** [l[i]] *)
Definition getitem (l : list R) (i : nat) : result R :=
  match l !! i with
  | Some x => Ok x
  | None => Raise IndexError
  end.

(** [sum(xs)]: a left fold from [0]. *)
Definition py_sum (xs : list R) : R := fold_left Rplus xs 0.

(** [min(xs)]: raises [ValueError] on an empty list. *)
Definition py_min (xs : list R) : result R :=
  match xs with
  | [] => Raise ValueError
  | x :: rest => Ok (fold_left Rmin rest x)
  end.

(** The float [best_dist], which starts at [float('inf')]. *)
Inductive extended : Type :=
  | Finite (r : R)
  | Infinity.

(** [x < best_dist] *)
Definition lt_extended (x : R) (b : extended) : bool :=
  match b with
  | Finite r => Rltb x r
  | Infinity => true
  end.

(** ** SpatialAnalyzer *)

Record SpatialAnalyzer : Type := {
  drone_radius : R;
  safety_time : R;
  interpolation_step : Z;
  safety_threshold : R
}.

(** [SpatialAnalyzer.__init__] without its default arguments *)
Definition SpatialAnalyzer_init (radius time : R) (step : Z) : SpatialAnalyzer :=
  {| drone_radius := radius;
     safety_time := time;
     interpolation_step := step;
     safety_threshold := radius * 3 |}.

(** the default [eps=1e-12] of [closest_points_on_segments_in_3D] *)
Definition eps_default : R := 1 / 10 ^ 12.

Module Solver.

(** *** Vector helpers (local functions of the solver) *)

Definition sub (a b : list R) : list R :=
  map (fun ab => fst ab - snd ab) (zip a b).
Definition dot (a b : list R) : R :=
  py_sum (map (fun ab => fst ab * snd ab) (zip a b)).
Definition add (a b : list R) : list R :=
  map (fun ab => fst ab + snd ab) (zip a b).
Definition scale (a : list R) (s : R) : list R :=
  map (fun ai => ai * s) a.
Definition norm (a : list R) : result R := math_sqrt (dot a a).
Definition clamp (x : R) : R := Rmax 0 (Rmin x 1).

Definition time_calculations (ta1 ta2 s tb1 tb2 t : R) : R * R :=
  let t1 := (ta2 - ta1) * s + ta1 in
  let t2 := (tb2 - tb1) * t + tb1 in
  (t1, t2).

(** Project [X] onto segment [A]-[B] and clamp. *)
Definition point_to_seg_closest (eps : R) (A B X : list R) : result (list R * R) :=
  let AB := sub B A in
  t ← (if Rgtb (dot AB AB) eps
       then truediv (dot (sub X A) AB) (dot AB AB)
       else Ok 0);
  let t := clamp t in
  Ok (add A (scale AB t), t).

(** The loop variables of the endpoint fallback. *)
Record fallback_state : Type := {
  best_dist : extended;
  best_pair : option (list R * R * list R * R);
  temp_var : Z
}.

(** body of [for P in (P1, P2)] *)
Definition check_P (eps : R) (Q1 Q2 : list R) (st : fallback_state) (P : list R)
  : result fallback_state :=
  '(Qp, t_qp) ← point_to_seg_closest eps Q1 Q2 P;
  dPQ ← norm (sub P Qp);
  let st :=
    if lt_extended dPQ (best_dist st)
    then {| best_dist := Finite dPQ;
            best_pair := Some (P, IZR (temp_var st), Qp, t_qp);
            temp_var := temp_var st |}
    else st in
  Ok {| best_dist := best_dist st;
        best_pair := best_pair st;
        temp_var := (temp_var st + 1)%Z |}.

(** body of [for Q in (Q1, Q2)] *)
Definition check_Q (eps : R) (P1 P2 : list R) (st : fallback_state) (Q : list R)
  : result fallback_state :=
  '(Pp, t_pp) ← point_to_seg_closest eps P1 P2 Q;
  dPQ ← norm (sub Pp Q);
  let st :=
    if lt_extended dPQ (best_dist st)
    then {| best_dist := Finite dPQ;
            best_pair := Some (Pp, t_pp, Q, IZR (temp_var st));
            temp_var := temp_var st |}
    else st in
  Ok {| best_dist := best_dist st;
        best_pair := best_pair st;
        temp_var := (temp_var st + 1)%Z |}.

(** A closest-point result [(closest_P, closest_Q, distance, (t1, t2))]. *)
Definition solution : Type := list R * list R * R * (R * R).

(** Lines 86-109: the endpoint fallback. *)
Definition endpoint_fallback (eps : R) (P1 P2 Q1 Q2 : list R) (tp1 tp2 tq1 tq2 : R)
  : result solution :=
  let st := {| best_dist := Infinity; best_pair := None; temp_var := 0 |} in
  st ← for_each (check_P eps Q1 Q2) [P1; P2] st;
  let st := {| best_dist := best_dist st; best_pair := best_pair st; temp_var := 0 |} in
  st ← for_each (check_Q eps P1 P2) [Q1; Q2] st;
  match best_pair st, best_dist st with
  | Some (p0, p1, p2, p3), Finite d =>
      Ok (p0, p2, d, time_calculations tp1 tp2 p1 tq1 tq2 p3)
  | _, _ => Raise TypeError
  end.

(** Lines 45-64: the parameters of the closest points on the infinite lines. *)
Definition line_parameters (eps : R) (P1 P2 Q1 Q2 : list R) : result (R * R) :=
  let u := sub P2 P1 in
  let v := sub Q2 Q1 in
  let w := sub Q1 P1 in
  let a := dot u u in
  let b := dot u v in
  let c := dot v v in
  let d := dot u w in
  let e := dot v w in
  let D := - a * c + b * b in
  if Rgtb (Rabs D) eps then
    s ← truediv (b * e - c * d) D;
    t ← truediv (a * e - b * d) D;
    Ok (s, t)
  else
    t ← (if Rgtb c eps then truediv e c else Ok 0);
    Ok (0, t).

Definition closest_points_on_segments_in_3D (A1 A2 B1 B2 : list R) (eps : R)
  : result solution :=
  let P1 := take 3 A1 in
  let P2 := take 3 A2 in
  let Q1 := take 3 B1 in
  let Q2 := take 3 B2 in
  tp1 ← getitem A1 3;
  tp2 ← getitem A2 3;
  tq1 ← getitem B1 3;
  tq2 ← getitem B2 3;
  let u := sub P2 P1 in
  let v := sub Q2 Q1 in
  '(s, t) ← line_parameters eps P1 P2 Q1 Q2;
  let s_clamped := clamp s in
  let t_clamped := clamp t in
  let Pc := add P1 (scale u s_clamped) in
  let Qc := add Q1 (scale v t_clamped) in
  if Rleb 0 s && Rleb s 1 && Rleb 0 t && Rleb t 1 then
    n ← norm (sub Pc Qc);
    Ok (Pc, Qc, n, time_calculations tp1 tp2 s_clamped tq1 tq2 t_clamped)
  else
    endpoint_fallback eps P1 P2 Q1 Q2 tp1 tp2 tq1 tq2.

End Solver.

(** Lines 66-109: from the line parameters [s] and [t] to the result. *)
Definition from_line_parameters (eps : R) (P1 P2 Q1 Q2 : list R)
    (tp1 tp2 tq1 tq2 s t : R) : result Solver.solution :=
  let u := Solver.sub P2 P1 in
  let v := Solver.sub Q2 Q1 in
  let s_clamped := Solver.clamp s in
  let t_clamped := Solver.clamp t in
  let Pc := Solver.add P1 (Solver.scale u s_clamped) in
  let Qc := Solver.add Q1 (Solver.scale v t_clamped) in
  if Rleb 0 s && Rleb s 1 && Rleb 0 t && Rleb t 1 then
    n ← Solver.norm (Solver.sub Pc Qc);
    Ok (Pc, Qc, n, Solver.time_calculations tp1 tp2 s_clamped tq1 tq2 t_clamped)
  else
    Solver.endpoint_fallback eps P1 P2 Q1 Q2 tp1 tp2 tq1 tq2.

(** ** The classifier *)

(** [check_for_conflicts]: [(conflict_level, closest_P, closest_Q, t1, t2)] *)
Definition check_for_conflicts (self : SpatialAnalyzer) (results : Solver.solution)
  : Z * option (list R) * option (list R) * option R * option R :=
  let '(closest_P, closest_Q, min_dist_val, (t1, t2)) := results in
  let count := 0%Z in
  let count :=
    if Rltb min_dist_val (safety_threshold self) then
      let count := (count + 1)%Z in
      if Rltb (Rabs (t2 - t1)) (safety_time self) then (count + 1)%Z else count
    else count in
  if (0 <? count)%Z
  then (count, Some closest_P, Some closest_Q, Some t1, Some t2)
  else (count, None, None, None, None).

(** ** Waypoints, paths and conflict records *)

(** A waypoint is a dict with the keys ["x"], ["y"], ["z"] and ["timestamp"];
    the timestamp value is the instant in seconds on the absolute axis. *)
Abbreviation Waypoint := (gmap string R).

Record Path : Type := {
  drone_id : string;
  waypoints : list Waypoint
}.

Record Conflict : Type := {
  with_drone : string;
  min_distance : R;
  location_primary : list R;
  location_other : list R;
  timestamp_primary : R;
  timestamp_other : R;
  time_difference : R;
  spatial_conflict : bool;
  temporal_conflict : bool;
  conflict_type : string;
  primary_segment : nat;
  other_segment : nat
}.

(** [wp[key]] *)
Definition wp_get (wp : Waypoint) (key : string) : result R :=
  match wp !! key with
  | Some v => Ok v
  | None => Raise (KeyError key)
  end.

(** [waypoints[i]] *)
Definition wp_index (wps : list Waypoint) (i : nat) : result Waypoint :=
  match wps !! i with
  | Some wp => Ok wp
  | None => Raise IndexError
  end.

Definition convert_timestamp_to_seconds (timestamp reference_time : R) : R :=
  timestamp - reference_time.

(** [enumerate(l)] *)
Definition enumerate {A : Type} (l : list A) : list (nat * A) :=
  zip (seq 0 (length l)) l.

(** A segment: two 4-vectors [[x, y, z, time_seconds]]. *)
Abbreviation Segment := (list R * list R)%type.

(** the local function of [check_spatial_conflicts] *)
Definition convert_waypoints_to_segments (reference_time : R) (wps : list Waypoint)
  : result (list Segment) :=
  for_each
    (fun (segments : list Segment) (i : nat) =>
       wp1 ← wp_index wps i;
       wp2 ← wp_index wps (i + 1);
       x1 ← wp_get wp1 "x"; y1 ← wp_get wp1 "y"; z1 ← wp_get wp1 "z";
       ts1 ← wp_get wp1 "timestamp";
       let seg1 := [x1; y1; z1; convert_timestamp_to_seconds ts1 reference_time] in
       x2 ← wp_get wp2 "x"; y2 ← wp_get wp2 "y"; z2 ← wp_get wp2 "z";
       ts2 ← wp_get wp2 "timestamp";
       let seg2 := [x2; y2; z2; convert_timestamp_to_seconds ts2 reference_time] in
       Ok (segments ++ [(seg1, seg2)]))
    (seq 0 (length wps - 1))
    [].

(** lines 195-198: the reference time, the earliest timestamp *)
Definition reference_time_of (primary_waypoints other_waypoints : list Waypoint)
  : result R :=
  all_timestamps ←
    for_each
      (fun (all_timestamps : list R) (wp : Waypoint) =>
         ts ← wp_get wp "timestamp";
         Ok (all_timestamps ++ [ts]))
      (primary_waypoints ++ other_waypoints)
      [];
  py_min all_timestamps.

(** lines 221-254: the body of the inner loop *)
Definition check_segment_pair (self : SpatialAnalyzer) (reference_time : R)
    (other_drone_id : string) (i : nat) (p1 p2 : list R)
    (conflicts : list Conflict) (jo : nat * Segment) : result (list Conflict) :=
  let '(j, (o1, o2)) := jo in
  results ← Solver.closest_points_on_segments_in_3D p1 p2 o1 o2 eps_default;
  let '(conflict_level, closest_P, closest_Q, t1, t2) :=
    check_for_conflicts self results in
  if (0 <? conflict_level)%Z then
    match closest_P, closest_Q, t1, t2 with
    | Some closest_P, Some closest_Q, Some t1, Some t2 =>
        let timestamp_primary := reference_time + t1 in
        let timestamp_other := reference_time + t2 in
        let '(conflict_type, spatial_conflict, temporal_conflict) :=
          if (conflict_level =? 1)%Z
          then ("SPATIAL"%string, true, false)
          else ("SPATIOTEMPORAL"%string, true, true) in
        let conflict_data :=
          {| with_drone := other_drone_id;
             min_distance := results.1.2;
             location_primary := closest_P;
             location_other := closest_Q;
             timestamp_primary := timestamp_primary;
             timestamp_other := timestamp_other;
             time_difference := Rabs (t2 - t1);
             spatial_conflict := spatial_conflict;
             temporal_conflict := temporal_conflict;
             conflict_type := conflict_type;
             primary_segment := i;
             other_segment := j |} in
        Ok (conflicts ++ [conflict_data])
    | _, _, _, _ => Raise TypeError
    end
  else Ok conflicts.

Definition check_spatial_conflicts (self : SpatialAnalyzer)
    (primary_waypoints other_waypoints : list Waypoint) (other_drone_id : string)
  : result (list Conflict) :=
  reference_time ← reference_time_of primary_waypoints other_waypoints;
  primary_segments ← convert_waypoints_to_segments reference_time primary_waypoints;
  other_segments ← convert_waypoints_to_segments reference_time other_waypoints;
  for_each
    (fun (conflicts : list Conflict) (ip : nat * Segment) =>
       let '(i, (p1, p2)) := ip in
       for_each (check_segment_pair self reference_time other_drone_id i p1 p2)
                (enumerate other_segments) conflicts)
    (enumerate primary_segments)
    [].

(** ** ConflictDetector *)

(** [detect_all_conflicts] only uses the spatial analyzer; the temporal
    analyzer that [__init__] also builds is left out. *)
Record ConflictDetector : Type := {
  spatial_analyzer : SpatialAnalyzer
}.

Definition ConflictDetector_init (radius time_threshold : R) : ConflictDetector :=
  {| spatial_analyzer := SpatialAnalyzer_init radius time_threshold 1 |}.

Definition detect_all_conflicts (self : ConflictDetector) (primary_path : Path)
    (flights : list Path) : result (list Conflict) :=
  let primary_waypoints := waypoints primary_path in
  for_each
    (fun (conflicts : list Conflict) (drone : Path) =>
       let other_waypoints := waypoints drone in
       let drone_id := drone_id drone in
       spatial_conflicts ←
         check_spatial_conflicts (spatial_analyzer self)
                                 primary_waypoints other_waypoints drone_id;
       Ok (conflicts ++ spatial_conflicts))
    flights
    [].

(** ** DroneDataLoader and DroneFlightAnalyzer *)

Definition required_fields : list string := ["x"; "y"; "z"; "timestamp"]%string.

Definition validate_waypoint_data (wps : list Waypoint) : bool :=
  forallb
    (fun wp => forallb (fun field => bool_decide (is_Some (wp !! field))) required_fields)
    wps.

(** [analyze_flight_data] on the two loaded inputs, up to the detection:
    the printed summary and the three plots that follow it, which can only
    add exceptions of their own, are left out.  [None] is the bare
    [return]. *)
Definition analyze_flight_data (radius time_threshold : R)
    (flights : list Path) (primary_path : Path) : result (option (list Conflict)) :=
  let conflict_detector := ConflictDetector_init radius time_threshold in
  if negb (validate_waypoint_data (waypoints primary_path)) then Ok None
  else
    conflicts ← detect_all_conflicts conflict_detector primary_path flights;
    Ok (Some conflicts).

(** ** The solver on binary64 floats

    The same lines of [closest_points_on_segments_in_3D] with the numbers
    CPython computes on: IEEE 754 binary64 values, where a product can
    overflow to an infinity, [inf - inf] and [inf * 0] are NaN, and every
    comparison with a NaN is false.  [sum] adds from the left, starting at
    the integer [0]. *)

Module Float64.

Import PrimFloat.

(** [x / y] raises [ZeroDivisionError] on a zero divisor. *)
Definition truediv (x y : float) : result float :=
  if eqb y 0 then Raise ZeroDivisionError else Ok (div x y).

(** [math.sqrt x] raises [ValueError] on a negative argument; the root of a
    NaN is a NaN. *)
Definition math_sqrt (x : float) : result float :=
  if ltb x 0 then Raise ValueError else Ok (sqrt x).

(** [l[i]] *)
Definition getitem (l : list float) (i : nat) : result float :=
  match l !! i with
  | Some x => Ok x
  | None => Raise IndexError
  end.

(** [sum(xs)]: a left fold from [0]. *)
Definition py_sum (xs : list float) : float := fold_left add xs 0%float.

(** [min(x, y)] and [max(x, y)]: the second argument replaces the first
    only when the comparison with it is true. *)
Definition py_min2 (x y : float) : float := if ltb y x then y else x.
Definition py_max2 (x y : float) : float := if ltb x y then y else x.

(** the integers [0] and [1] of [temp_var] as operands of a float product *)
Definition of_int (n : nat) : float := Nat.iter n (fun x => add x 1%float) 0%float.

#[warnings="-inexact-float"]
Definition eps_default : float := 1e-12%float.

Definition sub (a b : list float) : list float :=
  map (fun ab => PrimFloat.sub (fst ab) (snd ab)) (zip a b).
Definition dot (a b : list float) : float :=
  py_sum (map (fun ab => mul (fst ab) (snd ab)) (zip a b)).
Definition add (a b : list float) : list float :=
  map (fun ab => PrimFloat.add (fst ab) (snd ab)) (zip a b).
Definition scale (a : list float) (s : float) : list float :=
  map (fun ai => mul ai s) a.
Definition norm (a : list float) : result float := math_sqrt (dot a a).
Definition clamp (x : float) : float := py_max2 0%float (py_min2 x 1%float).

Definition time_calculations (ta1 ta2 s tb1 tb2 t : float) : float * float :=
  let t1 := PrimFloat.add (mul (PrimFloat.sub ta2 ta1) s) ta1 in
  let t2 := PrimFloat.add (mul (PrimFloat.sub tb2 tb1) t) tb1 in
  (t1, t2).

(** Project [X] onto segment [A]-[B] and clamp. *)
Definition point_to_seg_closest (eps : float) (A B X : list float)
  : result (list float * float) :=
  let AB := sub B A in
  t ← (if ltb eps (dot AB AB)
       then truediv (dot (sub X A) AB) (dot AB AB)
       else Ok 0%float);
  let t := clamp t in
  Ok (add A (scale AB t), t).

(** The loop variables of the endpoint fallback; [best_pair] is [None] for
    the initial [(None, None, None, None)]. *)
Record fallback_state : Type := {
  best_dist : float;
  best_pair : option (list float * float * list float * float);
  temp_var : nat
}.

(** body of [for P in (P1, P2)] *)
Definition check_P (eps : float) (Q1 Q2 : list float) (st : fallback_state)
    (P : list float) : result fallback_state :=
  '(Qp, t_qp) ← point_to_seg_closest eps Q1 Q2 P;
  dPQ ← norm (sub P Qp);
  let st :=
    if ltb dPQ (best_dist st)
    then {| best_dist := dPQ;
            best_pair := Some (P, of_int (temp_var st), Qp, t_qp);
            temp_var := temp_var st |}
    else st in
  Ok {| best_dist := best_dist st;
        best_pair := best_pair st;
        temp_var := S (temp_var st) |}.

(** body of [for Q in (Q1, Q2)] *)
Definition check_Q (eps : float) (P1 P2 : list float) (st : fallback_state)
    (Q : list float) : result fallback_state :=
  '(Pp, t_pp) ← point_to_seg_closest eps P1 P2 Q;
  dPQ ← norm (sub Pp Q);
  let st :=
    if ltb dPQ (best_dist st)
    then {| best_dist := dPQ;
            best_pair := Some (Pp, t_pp, Q, of_int (temp_var st));
            temp_var := temp_var st |}
    else st in
  Ok {| best_dist := best_dist st;
        best_pair := best_pair st;
        temp_var := S (temp_var st) |}.

(** A closest-point result [(closest_P, closest_Q, distance, (t1, t2))]. *)
Definition solution : Type := list float * list float * float * (float * float).

(** Lines 86-109: the endpoint fallback.  With [best_pair] still
    [(None, None, None, None)] the product [(ta2 - ta1) * None] of
    [time_calculations] raises [TypeError]. *)
Definition endpoint_fallback (eps : float) (P1 P2 Q1 Q2 : list float)
    (tp1 tp2 tq1 tq2 : float) : result solution :=
  let st := {| best_dist := infinity; best_pair := None; temp_var := 0 |} in
  st ← for_each (check_P eps Q1 Q2) [P1; P2] st;
  let st := {| best_dist := best_dist st; best_pair := best_pair st; temp_var := 0 |} in
  st ← for_each (check_Q eps P1 P2) [Q1; Q2] st;
  match best_pair st with
  | Some (p0, p1, p2, p3) =>
      Ok (p0, p2, best_dist st, time_calculations tp1 tp2 p1 tq1 tq2 p3)
  | None => Raise TypeError
  end.

(** Lines 45-64: the parameters of the closest points on the infinite lines. *)
Definition line_parameters (eps : float) (P1 P2 Q1 Q2 : list float)
  : result (float * float) :=
  let u := sub P2 P1 in
  let v := sub Q2 Q1 in
  let w := sub Q1 P1 in
  let a := dot u u in
  let b := dot u v in
  let c := dot v v in
  let d := dot u w in
  let e := dot v w in
  let D := PrimFloat.add (mul (opp a) c) (mul b b) in
  if ltb eps (abs D) then
    s ← truediv (PrimFloat.sub (mul b e) (mul c d)) D;
    t ← truediv (PrimFloat.sub (mul a e) (mul b d)) D;
    Ok (s, t)
  else
    t ← (if ltb eps c then truediv e c else Ok 0%float);
    Ok (0%float, t).

Definition closest_points_on_segments_in_3D (A1 A2 B1 B2 : list float) (eps : float)
  : result solution :=
  let P1 := take 3 A1 in
  let P2 := take 3 A2 in
  let Q1 := take 3 B1 in
  let Q2 := take 3 B2 in
  tp1 ← getitem A1 3;
  tp2 ← getitem A2 3;
  tq1 ← getitem B1 3;
  tq2 ← getitem B2 3;
  let u := sub P2 P1 in
  let v := sub Q2 Q1 in
  '(s, t) ← line_parameters eps P1 P2 Q1 Q2;
  let s_clamped := clamp s in
  let t_clamped := clamp t in
  let Pc := add P1 (scale u s_clamped) in
  let Qc := add Q1 (scale v t_clamped) in
  if leb 0 s && leb s 1 && leb 0 t && leb t 1 then
    n ← norm (sub Pc Qc);
    Ok (Pc, Qc, n, time_calculations tp1 tp2 s_clamped tq1 tq2 t_clamped)
  else
    endpoint_fallback eps P1 P2 Q1 Q2 tp1 tp2 tq1 tq2.

End Float64.

(** * Definitions for the statements *)

(** ** Well-formed solver inputs

    [check_spatial_conflicts] only ever passes 4-element lists
    [[x, y, z, time_seconds]] to the solver. *)

Record Endpoint : Type := {
  ex : R;
  ey : R;
  ez : R;
  etime : R
}.

(** the list the code holds for an endpoint *)
Definition vec4 (p : Endpoint) : list R := [ex p; ey p; ez p; etime p].
(** its spatial part, [p[:3]] *)
Definition xyz (p : Endpoint) : list R := [ex p; ey p; ez p].

(** Euclidean distance of two points *)
Definition distance (p q : list R) : R :=
  sqrt (Solver.dot (Solver.sub p q) (Solver.sub p q)).

(** the point of parameter [s] on the segment from [X1] to [X2] *)
Definition point_at (X1 X2 : list R) (s : R) : list R :=
  Solver.add X1 (Solver.scale (Solver.sub X2 X1) s).

(** linear interpolation of the time along a segment *)
Definition time_at (t_start t_end s : R) : R := (t_end - t_start) * s + t_start.

(** a parameter of a point of the finite segment *)
Definition in_unit (x : R) : Prop := 0 <= x <= 1.

(** ** The value the solver computes

    The solver without the error monad: with a non-negative tolerance no
    guarded operation raises (lemma [solver_ok] below), and the result is
    [solver_value]. *)

(** the unclamped line parameters [(s, t)] *)
Definition line_values (eps : R) (P1 P2 Q1 Q2 : list R) : R * R :=
  let u := Solver.sub P2 P1 in
  let v := Solver.sub Q2 Q1 in
  let w := Solver.sub Q1 P1 in
  let a := Solver.dot u u in
  let b := Solver.dot u v in
  let c := Solver.dot v v in
  let d := Solver.dot u w in
  let e := Solver.dot v w in
  let D := - a * c + b * b in
  if Rgtb (Rabs D) eps
  then ((b * e - c * d) / D, (a * e - b * d) / D)
  else (0, if Rgtb c eps then e / c else 0).

(** the clamped parameter of the projection of [X] onto segment [A]-[B] *)
Definition projection (eps : R) (A B X : list R) : R :=
  let AB := Solver.sub B A in
  Solver.clamp
    (if Rgtb (Solver.dot AB AB) eps
     then Solver.dot (Solver.sub X A) AB / Solver.dot AB AB
     else 0).

(** A fallback candidate: its distance and the tuple kept in [best_pair]. *)
Definition candidate : Type := R * (list R * R * list R * R).

(** an endpoint [P] of the first segment against segment [Q1]-[Q2];
    [k] is [temp_var] *)
Definition candidate_P (eps : R) (Q1 Q2 P : list R) (k : Z) : candidate :=
  let t := projection eps Q1 Q2 P in
  (distance P (point_at Q1 Q2 t), (P, IZR k, point_at Q1 Q2 t, t)).

(** an endpoint [Q] of the second segment against segment [P1]-[P2] *)
Definition candidate_Q (eps : R) (P1 P2 Q : list R) (k : Z) : candidate :=
  let s := projection eps P1 P2 Q in
  (distance (point_at P1 P2 s) Q, (point_at P1 P2 s, s, Q, IZR k)).

(** the four endpoint candidates, in the order the code visits them *)
Definition candidates (eps : R) (P1 P2 Q1 Q2 : list R) : list candidate :=
  [ candidate_P eps Q1 Q2 P1 0; candidate_P eps Q1 Q2 P2 1;
    candidate_Q eps P1 P2 Q1 0; candidate_Q eps P1 P2 Q2 1 ].

(** Minimum distance with ties going to the candidate found first. *)
Definition keep_first_min (best c : candidate) : candidate :=
  if Rltb c.1 best.1 then c else best.

(** the loops over the candidates: a candidate replaces the best one only
    when it is strictly closer *)
Definition first_min (c0 : candidate) (cs : list candidate) : candidate :=
  fold_left keep_first_min cs c0.

(** line 109: the result made from [best_dist] and [best_pair] *)
Definition solution_of (tp1 tp2 tq1 tq2 : R) (c : candidate) : Solver.solution :=
  let '(d, (p0, p1, p2, p3)) := c in
  (p0, p2, d, Solver.time_calculations tp1 tp2 p1 tq1 tq2 p3).

(** the result of the endpoint fallback *)
Definition fallback_value (eps : R) (A1 A2 B1 B2 : Endpoint) : Solver.solution :=
  solution_of (etime A1) (etime A2) (etime B1) (etime B2)
    (first_min (candidate_P eps (xyz B1) (xyz B2) (xyz A1) 0)
       [ candidate_P eps (xyz B1) (xyz B2) (xyz A2) 1;
         candidate_Q eps (xyz A1) (xyz A2) (xyz B1) 0;
         candidate_Q eps (xyz A1) (xyz A2) (xyz B2) 1 ]).

(** line 76: the result of the direct return *)
Definition direct_value (A1 A2 B1 B2 : Endpoint) (s t : R) : Solver.solution :=
  let Pc := point_at (xyz A1) (xyz A2) (Solver.clamp s) in
  let Qc := point_at (xyz B1) (xyz B2) (Solver.clamp t) in
  (Pc, Qc, distance Pc Qc,
   Solver.time_calculations (etime A1) (etime A2) (Solver.clamp s)
                            (etime B1) (etime B2) (Solver.clamp t)).

(** line 75: [0.0 <= s <= 1.0 and 0.0 <= t <= 1.0] *)
Definition both_inside (s t : R) : bool :=
  Rleb 0 s && Rleb s 1 && Rleb 0 t && Rleb t 1.

(** the result of [closest_points_on_segments_in_3D] *)
Definition solver_value (eps : R) (A1 A2 B1 B2 : Endpoint) : Solver.solution :=
  let '(s, t) := line_values eps (xyz A1) (xyz A2) (xyz B1) (xyz B2) in
  if both_inside s t
  then direct_value A1 A2 B1 B2 s t
  else fallback_value eps A1 A2 B1 B2.


(** the loop state after some candidates were seen *)
Definition state_after (best : option candidate) (k : Z) : Solver.fallback_state :=
  {| Solver.best_dist := match best with Some c => Finite c.1 | None => Infinity end;
     Solver.best_pair := match best with Some c => Some c.2 | None => None end;
     Solver.temp_var := k |}.

(** the best candidate after one more candidate [c] *)
Definition seen (best : option candidate) (c : candidate) : option candidate :=
  Some (match best with Some b => keep_first_min b c | None => c end).

(** ** The squared distance as a quadratic in the two parameters

    With [u = P2 - P1], [v = Q2 - Q1], [w = Q1 - P1] and the five scalar
    products of the code, the squared distance of the points of parameters
    [s] and [t] is [a s^2 - 2 b s t + c t^2 - 2 d s + 2 e t + w.w]. *)

(** the quadratic of coefficients [a], [b], [c], [d], [e] and constant [k] *)
Definition quad (a b c d e k s t : R) : R :=
  a * s * s - 2 * b * s * t + c * t * t - 2 * d * s + 2 * e * t + k.

Section Geometry.

Variables A1 A2 B1 B2 : Endpoint.

(** [u], [v], [w] and [a], [b], [c], [d], [e], [D] of lines 45-55 *)
Definition vec_u : list R := Solver.sub (xyz A2) (xyz A1).
Definition vec_v : list R := Solver.sub (xyz B2) (xyz B1).
Definition vec_w : list R := Solver.sub (xyz B1) (xyz A1).
Definition sp_a : R := Solver.dot vec_u vec_u.
Definition sp_b : R := Solver.dot vec_u vec_v.
Definition sp_c : R := Solver.dot vec_v vec_v.
Definition sp_d : R := Solver.dot vec_u vec_w.
Definition sp_e : R := Solver.dot vec_v vec_w.
Definition sp_D : R := - sp_a * sp_c + sp_b * sp_b.

(** squared distance of the points of parameters [s] and [t] *)
Definition sqdist (s t : R) : R :=
  quad sp_a sp_b sp_c sp_d sp_e (Solver.dot vec_w vec_w) s t.

End Geometry.

(** ** Results written with their parameters, and the predicates of the statements *)

(** the segment between the points of parameters [s] and [t] is orthogonal
    to both segments: [s] and [t] are the parameters of the closest points of
    the two infinite lines *)
Definition common_perpendicular (A1 A2 B1 B2 : Endpoint) (s t : R) : Prop :=
  let P := point_at (xyz A1) (xyz A2) s in
  let Q := point_at (xyz B1) (xyz B2) t in
  Solver.dot (vec_u A1 A2) (Solver.sub P Q) = 0
  /\ Solver.dot (vec_v B1 B2) (Solver.sub P Q) = 0.

(** the result made of the points of parameters [s] and [t] *)
Definition solution_at (A1 A2 B1 B2 : Endpoint) (s t : R) : Solver.solution :=
  (point_at (xyz A1) (xyz A2) s, point_at (xyz B1) (xyz B2) t,
   distance (point_at (xyz A1) (xyz A2) s) (point_at (xyz B1) (xyz B2) t),
   (time_at (etime A1) (etime A2) s, time_at (etime B1) (etime B2) t)).

(** the candidate made of the points of parameters [s] and [t] *)
Definition candidate_at (A1 A2 B1 B2 : Endpoint) (s t : R) : candidate :=
  (distance (point_at (xyz A1) (xyz A2) s) (point_at (xyz B1) (xyz B2) t),
   (point_at (xyz A1) (xyz A2) s, s, point_at (xyz B1) (xyz B2) t, t)).

(** the four candidates written with their parameters *)
Definition candidates_at (eps : R) (A1 A2 B1 B2 : Endpoint) : list candidate :=
  [ candidate_at A1 A2 B1 B2 0 (projection eps (xyz B1) (xyz B2) (xyz A1));
    candidate_at A1 A2 B1 B2 1 (projection eps (xyz B1) (xyz B2) (xyz A2));
    candidate_at A1 A2 B1 B2 (projection eps (xyz A1) (xyz A2) (xyz B1)) 0;
    candidate_at A1 A2 B1 B2 (projection eps (xyz A1) (xyz A2) (xyz B2)) 1 ].

(** the distance of a result *)
Definition sol_distance (r : Solver.solution) : R := r.1.2.

(** the level that [check_for_conflicts] returns *)
Definition conflict_level (self : SpatialAnalyzer) (results : Solver.solution) : Z :=
  (check_for_conflicts self results).1.1.1.1.

(** [dmin] is a lower bound of the distances between the two finite segments *)
Definition minimal_distance (A1 A2 B1 B2 : Endpoint) (dmin : R) : Prop :=
  forall s t : R, in_unit s -> in_unit t ->
    dmin <= distance (point_at (xyz A1) (xyz A2) s) (point_at (xyz B1) (xyz B2) t).


(** a segment as [convert_waypoints_to_segments] builds it *)
Definition wf_segment (seg : Segment) : Prop :=
  exists e1 e2 : Endpoint, seg = (vec4 e1, vec4 e2).

(** the reported distance is the distance of the two reported locations *)
Definition consistent (c : Conflict) : Prop :=
  min_distance c = distance (location_primary c) (location_other c).

(** a waypoint that carries its four fields *)
Definition valid_waypoint (wp : Waypoint) : Prop :=
  forall field, field ∈ required_fields -> is_Some (wp !! field).

(** [reference] is the least timestamp of the waypoints [wps] *)
Definition least_timestamp (wps : list Waypoint) (reference : R) : Prop :=
  (exists wp, wp ∈ wps /\ wp !! "timestamp"%string = Some reference)
  /\ forall wp ts, wp ∈ wps -> wp !! "timestamp"%string = Some ts -> reference <= ts.

(** ** The loops of the aggregator as maps

    An intermediate form of the aggregator: the nested loops written as a
    map over the full cross product of the segments, with the segment
    builder and the reference time of the code.  It is compared with the
    loops in [check_spatial_conflicts_spec] and [detect_all_conflicts_spec_eq]
    below, and with the specification [detection], which is written on the
    values of the waypoints, in [detect_all_conflicts_every_pair]. *)

(** run [f] on every element, in order, and collect the results *)
Fixpoint map_result {A B : Type} (f : A -> result B) (l : list A) : result (list B) :=
  match l with
  | [] => Ok []
  | x :: rest =>
      y ← f x;
      ys ← map_result f rest;
      Ok (y :: ys)
  end.

(** the Conflict Record of a segment pair: none at level 0, one otherwise *)
Definition record_for (self : SpatialAnalyzer) (reference_time : R)
    (other_drone_id : string) (i j : nat) (r : Solver.solution) : list Conflict :=
  let '(closest_P, closest_Q, dist, (t1, t2)) := r in
  let level := conflict_level self r in
  if (level =? 0)%Z then []
  else
    [ {| with_drone := other_drone_id;
         min_distance := dist;
         location_primary := closest_P;
         location_other := closest_Q;
         timestamp_primary := reference_time + t1;
         timestamp_other := reference_time + t2;
         time_difference := Rabs (t2 - t1);
         spatial_conflict := true;
         temporal_conflict := negb (level =? 1)%Z;
         conflict_type := if (level =? 1)%Z then "SPATIAL" else "SPATIOTEMPORAL";
         primary_segment := i;
         other_segment := j |} ].

(** Solver and Classifier on one (primary segment, other segment) pair *)
Definition pair_conflicts (self : SpatialAnalyzer) (reference_time : R)
    (other_drone_id : string) (pq : (nat * Segment) * (nat * Segment))
  : result (list Conflict) :=
  let '((i, (p1, p2)), (j, (o1, o2))) := pq in
  r ← Solver.closest_points_on_segments_in_3D p1 p2 o1 o2 eps_default;
  Ok (record_for self reference_time other_drone_id i j r).

(** every (primary segment, other segment) pair with its two indices:
    primary index ascending, then other index ascending *)
Definition segment_pairs (primary_segments other_segments : list Segment)
  : list ((nat * Segment) * (nat * Segment)) :=
  list_prod (enumerate primary_segments) (enumerate other_segments).

(** the records of the primary path against one other path *)
Definition spatial_conflicts_spec (self : SpatialAnalyzer)
    (primary_waypoints other_waypoints : list Waypoint) (other_drone_id : string)
  : result (list Conflict) :=
  reference_time ← reference_time_of primary_waypoints other_waypoints;
  primary_segments ← convert_waypoints_to_segments reference_time primary_waypoints;
  other_segments ← convert_waypoints_to_segments reference_time other_waypoints;
  records ← map_result (pair_conflicts self reference_time other_drone_id)
                       (segment_pairs primary_segments other_segments);
  Ok (concat records).

(** the records of the primary path against every other drone, in input order *)
Definition detect_all_conflicts_spec (self : ConflictDetector) (primary_path : Path)
    (flights : list Path) : result (list Conflict) :=
  records ← map_result
              (fun drone =>
                 spatial_conflicts_spec (spatial_analyzer self)
                   (waypoints primary_path) (waypoints drone) (drone_id drone))
              flights;
  Ok (concat records).

(** a loop body that appends what [f] returns *)
Definition appending {A B : Type} (f : A -> result (list B))
  : list B -> A -> result (list B) :=
  fun acc x => r ← f x; Ok (acc ++ r).

(** ** Concrete inputs *)

(** the dict [{"x": x, "y": y, "z": z, "timestamp": ts}] *)
Definition waypoint_of (x y z ts : R) : Waypoint :=
  <["x"%string := x]> (<["y"%string := y]> (<["z"%string := z]>
    (<["timestamp"%string := ts]> ∅))).

(** the endpoint of a valid waypoint relative to a reference time *)
Definition endpoint_of (reference_time x y z ts : R) : Endpoint :=
  {| ex := x; ey := y; ez := z;
     etime := convert_timestamp_to_seconds ts reference_time |}.

(** a pair of segments whose closest line points lie outside both segments *)
Definition skew_A1 : Endpoint := {| ex := 0; ey := 0; ez := 0; etime := 0 |}.
Definition skew_A2 : Endpoint := {| ex := 1; ey := 0; ez := 0; etime := 1 |}.
Definition skew_B1 : Endpoint := {| ex := 2; ey := 1; ez := 0; etime := 0 |}.
Definition skew_B2 : Endpoint := {| ex := 2; ey := 2; ez := 0; etime := 1 |}.



(** Two parallel segments of length 2, one unit apart, overlapping over a
    length of 1. *)
Definition par_A1 : Endpoint := {| ex := 0; ey := 0; ez := 0; etime := 0 |}.
Definition par_A2 : Endpoint := {| ex := 2; ey := 0; ez := 0; etime := 2 |}.
Definition par_B1 : Endpoint := {| ex := 1; ey := 1; ez := 0; etime := 0 |}.
Definition par_B2 : Endpoint := {| ex := 3; ey := 1; ez := 0; etime := 2 |}.

(** A second segment reduced to a point that lies on the first segment. *)
Definition dot_A1 : Endpoint := {| ex := 0; ey := 0; ez := 0; etime := 0 |}.
Definition dot_A2 : Endpoint := {| ex := 2; ey := 0; ez := 0; etime := 2 |}.
Definition dot_B1 : Endpoint := {| ex := 1; ey := 0; ez := 0; etime := 0 |}.
Definition dot_B2 : Endpoint := {| ex := 1; ey := 0; ez := 0; etime := 2 |}.

(** Two paths that cross at (5, 0, 0) five seconds after their start. *)
Definition crossing_primary : list Waypoint :=
  [waypoint_of 0 0 0 0; waypoint_of 10 0 0 10].
Definition crossing_other : list Waypoint :=
  [waypoint_of 5 (-5) 0 0; waypoint_of 5 5 0 10].

(** their endpoints relative to the reference time 0 *)
Definition crossing_A1 : Endpoint := endpoint_of 0 0 0 0 0.
Definition crossing_A2 : Endpoint := endpoint_of 0 10 0 0 10.
Definition crossing_B1 : Endpoint := endpoint_of 0 5 (-5) 0 0.
Definition crossing_B2 : Endpoint := endpoint_of 0 5 5 0 10.

(** the record expected for the crossing *)
Definition crossing_record : Conflict :=
  let r := solution_at crossing_A1 crossing_A2 crossing_B1 crossing_B2 (1 / 2) (1 / 2) in
  {| with_drone := "D2";
     min_distance := r.1.2;
     location_primary := r.1.1.1;
     location_other := r.1.1.2;
     timestamp_primary := 0 + r.2.1;
     timestamp_other := 0 + r.2.2;
     time_difference := Rabs (r.2.2 - r.2.1);
     spatial_conflict := true;
     temporal_conflict := true;
     conflict_type := "SPATIOTEMPORAL";
     primary_segment := 0;
     other_segment := 0 |}.

(** a waypoint without altitude *)
Definition flat_waypoint : Waypoint :=
  <["x"%string := 0]> (<["y"%string := 0]> (<["timestamp"%string := 0]> ∅)).

(** a primary path whose first waypoint has no altitude *)
Definition flat_primary : Path :=
  {| drone_id := "P"; waypoints := [flat_waypoint; waypoint_of 10 0 0 10] |}.

(** the other drone of the crossing *)
Definition crossing_drone : Path :=
  {| drone_id := "D2"; waypoints := crossing_other |}.

(** a primary path whose timestamps decrease *)
Definition backwards_primary : Path :=
  {| drone_id := "P"; waypoints := [waypoint_of 0 0 0 10; waypoint_of 10 0 0 0] |}.

(** a primary path without waypoints *)
Definition empty_primary : Path := {| drone_id := "P"; waypoints := [] |}.

Section Binary64_inputs.

Import PrimFloat.

(** Binary64 inputs of the solver.  A segment 1e200 long along the x axis
    and a unit segment across it: the squared length 1e400 is beyond the
    largest binary64 number. *)
#[warnings="-inexact-float"]
Definition far_A1 : list float := [0; 0; 0; 0]%float.
#[warnings="-inexact-float"]
Definition far_A2 : list float := [1e200; 0; 0; 10]%float.
#[warnings="-inexact-float"]
Definition far_B1 : list float := [5e199; 1; 0; 0]%float.
#[warnings="-inexact-float"]
Definition far_B2 : list float := [5e199; 2; 0; 10]%float.

(** Two segments 100 long, ten apart, the second tilted by 2^-23 over its
    length: the exact [D] is [- 10^4 / 2^46], about -1.4e-10, and its two
    products both round to 1e8. *)
Definition tilted_A1 : list float := [0; 0; 0; 0]%float.
Definition tilted_A2 : list float := [100; 0; 0; 10]%float.
Definition tilted_B1 : list float := [50; 10; 0; 0]%float.
Definition tilted_B2 : list float :=
  [150; 10 + 0x1p-23; 0; 10]%float.

End Binary64_inputs.

(** the same two segments on real numbers *)
Definition tilt_A1 : Endpoint := {| ex := 0; ey := 0; ez := 0; etime := 0 |}.
Definition tilt_A2 : Endpoint := {| ex := 100; ey := 0; ez := 0; etime := 10 |}.
Definition tilt_B1 : Endpoint := {| ex := 50; ey := 10; ez := 0; etime := 0 |}.
Definition tilt_B2 : Endpoint :=
  {| ex := 150; ey := 10 + 1 / 2 ^ 23; ez := 0; etime := 10 |}.

(** * The other methods of the analyzer and of the detector *)

(** ** Positions in time: the other methods of [SpatialAnalyzer] *)

(** [int(x)] of a float: truncation towards zero *)
Definition py_int (x : R) : Z :=
  if Rle_dec 0 x then Int_part x else (- Int_part (- x))%Z.

(** [len(range(start, stop, step))] for a non-zero step *)
Definition range_length (start stop step : Z) : Z :=
  if (0 <? step)%Z
  then if (start <? stop)%Z then ((stop - start - 1) / step + 1)%Z else 0%Z
  else if (stop <? start)%Z then ((start - stop - 1) / (- step) + 1)%Z else 0%Z.

(** the values of [range(start, stop, step)] for a non-zero step *)
Definition range_values (start stop step : Z) : list Z :=
  map (fun k => (start + Z.of_nat k * step)%Z)
      (seq 0 (Z.to_nat (range_length start stop step))).

(** [range(start, stop, step)]: raises [ValueError] on a zero step. *)
Definition py_range (start stop step : Z) : result (list Z) :=
  if (step =? 0)%Z then Raise ValueError
  else Ok (range_values start stop step).

(** [interpolate_position]: the position at time [t] between two waypoints,
    [None] outside their time range *)
Definition interpolate_position (wp1 wp2 : Waypoint) (t : R) : result (option (list R)) :=
  t1 ← wp_get wp1 "timestamp";
  t2 ← wp_get wp2 "timestamp";
  if Rltb t t1 || Rgtb t t2 then Ok None
  else
    let total := t2 - t1 in
    alpha ← (if Rgtb total 0 then truediv (t - t1) total else Ok 0);
    x1 ← wp_get wp1 "x"; x2 ← wp_get wp2 "x"; x1' ← wp_get wp1 "x";
    let x := x1 + alpha * (x2 - x1') in
    y1 ← wp_get wp1 "y"; y2 ← wp_get wp2 "y"; y1' ← wp_get wp1 "y";
    let y := y1 + alpha * (y2 - y1') in
    z1 ← wp_get wp1 "z"; z2 ← wp_get wp2 "z"; z1' ← wp_get wp1 "z";
    let z := z1 + alpha * (z2 - z1') in
    Ok (Some [x; y; z]).

(** the loop of [get_position_at_time] over the segment indices: the first
    segment whose time range holds [t] decides *)
Fixpoint get_position_loop (wps : list Waypoint) (t : R) (indices : list nat)
  : result (option (list R)) :=
  match indices with
  | [] => Ok None
  | i :: rest =>
      wp1 ← wp_index wps i;
      wp2 ← wp_index wps (i + 1);
      t1 ← wp_get wp1 "timestamp";
      t2 ← wp_get wp2 "timestamp";
      if Rleb t1 t && Rleb t t2 then interpolate_position wp1 wp2 t
      else get_position_loop wps t rest
  end.

Definition get_position_at_time (wps : list Waypoint) (t : R) : result (option (list R)) :=
  get_position_loop wps t (seq 0 (length wps - 1)).

(** A segment with time information: [(start, end, start_time, end_time)]. *)
Abbreviation TimedSegment := (list R * list R * R * R)%type.

(** [get_segments_with_time]: the comprehension over
    [zip(waypoints[:-1], waypoints[1:])] *)
Definition get_segments_with_time (wps : list Waypoint) : result (list TimedSegment) :=
  map_result
    (fun w12 : Waypoint * Waypoint =>
       let '(w1, w2) := w12 in
       x1 ← wp_get w1 "x"; y1 ← wp_get w1 "y"; z1 ← wp_get w1 "z";
       x2 ← wp_get w2 "x"; y2 ← wp_get w2 "y"; z2 ← wp_get w2 "z";
       ts1 ← wp_get w1 "timestamp";
       ts2 ← wp_get w2 "timestamp";
       Ok ([x1; y1; z1], [x2; y2; z2], ts1, ts2))
    (zip (take (length wps - 1) wps) (drop 1 wps)).

(** A sample: a position and its time. *)
Abbreviation Sample := (list R * R)%type.

(** lines 183-186: the body of the inner loop of [sample_path_positions] *)
Definition sample_at (wp1 wp2 : Waypoint) (t1 : R) (samples : list Sample) (s : Z)
  : result (list Sample) :=
  let t := t1 + IZR s in
  pos ← interpolate_position wp1 wp2 t;
  match pos with
  | Some pos => Ok (samples ++ [(pos, t)])
  | None => Ok samples
  end.

(** lines 177-186: the samples of the segment that starts at waypoint [i];
    [step] is [self.interpolation_step] *)
Definition sample_segment (step : Z) (wps : list Waypoint)
    (samples : list Sample) (i : nat) : result (list Sample) :=
  wp1 ← wp_index wps i;
  wp2 ← wp_index wps (i + 1);
  t1 ← wp_get wp1 "timestamp";
  t2 ← wp_get wp2 "timestamp";
  let segment_duration := t2 - t1 in
  steps ← py_range 0 (py_int segment_duration + 1) step;
  for_each (sample_at wp1 wp2 t1) steps samples.

Definition sample_path_positions (self : SpatialAnalyzer) (wps : list Waypoint)
  : result (list Sample) :=
  for_each (sample_segment (interpolation_step self) wps) (seq 0 (length wps - 1)) [].

(** ** The counts of [print_conflict_summary] *)

(** [sum(1 for c in conflicts if test(c))] *)
Definition count_if (test : Conflict -> bool) (conflicts : list Conflict) : Z :=
  fold_left Z.add (map (fun _ => 1%Z) (filter (fun c => test c = true) conflicts)) 0%Z.

(** the four numbers of the printed summary *)
Record Summary : Type := {
  spatial_count : Z;
  spatiotemporal_count : Z;
  temporal_count : Z;
  total_count : nat
}.

(** [print_conflict_summary], lines 44-57: [None] when it prints that no
    conflict was detected, the printed counts otherwise; the detailed list
    that follows is left out. *)
Definition print_conflict_summary (conflicts : list Conflict) : option Summary :=
  match conflicts with
  | [] => None
  | _ =>
      Some {| spatial_count := count_if (fun c => String.eqb (conflict_type c) "SPATIAL")
                                        conflicts;
              spatiotemporal_count :=
                count_if (fun c => String.eqb (conflict_type c) "SPATIOTEMPORAL") conflicts;
              temporal_count := count_if (fun c => String.eqb (conflict_type c) "TEMPORAL")
                                         conflicts;
              total_count := length conflicts |}
  end.

(** ** The sampling detector of [Method 1]

    [Method 1/spatial_analyzer.py] has the same [interpolate_position],
    [get_position_at_time], [get_segments_with_time] and
    [sample_path_positions], and compares the samples of two paths;
    [Method 1/temporal_analyzer.py] is the [TemporalAnalyzer] that the
    detectors build.  A sampled position is the 3-element array of
    [interpolate_position]; [np.linalg.norm(p - q)] is [distance p q]. *)

Module Method1.

Record SpatialAnalyzer : Type := {
  drone_radius : R;
  interpolation_step : Z
}.

Definition SpatialAnalyzer_init (radius : R) (step : Z) : SpatialAnalyzer :=
  {| drone_radius := radius; interpolation_step := step |}.

(** a conflict record of this detector: it has no segment indices *)
Record Conflict : Type := {
  with_drone : string;
  min_distance : R;
  location_primary : list R;
  location_other : list R;
  timestamp_primary : R;
  timestamp_other : R;
  time_difference : R;
  spatial_conflict : bool;
  temporal_conflict : bool;
  conflict_type : string
}.

Definition sample_path_positions (self : SpatialAnalyzer) (wps : list Waypoint)
  : result (list Sample) :=
  for_each (sample_segment (interpolation_step self) wps) (seq 0 (length wps - 1)) [].

(** [waypoints[-1]] *)
Definition last_waypoint (wps : list Waypoint) : result Waypoint :=
  match last wps with
  | Some wp => Ok wp
  | None => Raise IndexError
  end.

(** [closest_distance] and [closest_other_data] of lines 95-96 *)
Record closest_state : Type := {
  closest_distance : extended;
  closest_other_data : option (list R * R * R)
}.

(** lines 99-110: the body of the loop over the samples of the other drone;
    the data kept is [(other_pos, other_time, time_diff)] *)
Definition closer (primary_pos : list R) (primary_time : R) (st : closest_state)
    (other : Sample) : closest_state :=
  let '(other_pos, other_time) := other in
  let time_diff := Rabs (primary_time - other_time) in
  if Rleb time_diff 1 then
    let dist := distance primary_pos other_pos in
    if lt_extended dist (closest_distance st)
    then {| closest_distance := Finite dist;
            closest_other_data := Some (other_pos, other_time, time_diff) |}
    else st
  else st.

(** lines 94-130: the body of the loop over the samples of the primary
    drone; the state is [(conflicts, last_conflict_time)] *)
Definition check_sample (self : SpatialAnalyzer) (other_samples : list Sample)
    (other_drone_id : string) (st : list Conflict * option R) (sample : Sample)
  : list Conflict * option R :=
  let '(conflicts, last_conflict_time) := st in
  let '(primary_pos, primary_time) := sample in
  let conflict_interval := 2 in
  let closest :=
    fold_left (closer primary_pos primary_time) other_samples
              {| closest_distance := Infinity; closest_other_data := None |} in
  match closest_other_data closest, closest_distance closest with
  | Some (other_pos, other_time, time_diff), Finite dist =>
      if Rltb dist (drone_radius self) then
        if match last_conflict_time with
           | None => true
           | Some last => Rleb conflict_interval (primary_time - last)
           end
        then
          (conflicts ++ [ {| with_drone := other_drone_id;
                             min_distance := dist;
                             location_primary := primary_pos;
                             location_other := other_pos;
                             timestamp_primary := primary_time;
                             timestamp_other := other_time;
                             time_difference := time_diff;
                             spatial_conflict := true;
                             temporal_conflict := false;
                             conflict_type := "SPATIAL" |} ],
           Some primary_time)
        else st
      else st
  | _, _ => st
  end.

Definition check_spatial_conflicts (self : SpatialAnalyzer)
    (primary_waypoints other_waypoints : list Waypoint) (other_drone_id : string)
  : result (list Conflict) :=
  wp ← wp_index primary_waypoints 0; primary_start ← wp_get wp "timestamp";
  wp ← last_waypoint primary_waypoints; primary_end ← wp_get wp "timestamp";
  wp ← wp_index other_waypoints 0; other_start ← wp_get wp "timestamp";
  wp ← last_waypoint other_waypoints; other_end ← wp_get wp "timestamp";
  let max_time_gap := 5 in
  let compare_samples :=
    primary_samples ← sample_path_positions self primary_waypoints;
    other_samples ← sample_path_positions self other_waypoints;
    Ok (fold_left (check_sample self other_samples other_drone_id)
                  primary_samples ([], None)).1 in
  if Rltb primary_end other_start then
    if Rgtb (other_start - primary_end) max_time_gap then Ok [] else compare_samples
  else if Rltb other_end primary_start then
    if Rgtb (primary_start - other_end) max_time_gap then Ok [] else compare_samples
  else compare_samples.

Record TemporalAnalyzer : Type := {
  time_threshold : R;
  position_threshold : R
}.

Definition TemporalAnalyzer_init (time position : R) : TemporalAnalyzer :=
  {| time_threshold := time; position_threshold := position |}.

(** lines 18-35 of [temporal_analyzer.py]: the body of the inner loop *)
Definition check_samples (self : TemporalAnalyzer) (other_drone_id : string)
    (primary : Sample) (conflicts : list Conflict) (other : Sample) : list Conflict :=
  let '(primary_pos, primary_time) := primary in
  let '(other_pos, other_time) := other in
  let spatial_distance := distance primary_pos other_pos in
  let time_diff := Rabs (primary_time - other_time) in
  if Rltb spatial_distance (position_threshold self)
     && Rltb time_diff (time_threshold self)
  then conflicts ++ [ {| with_drone := other_drone_id;
                         min_distance := spatial_distance;
                         location_primary := primary_pos;
                         location_other := other_pos;
                         timestamp_primary := primary_time;
                         timestamp_other := other_time;
                         time_difference := time_diff;
                         spatial_conflict := false;
                         temporal_conflict := true;
                         conflict_type := "TEMPORAL" |} ]
  else conflicts.

Definition check_temporal_conflict (self : TemporalAnalyzer)
    (primary_samples other_samples : list Sample) (other_drone_id : string)
  : list Conflict :=
  fold_left
    (fun conflicts primary =>
       fold_left (check_samples self other_drone_id primary) other_samples conflicts)
    primary_samples [].

Record ConflictDetector : Type := {
  spatial_analyzer : SpatialAnalyzer;
  temporal_analyzer : TemporalAnalyzer
}.

(** [ConflictDetector.__init__]: the interpolation step and the position
    threshold keep their defaults, [1] and [1.0] *)
Definition ConflictDetector_init (radius time : R) : ConflictDetector :=
  {| spatial_analyzer := SpatialAnalyzer_init radius 1;
     temporal_analyzer := TemporalAnalyzer_init time 1 |}.

Definition detect_all_conflicts (self : ConflictDetector) (primary_path : Path)
    (flights : list Path) : result (list Conflict) :=
  let primary_waypoints := waypoints primary_path in
  for_each
    (fun (conflicts : list Conflict) (drone : Path) =>
       let other_waypoints := waypoints drone in
       let drone_id := drone_id drone in
       spatial_conflicts ←
         check_spatial_conflicts (spatial_analyzer self)
                                 primary_waypoints other_waypoints drone_id;
       let conflicts := conflicts ++ spatial_conflicts in
       primary_samples ← sample_path_positions (spatial_analyzer self) primary_waypoints;
       other_samples ← sample_path_positions (spatial_analyzer self) other_waypoints;
       let temporal_conflicts :=
         check_temporal_conflict (temporal_analyzer self)
                                 primary_samples other_samples drone_id in
       Ok (conflicts ++ temporal_conflicts))
    flights
    [].

(** [sum(1 for c in conflicts if test(c))] *)
Definition count_if (test : Conflict -> bool) (conflicts : list Conflict) : Z :=
  fold_left Z.add (map (fun _ => 1%Z) (filter (fun c => test c = true) conflicts)) 0%Z.

(** [print_conflict_summary], lines 40-50: [None] when it prints that no
    conflict was detected, otherwise the printed counts of spatial and of
    temporal conflicts *)
Definition print_conflict_summary (conflicts : list Conflict) : option (Z * Z) :=
  match conflicts with
  | [] => None
  | _ => Some (count_if spatial_conflict conflicts, count_if temporal_conflict conflicts)
  end.

End Method1.

(** * Definitions for the further properties *)

(** ** Paths whose waypoints carry their four fields *)

(** the waypoint [wp] has the position and the timestamp of [e] *)
Definition has_fields (wp : Waypoint) (e : Endpoint) : Prop :=
  wp !! "x"%string = Some (ex e) /\ wp !! "y"%string = Some (ey e)
  /\ wp !! "z"%string = Some (ez e) /\ wp !! "timestamp"%string = Some (etime e).

(** the endpoint with its time counted from [reference_time] *)
Definition relative (reference_time : R) (e : Endpoint) : Endpoint :=
  endpoint_of reference_time (ex e) (ey e) (ez e) (etime e).

(** the segments between consecutive waypoints, times counted from
    [reference_time] *)
Definition segments_of (reference_time : R) (es : list Endpoint) : list Segment :=
  map (fun ab => (vec4 (relative reference_time ab.1), vec4 (relative reference_time ab.2)))
      (zip es (tail es)).

(** the pair of segment indices of a record *)
Definition segment_indices (c : Conflict) : nat * nat :=
  (primary_segment c, other_segment c).

(** two records that differ at most in their conflict type and temporal flag *)
Definition same_encounter (c c' : Conflict) : Prop :=
  with_drone c = with_drone c' /\ min_distance c = min_distance c'
  /\ location_primary c = location_primary c' /\ location_other c = location_other c'
  /\ timestamp_primary c = timestamp_primary c' /\ timestamp_other c = timestamp_other c'
  /\ time_difference c = time_difference c' /\ spatial_conflict c = spatial_conflict c'
  /\ primary_segment c = primary_segment c' /\ other_segment c = other_segment c'.

(** ** Positions along a path of endpoints *)

(** the interpolation factor of [interpolate_position] at time [t] *)
Definition factor (t_start t_end t : R) : R :=
  if Rgtb (t_end - t_start) 0 then (t - t_start) / (t_end - t_start) else 0.

(** the position at time [t] on the first segment whose time range holds [t] *)
Fixpoint position_in (es : list Endpoint) (t : R) : option (list R) :=
  match es with
  | e1 :: (e2 :: _) as rest =>
      if Rleb (etime e1) t && Rleb t (etime e2)
      then Some (point_at (xyz e1) (xyz e2) (factor (etime e1) (etime e2) t))
      else position_in rest t
  | _ => None
  end.

(** the timestamps never decrease along the path *)
Fixpoint ascending (es : list Endpoint) : Prop :=
  match es with
  | e1 :: (e2 :: _) as rest => etime e1 <= etime e2 /\ ascending rest
  | _ => True
  end.

(** the timestamps strictly increase along the path *)
Fixpoint increasing (es : list Endpoint) : Prop :=
  match es with
  | e1 :: (e2 :: _) as rest => etime e1 < etime e2 /\ increasing rest
  | _ => True
  end.

(** ** The samples of a path of endpoints *)

(** the sample taken [s] seconds after the start of a segment, if any *)
Definition segment_sample (e1 e2 : Endpoint) (s : Z) : list Sample :=
  let t := etime e1 + IZR s in
  if Rltb t (etime e1) || Rgtb t (etime e2) then []
  else [(point_at (xyz e1) (xyz e2) (factor (etime e1) (etime e2) t), t)].

(** the samples of a segment for an interpolation step *)
Definition segment_samples (step : Z) (e1 e2 : Endpoint) : list Sample :=
  flat_map (segment_sample e1 e2)
           (range_values 0 (py_int (etime e2 - etime e1) + 1) step).

(** the sample [(pos, t)] lies on a segment of the path, a whole number of
    steps after the start of this segment *)
Definition sample_on_path (step : Z) (es : list Endpoint) (sample : Sample) : Prop :=
  exists (i : nat) (e1 e2 : Endpoint) (k : nat),
    es !! i = Some e1 /\ es !! S i = Some e2
    /\ sample.2 = etime e1 + IZR (Z.of_nat k * step)
    /\ etime e1 <= sample.2 <= etime e2
    /\ sample.1 = point_at (xyz e1) (xyz e2) (factor (etime e1) (etime e2) sample.2).

(** the sample times of a segment whose end is not before its start, for a
    positive step: every [step] seconds from the start for the whole
    seconds of the duration *)
Definition sample_times (step : Z) (e1 e2 : Endpoint) : list R :=
  map (fun k => etime e1 + IZR (Z.of_nat k * step))
      (seq 0 (Z.to_nat (py_int (etime e2 - etime e1) / step + 1))).

(** ** The same flights at another time *)

(** the endpoint [delta] seconds later *)
Definition delay (delta : R) (e : Endpoint) : Endpoint :=
  {| ex := ex e; ey := ey e; ez := ez e; etime := etime e + delta |}.

(** the record with its two timestamps [delta] seconds later *)
Definition delay_record (delta : R) (c : Conflict) : Conflict :=
  {| with_drone := with_drone c;
     min_distance := min_distance c;
     location_primary := location_primary c;
     location_other := location_other c;
     timestamp_primary := timestamp_primary c + delta;
     timestamp_other := timestamp_other c + delta;
     time_difference := time_difference c;
     spatial_conflict := spatial_conflict c;
     temporal_conflict := temporal_conflict c;
     conflict_type := conflict_type c;
     primary_segment := primary_segment c;
     other_segment := other_segment c |}.

(** ** The records of the sampling detector *)

(** what every record of the sampling comparison satisfies *)
Definition sampled_record (self : Method1.SpatialAnalyzer) (other_drone_id : string)
    (c : Method1.Conflict) : Prop :=
  Method1.with_drone c = other_drone_id
  /\ 0 <= Method1.min_distance c < Method1.drone_radius self
  /\ Method1.min_distance c
     = distance (Method1.location_primary c) (Method1.location_other c)
  /\ Method1.time_difference c
     = Rabs (Method1.timestamp_primary c - Method1.timestamp_other c)
  /\ Method1.time_difference c <= 1
  /\ Method1.spatial_conflict c = true /\ Method1.temporal_conflict c = false
  /\ Method1.conflict_type c = "SPATIAL"%string.

(** consecutive records are at least [gap] seconds apart in primary time *)
Fixpoint spaced (gap : R) (records : list Method1.Conflict) : Prop :=
  match records with
  | c1 :: (c2 :: _) as rest =>
      gap <= Method1.timestamp_primary c2 - Method1.timestamp_primary c1
      /\ spaced gap rest
  | _ => True
  end.

(** exactly one of the two flags of the record is set *)
Definition one_flag (c : Method1.Conflict) : Prop :=
  Method1.spatial_conflict c = negb (Method1.temporal_conflict c).

(** the closest sample found so far is within a second of the primary
    sample, and the distance kept is its distance *)
Definition closest_ok (primary_pos : list R) (primary_time : R)
    (st : Method1.closest_state) : Prop :=
  match Method1.closest_other_data st, Method1.closest_distance st with
  | Some (other_pos, other_time, time_diff), Finite d =>
      d = distance primary_pos other_pos
      /\ time_diff = Rabs (primary_time - other_time) /\ time_diff <= 1
  | None, Infinity => True
  | _, _ => False
  end.

(** the loop state of the sampling comparison: the records so far and the
    primary time of the last one *)
Definition records_ok (self : Method1.SpatialAnalyzer) (other_drone_id : string)
    (st : list Method1.Conflict * option R) : Prop :=
  Forall (sampled_record self other_drone_id) st.1
  /\ spaced 2 st.1
  /\ st.2 = Method1.timestamp_primary <$> last st.1.

(** ** A drone that hovers *)

(** two waypoints at the same place and time *)
Definition hover_path (x y z ts : R) : list Waypoint :=
  [waypoint_of x y z ts; waypoint_of x y z ts].

(** the one sample of a hovering path *)
Definition hover_sample (x y z ts : R) : Sample :=
  (point_at [x; y; z] [x; y; z] (factor ts ts (ts + 0)), ts + 0).

(** the record of a hovering path against itself *)
Definition hover_record (x y z ts : R) (other_drone_id : string) : Method1.Conflict :=
  {| Method1.with_drone := other_drone_id;
     Method1.min_distance := distance (hover_sample x y z ts).1 (hover_sample x y z ts).1;
     Method1.location_primary := (hover_sample x y z ts).1;
     Method1.location_other := (hover_sample x y z ts).1;
     Method1.timestamp_primary := (hover_sample x y z ts).2;
     Method1.timestamp_other := (hover_sample x y z ts).2;
     Method1.time_difference :=
       Rabs ((hover_sample x y z ts).2 - (hover_sample x y z ts).2);
     Method1.spatial_conflict := true;
     Method1.temporal_conflict := false;
     Method1.conflict_type := "SPATIAL" |}.

(** the temporal record of a hovering path against itself *)
Definition hover_temporal_record (x y z ts : R) (other_drone_id : string)
  : Method1.Conflict :=
  {| Method1.with_drone := other_drone_id;
     Method1.min_distance := distance (hover_sample x y z ts).1 (hover_sample x y z ts).1;
     Method1.location_primary := (hover_sample x y z ts).1;
     Method1.location_other := (hover_sample x y z ts).1;
     Method1.timestamp_primary := (hover_sample x y z ts).2;
     Method1.timestamp_other := (hover_sample x y z ts).2;
     Method1.time_difference :=
       Rabs ((hover_sample x y z ts).2 - (hover_sample x y z ts).2);
     Method1.spatial_conflict := false;
     Method1.temporal_conflict := true;
     Method1.conflict_type := "TEMPORAL" |}.

(** ** The aggregation, written on the values of the waypoints

    What the specification says of [detect_all_conflicts], written without
    the functions of the code other than the solver: the segments of a path
    are its consecutive pairs of waypoints, the times are counted from the
    least timestamp of the two paths, a pair of segments gives a record
    exactly when the distance of its closest points is below the safety
    threshold.  The two timestamps of a record are left out of the
    comparison. *)












(** * Properties *)

(** ** Elementary facts *)

Lemma Rleb_true x y : Rleb x y = true <-> x <= y.
Proof. unfold Rleb. destruct (Rle_dec x y); split; intros; try done; lra. Qed.

Lemma Rleb_false x y : Rleb x y = false <-> y < x.
Proof. unfold Rleb. destruct (Rle_dec x y); split; intros; try done; lra. Qed.

Lemma Rltb_true x y : Rltb x y = true <-> x < y.
Proof. unfold Rltb. destruct (Rlt_dec x y); split; intros; try done; lra. Qed.

Lemma Rltb_false x y : Rltb x y = false <-> y <= x.
Proof. unfold Rltb. destruct (Rlt_dec x y); split; intros; try done; lra. Qed.

Lemma Rgtb_true x y : Rgtb x y = true <-> y < x.
Proof. apply Rltb_true. Qed.

Lemma Rgtb_false x y : Rgtb x y = false <-> x <= y.
Proof. apply Rltb_false. Qed.

Lemma eps_default_pos : 0 < eps_default.
Proof. unfold eps_default. lra. Qed.

Lemma truediv_ok x y : y <> 0 -> truediv x y = Ok (x / y).
Proof. intros H. unfold truediv. destruct (Req_dec_T y 0); [done | reflexivity]. Qed.

Lemma math_sqrt_ok x : 0 <= x -> math_sqrt x = Ok (sqrt x).
Proof. intros H. unfold math_sqrt. destruct (Rlt_dec x 0); [lra | reflexivity]. Qed.

Lemma clamp_in_unit x : in_unit (Solver.clamp x).
Proof.
  unfold in_unit, Solver.clamp, Rmax, Rmin.
  destruct (Rle_dec x 1); destruct (Rle_dec 0 _); lra.
Qed.

Lemma clamp_id x : in_unit x -> Solver.clamp x = x.
Proof.
  unfold in_unit, Solver.clamp, Rmax, Rmin. intros [H0 H1].
  destruct (Rle_dec x 1); destruct (Rle_dec 0 _); lra.
Qed.


Lemma fold_left_Rplus_acc (xs : list R) (acc : R) :
  fold_left Rplus xs acc = acc + fold_left Rplus xs 0.
Proof.
  revert acc. induction xs as [|x xs IH]; intros acc; simpl.
  - lra.
  - rewrite IH, (IH (0 + x)). lra.
Qed.

Lemma dot_cons x y (a b : list R) :
  Solver.dot (x :: a) (y :: b) = x * y + Solver.dot a b.
Proof.
  unfold Solver.dot, py_sum. simpl. rewrite fold_left_Rplus_acc. lra.
Qed.

Lemma dot_self_nonneg (a : list R) : 0 <= Solver.dot a a.
Proof.
  induction a as [|x a IH].
  - unfold Solver.dot, py_sum. simpl. lra.
  - rewrite dot_cons. nra.
Qed.

Lemma norm_ok (a : list R) : Solver.norm a = Ok (sqrt (Solver.dot a a)).
Proof. apply math_sqrt_ok, dot_self_nonneg. Qed.

Lemma norm_sub_distance (p q : list R) : Solver.norm (Solver.sub p q) = Ok (distance p q).
Proof. apply norm_ok. Qed.

Lemma dot3 x1 y1 z1 x2 y2 z2 :
  Solver.dot [x1; y1; z1] [x2; y2; z2] = x1 * x2 + y1 * y2 + z1 * z2.
Proof. unfold Solver.dot, py_sum. simpl. ring. Qed.

Lemma sub3 x1 y1 z1 x2 y2 z2 :
  Solver.sub [x1; y1; z1] [x2; y2; z2] = [x1 - x2; y1 - y2; z1 - z2].
Proof. reflexivity. Qed.

Lemma add3 x1 y1 z1 x2 y2 z2 :
  Solver.add [x1; y1; z1] [x2; y2; z2] = [x1 + x2; y1 + y2; z1 + z2].
Proof. reflexivity. Qed.

Lemma scale3 x1 y1 z1 s :
  Solver.scale [x1; y1; z1] s = [x1 * s; y1 * s; z1 * s].
Proof. reflexivity. Qed.

(** ** The solver returns [solver_value] *)

Lemma both_inside_true s t : both_inside s t = true <-> in_unit s /\ in_unit t.
Proof.
  unfold both_inside, in_unit.
  rewrite !andb_true_iff, !Rleb_true. tauto.
Qed.

Section Solver_value.

Variable eps : R.
Hypothesis eps_nonneg : 0 <= eps.

Lemma line_parameters_ok (P1 P2 Q1 Q2 : list R) :
  Solver.line_parameters eps P1 P2 Q1 Q2 = Ok (line_values eps P1 P2 Q1 Q2).
Proof.
  unfold Solver.line_parameters, line_values. cbv zeta.
  destruct (Rgtb (Rabs _) eps) eqn:HD.
  - apply Rgtb_true in HD.
    assert (HD0 : - Solver.dot (Solver.sub P2 P1) (Solver.sub P2 P1) *
                  Solver.dot (Solver.sub Q2 Q1) (Solver.sub Q2 Q1) +
                  Solver.dot (Solver.sub P2 P1) (Solver.sub Q2 Q1) *
                  Solver.dot (Solver.sub P2 P1) (Solver.sub Q2 Q1) <> 0).
    { intros H0. rewrite H0, Rabs_R0 in HD. lra. }
    rewrite !truediv_ok by exact HD0. reflexivity.
  - destruct (Rgtb (Solver.dot _ _) eps) eqn:Hc; [|reflexivity].
    apply Rgtb_true in Hc. rewrite truediv_ok by lra. reflexivity.
Qed.

Lemma point_to_seg_closest_ok (A B X : list R) :
  Solver.point_to_seg_closest eps A B X
  = Ok (point_at A B (projection eps A B X), projection eps A B X).
Proof.
  unfold Solver.point_to_seg_closest, projection, point_at. cbv zeta.
  destruct (Rgtb (Solver.dot _ _) eps) eqn:Hc; [|reflexivity].
  apply Rgtb_true in Hc. rewrite truediv_ok by lra. reflexivity.
Qed.

Lemma check_P_ok (Q1 Q2 P : list R) (best : option candidate) (k : Z) :
  Solver.check_P eps Q1 Q2 (state_after best k) P
  = Ok (state_after (seen best (candidate_P eps Q1 Q2 P k)) (k + 1)).
Proof.
  unfold Solver.check_P. rewrite point_to_seg_closest_ok. simpl.
  rewrite norm_sub_distance. simpl.
  unfold seen, keep_first_min, candidate_P, state_after.
  destruct best as [[db pb]|]; simpl; [|reflexivity].
  destruct (Rltb _ db); reflexivity.
Qed.

Lemma check_Q_ok (P1 P2 Q : list R) (best : option candidate) (k : Z) :
  Solver.check_Q eps P1 P2 (state_after best k) Q
  = Ok (state_after (seen best (candidate_Q eps P1 P2 Q k)) (k + 1)).
Proof.
  unfold Solver.check_Q. rewrite point_to_seg_closest_ok. simpl.
  rewrite norm_sub_distance. simpl.
  unfold seen, keep_first_min, candidate_Q, state_after.
  destruct best as [[db pb]|]; simpl; [|reflexivity].
  destruct (Rltb _ db); reflexivity.
Qed.

Lemma for_each_step {A S : Type} (body : S -> A -> result S) x rest st st' :
  body st x = Ok st' -> for_each body (x :: rest) st = for_each body rest st'.
Proof. intros H. simpl. rewrite H. reflexivity. Qed.

Lemma loop_P_ok (Q1 Q2 P1 P2 : list R) :
  for_each (Solver.check_P eps Q1 Q2) [P1; P2] (state_after None 0)
  = Ok (state_after (seen (seen None (candidate_P eps Q1 Q2 P1 0))
                          (candidate_P eps Q1 Q2 P2 1)) 2).
Proof.
  rewrite (for_each_step _ _ _ _ _ (check_P_ok _ _ _ _ _)).
  rewrite (for_each_step _ _ _ _ _ (check_P_ok _ _ _ _ _)).
  reflexivity.
Qed.

Lemma loop_Q_ok (P1 P2 Q1 Q2 : list R) (best : option candidate) :
  for_each (Solver.check_Q eps P1 P2) [Q1; Q2] (state_after best 0)
  = Ok (state_after (seen (seen best (candidate_Q eps P1 P2 Q1 0))
                          (candidate_Q eps P1 P2 Q2 1)) 2).
Proof.
  rewrite (for_each_step _ _ _ _ _ (check_Q_ok _ _ _ _ _)).
  rewrite (for_each_step _ _ _ _ _ (check_Q_ok _ _ _ _ _)).
  reflexivity.
Qed.

Lemma endpoint_fallback_ok (A1 A2 B1 B2 : Endpoint) :
  Solver.endpoint_fallback eps (xyz A1) (xyz A2) (xyz B1) (xyz B2)
    (etime A1) (etime A2) (etime B1) (etime B2)
  = Ok (fallback_value eps A1 A2 B1 B2).
Proof.
  unfold Solver.endpoint_fallback. cbv zeta.
  change {| Solver.best_dist := Infinity; Solver.best_pair := None;
            Solver.temp_var := 0 |} with (state_after None 0).
  rewrite loop_P_ok. unfold mbind at 1, result_mbind, result_bind.
  match goal with
  | |- context [ {| Solver.best_dist := Solver.best_dist (state_after ?b ?k);
                    Solver.best_pair := _; Solver.temp_var := 0 |} ] =>
      change {| Solver.best_dist := Solver.best_dist (state_after b k);
                Solver.best_pair := Solver.best_pair (state_after b k);
                Solver.temp_var := 0 |} with (state_after b 0)
  end.
  rewrite loop_Q_ok. unfold mbind, result_mbind, result_bind.
  unfold fallback_value, first_min, seen. simpl fold_left.
  destruct (keep_first_min _ _) as [d [[[p0 p1] p2] p3]]. reflexivity.
Qed.

(** with a non-negative tolerance the solver returns [solver_value] *)
Lemma solver_ok (A1 A2 B1 B2 : Endpoint) :
  Solver.closest_points_on_segments_in_3D (vec4 A1) (vec4 A2) (vec4 B1) (vec4 B2) eps
  = Ok (solver_value eps A1 A2 B1 B2).
Proof.
  unfold Solver.closest_points_on_segments_in_3D. cbv zeta.
  change (take 3 (vec4 A1)) with (xyz A1). change (take 3 (vec4 A2)) with (xyz A2).
  change (take 3 (vec4 B1)) with (xyz B1). change (take 3 (vec4 B2)) with (xyz B2).
  change (getitem (vec4 A1) 3) with (Ok (etime A1)).
  change (getitem (vec4 A2) 3) with (Ok (etime A2)).
  change (getitem (vec4 B1) 3) with (Ok (etime B1)).
  change (getitem (vec4 B2) 3) with (Ok (etime B2)).
  rewrite line_parameters_ok. unfold solver_value.
  destruct (line_values eps _ _ _ _) as [s t]. simpl mbind.
  unfold result_mbind, result_bind.
  change (Rleb 0 s && Rleb s 1 && Rleb 0 t && Rleb t 1) with (both_inside s t).
  destruct (both_inside s t).
  - rewrite norm_sub_distance. reflexivity.
  - apply endpoint_fallback_ok.
Qed.

End Solver_value.

(** ** Minimising a quadratic on the unit square *)

Lemma sq_nonneg (x : R) : 0 <= x * x.
Proof. nra. Qed.

Section Quadratic.

Variables a b c d e k : R.
Hypothesis form_nonneg : forall x y, 0 <= a * x * x - 2 * b * x * y + c * y * y.

Local Abbreviation F := (quad a b c d e k).





End Quadratic.

(** ** Entering the unit square along a straight line *)



(** ** The scalar products of the code, for well-formed endpoints *)

Ltac to_coordinates :=
  unfold sqdist, quad, sp_D, sp_a, sp_b, sp_c, sp_d, sp_e, vec_u, vec_v, vec_w,
    distance, point_at, xyz in *;
  rewrite ?sub3, ?scale3, ?add3, ?sub3, ?dot3 in *.

Section Geometry_facts.

Variables A1 A2 B1 B2 : Endpoint.

Local Abbreviation P1 := (xyz A1).
Local Abbreviation P2 := (xyz A2).
Local Abbreviation Q1 := (xyz B1).
Local Abbreviation Q2 := (xyz B2).
Local Abbreviation a := (sp_a A1 A2).
Local Abbreviation b := (sp_b A1 A2 B1 B2).
Local Abbreviation c := (sp_c B1 B2).
Local Abbreviation d := (sp_d A1 A2 B1).
Local Abbreviation e := (sp_e A1 B1 B2).
Local Abbreviation D := (sp_D A1 A2 B1 B2).
Local Abbreviation F := (sqdist A1 A2 B1 B2).

Lemma point_at_0 : point_at P1 P2 0 = P1.
Proof. to_coordinates. repeat f_equal; ring. Qed.

Lemma point_at_1 : point_at P1 P2 1 = P2.
Proof. to_coordinates. repeat f_equal; ring. Qed.

Lemma distance_at (s t : R) :
  distance (point_at P1 P2 s) (point_at Q1 Q2 t) = sqrt (F s t).
Proof. to_coordinates. f_equal. ring. Qed.



(** Cauchy-Schwarz: the denominator of the code is never positive. *)
Lemma sp_D_nonpos : D <= 0.
Proof.
  to_coordinates.
  destruct A1 as [x1 y1 z1 t1], A2 as [x2 y2 z2 t2],
           B1 as [x3 y3 z3 t3], B2 as [x4 y4 z4 t4]. simpl.
  pose proof (sq_nonneg ((x2 - x1) * (y4 - y3) - (y2 - y1) * (x4 - x3))).
  pose proof (sq_nonneg ((x2 - x1) * (z4 - z3) - (z2 - z1) * (x4 - x3))).
  pose proof (sq_nonneg ((y2 - y1) * (z4 - z3) - (z2 - z1) * (y4 - y3))).
  lra.
Qed.





Lemma projection_in_unit (eps : R) (A B X : list R) : in_unit (projection eps A B X).
Proof. apply clamp_in_unit. Qed.

(** the line parameters of the code when the lines are far from parallel *)
Lemma line_values_main (eps : R) :
  eps < Rabs D ->
  line_values eps P1 P2 Q1 Q2 = ((b * e - c * d) / D, (a * e - b * d) / D).
Proof.
  intros HD. unfold line_values. cbv zeta.
  fold (vec_u A1 A2). fold (vec_v B1 B2). fold (vec_w A1 B1).
  fold a. fold b. fold c. fold d. fold e. fold D.
  apply Rgtb_true in HD. rewrite HD. reflexivity.
Qed.

Lemma stationary_main :
  D <> 0 ->
  a * ((b * e - c * d) / D) - b * ((a * e - b * d) / D) = d
  /\ b * ((b * e - c * d) / D) - c * ((a * e - b * d) / D) = e.
Proof. intros HD. unfold sp_D in *. split; field; exact HD. Qed.

End Geometry_facts.

(** ** First-found minimum *)

Lemma first_min_snoc (c0 : candidate) (cs : list candidate) (c : candidate) :
  first_min c0 (cs ++ [c]) = keep_first_min (first_min c0 cs) c.
Proof. unfold first_min. rewrite fold_left_app. reflexivity. Qed.

(** [first_min] returns the element of least distance, and among those of
    least distance the one of least position. *)
Lemma first_min_spec (c0 : candidate) (cs : list candidate) :
  exists i : nat,
    (c0 :: cs) !! i = Some (first_min c0 cs)
    /\ forall (j : nat) (x : candidate), (c0 :: cs) !! j = Some x ->
         (first_min c0 cs).1 <= x.1
         /\ ((j < i)%nat -> (first_min c0 cs).1 < x.1).
Proof.
  induction cs as [|c cs IH] using rev_ind.
  - exists 0%nat. split; [reflexivity|].
    intros [|j] x Hx; simpl in Hx; [|by rewrite lookup_nil in Hx].
    injection Hx as <-. unfold first_min. simpl. split; [lra | lia].
  - destruct IH as (i & Hi & Hmin).
    rewrite first_min_snoc. unfold keep_first_min.
    destruct (Rltb c.1 (first_min c0 cs).1) eqn:Hlt.
    + apply Rltb_true in Hlt.
      exists (length (c0 :: cs)). split.
      * change (c0 :: cs ++ [c]) with ((c0 :: cs) ++ [c]).
        rewrite lookup_app_r by lia. by rewrite Nat.sub_diag.
      * intros j x Hx. change (c0 :: cs ++ [c]) with ((c0 :: cs) ++ [c]) in Hx.
        apply lookup_app_Some in Hx as [Hx | [Hlen Hx]].
        -- destruct (Hmin j x Hx) as [Hle _]. split; intros; lra.
        -- apply list_lookup_singleton_Some in Hx as [_ <-]. split; [lra | lia].
    + apply Rltb_false in Hlt.
      exists i. split.
      * change (c0 :: cs ++ [c]) with ((c0 :: cs) ++ [c]).
        rewrite lookup_app_l; [exact Hi|]. by apply lookup_lt_Some in Hi.
      * intros j x Hx. change (c0 :: cs ++ [c]) with ((c0 :: cs) ++ [c]) in Hx.
        apply lookup_app_Some in Hx as [Hx | [Hlen Hx]].
        -- exact (Hmin j x Hx).
        -- apply list_lookup_singleton_Some in Hx as [_ <-].
           split; [lra|]. intros Hji. apply lookup_lt_Some in Hi. lia.
Qed.


Lemma first_min_elem (c0 : candidate) (cs : list candidate) :
  first_min c0 cs ∈ c0 :: cs.
Proof.
  destruct (first_min_spec c0 cs) as (i & Hi & _).
  apply list_elem_of_lookup. by exists i.
Qed.

(** ** Shape of the solver's result *)

Section Shape.

Variables (eps : R) (A1 A2 B1 B2 : Endpoint).

Lemma candidate_P1_at :
  candidate_P eps (xyz B1) (xyz B2) (xyz A1) 0
  = candidate_at A1 A2 B1 B2 0 (projection eps (xyz B1) (xyz B2) (xyz A1)).
Proof. unfold candidate_at. rewrite point_at_0. reflexivity. Qed.

Lemma candidate_P2_at :
  candidate_P eps (xyz B1) (xyz B2) (xyz A2) 1
  = candidate_at A1 A2 B1 B2 1 (projection eps (xyz B1) (xyz B2) (xyz A2)).
Proof. unfold candidate_at. rewrite point_at_1. reflexivity. Qed.

Lemma candidate_Q1_at :
  candidate_Q eps (xyz A1) (xyz A2) (xyz B1) 0
  = candidate_at A1 A2 B1 B2 (projection eps (xyz A1) (xyz A2) (xyz B1)) 0.
Proof. unfold candidate_at. rewrite (point_at_0 B1 B2). reflexivity. Qed.

Lemma candidate_Q2_at :
  candidate_Q eps (xyz A1) (xyz A2) (xyz B2) 1
  = candidate_at A1 A2 B1 B2 (projection eps (xyz A1) (xyz A2) (xyz B2)) 1.
Proof. unfold candidate_at. rewrite (point_at_1 B1 B2). reflexivity. Qed.

Lemma candidates_at_params (x : candidate) :
  x ∈ (candidates_at eps A1 A2 B1 B2) ->
  exists s t, in_unit s /\ in_unit t /\ x = candidate_at A1 A2 B1 B2 s t.
Proof.
  unfold candidates_at. intros Hx.
  assert (H0 : in_unit 0) by (unfold in_unit; lra).
  assert (H1 : in_unit 1) by (unfold in_unit; lra).
  repeat (apply elem_of_cons in Hx as [-> | Hx]);
    [ | | | | by apply elem_of_nil in Hx ];
    eexists _, _; (split; [|split; [|reflexivity]]);
    auto using projection_in_unit.
Qed.

Lemma fallback_value_first_min :
  fallback_value eps A1 A2 B1 B2
  = solution_of (etime A1) (etime A2) (etime B1) (etime B2)
      (first_min (candidate_at A1 A2 B1 B2 0
                    (projection eps (xyz B1) (xyz B2) (xyz A1)))
                 (tail (candidates_at eps A1 A2 B1 B2))).
Proof.
  unfold fallback_value.
  rewrite candidate_P1_at, candidate_P2_at, candidate_Q1_at, candidate_Q2_at.
  reflexivity.
Qed.

Lemma fallback_value_shape :
  exists s t, in_unit s /\ in_unit t
    /\ fallback_value eps A1 A2 B1 B2 = solution_at A1 A2 B1 B2 s t.
Proof.
  rewrite fallback_value_first_min.
  set (c0 := candidate_at A1 A2 B1 B2 0 _).
  pose proof (first_min_elem c0 (tail (candidates_at eps A1 A2 B1 B2))) as Hin.
  change (c0 :: tail (candidates_at eps A1 A2 B1 B2)) with (candidates_at eps A1 A2 B1 B2) in Hin.
  destruct (candidates_at_params _ Hin) as (s & t & Hs & Ht & ->).
  exists s, t. auto.
Qed.

Lemma direct_value_shape (s t : R) :
  direct_value A1 A2 B1 B2 s t
  = solution_at A1 A2 B1 B2 (Solver.clamp s) (Solver.clamp t).
Proof. reflexivity. Qed.

(** the result is made of the points of two parameters of [[0,1]] *)
Lemma solver_value_shape :
  exists s t, in_unit s /\ in_unit t
    /\ solver_value eps A1 A2 B1 B2 = solution_at A1 A2 B1 B2 s t.
Proof.
  unfold solver_value.
  destruct (line_values eps _ _ _ _) as [s t].
  destruct (both_inside s t).
  - exists (Solver.clamp s), (Solver.clamp t).
    auto using clamp_in_unit, direct_value_shape.
  - apply fallback_value_shape.
Qed.

End Shape.

(** ** Minimality of the solver's distance *)


Section Minimality.

Variables (eps : R) (A1 A2 B1 B2 : Endpoint).
Hypothesis eps_nonneg : 0 <= eps.
Hypothesis first_not_short : eps < sp_a A1 A2.
Hypothesis second_not_short : eps < sp_c B1 B2.

Local Abbreviation a := (sp_a A1 A2).
Local Abbreviation b := (sp_b A1 A2 B1 B2).
Local Abbreviation c := (sp_c B1 B2).
Local Abbreviation d := (sp_d A1 A2 B1).
Local Abbreviation e := (sp_e A1 B1 B2).
Local Abbreviation F := (sqdist A1 A2 B1 B2).

Lemma candidate_at_distance (s t : R) :
  (candidate_at A1 A2 B1 B2 s t).1 = sqrt (F s t).
Proof. unfold candidate_at. simpl. apply distance_at. Qed.


End Minimality.

(** ** Clamping and square roots of concrete numbers *)



Lemma sqrt_of_square x y : 0 <= y -> x = y * y -> sqrt x = y.
Proof. intros Hy ->. apply sqrt_square, Hy. Qed.

(** ** The classifier (C2) *)

(** C2.  For an analyzer configured with a drone radius and a safety time,
    the safety threshold is three times the radius, and for every
    closest-point result of distance [d] and times [t1], [t2] the level is
    0 exactly when [d >= safety_threshold], 1 exactly when
    [d < safety_threshold] and [|t2 - t1| >= safety_time], and 2 exactly when
    [d < safety_threshold] and [|t2 - t1| < safety_time]; in particular a
    distance equal to the threshold gives level 0 and a time difference equal
    to the safety time gives level 1 when the distance is below the
    threshold. *)
Theorem check_for_conflicts_levels (radius time : R) (step : Z)
    (closest_P closest_Q : list R) (d t1 t2 : R) :
  let self := SpatialAnalyzer_init radius time step in
  let level := conflict_level self (closest_P, closest_Q, d, (t1, t2)) in
  safety_threshold self = radius * 3
  /\ safety_time self = time
  /\ (level = 0%Z <-> safety_threshold self <= d)
  /\ (level = 1%Z <-> d < safety_threshold self /\ safety_time self <= Rabs (t2 - t1))
  /\ (level = 2%Z <-> d < safety_threshold self /\ Rabs (t2 - t1) < safety_time self)
  /\ (d = safety_threshold self -> level = 0%Z)
  /\ (d < safety_threshold self -> Rabs (t2 - t1) = safety_time self -> level = 1%Z).
Proof.
  intros self level. unfold level, conflict_level, check_for_conflicts.
  simpl safety_threshold. simpl safety_time.
  destruct (Rltb d (radius * 3)) eqn:Hd;
    [apply Rltb_true in Hd | apply Rltb_false in Hd];
    [destruct (Rltb (Rabs (t2 - t1)) time) eqn:Ht;
     [apply Rltb_true in Ht | apply Rltb_false in Ht] |];
    simpl; repeat split; intros; try lra; try lia; try discriminate.
Qed.

(** ** The guards of the solver on real numbers *)

(** On real numbers, where no product overflows, the guards of the 2x2
    solve and of the projection exclude a division by zero, and the solver
    returns a result for every well-formed input, zero-length and parallel
    segments included. *)
Lemma guarded_on_reals (A1 A2 B1 B2 : Endpoint) :
  (exists st, Solver.line_parameters eps_default (xyz A1) (xyz A2) (xyz B1) (xyz B2)
              = Ok st)
  /\ (forall X, exists r, Solver.point_to_seg_closest eps_default (xyz A1) (xyz A2) X
                          = Ok r)
  /\ (exists r, Solver.closest_points_on_segments_in_3D
                  (vec4 A1) (vec4 A2) (vec4 B1) (vec4 B2) eps_default = Ok r).
Proof.
  pose proof eps_default_pos as Hpos.
  assert (Heps : 0 <= eps_default) by lra.
  split; [|split].
  - eexists. apply line_parameters_ok, Heps.
  - intros X. eexists. apply point_to_seg_closest_ok, Heps.
  - eexists. apply solver_ok, Heps.
Qed.

(** ** The solver on binary64 floats: overflow (C8, C6) *)

Section Binary64_overflow.

Import PrimFloat.

(** C8.  On the four finite endpoints [far_A1], [far_A2], [far_B1],
    [far_B2] the solver, run on binary64 floats with its default tolerance,
    raises TypeError: no division is by zero, but the squared length of the
    first segment overflows, the line parameters are NaN, and the fallback
    ends with its initial [best_pair]. *)
Theorem closest_points_raise_on_overflow :
  Float64.closest_points_on_segments_in_3D far_A1 far_A2 far_B1 far_B2
    Float64.eps_default
  = Raise TypeError.
Proof. vm_compute. reflexivity. Qed.

(** C6.  On the same endpoints the line parameters are NaN, so not both in
    [[0,1]]; the four endpoint candidates all have the distance infinity,
    none of them is below the initial [best_dist], and the fallback raises
    TypeError where the first candidate was to be returned. *)
Theorem fallback_raises_on_overflow :
  let P1 := take 3 far_A1 in
  let P2 := take 3 far_A2 in
  let Q1 := take 3 far_B1 in
  let Q2 := take 3 far_B2 in
  let eps := Float64.eps_default in
  Float64.line_parameters eps P1 P2 Q1 Q2 = Ok (nan, nan)
  /\ (0 <=? nan)%float = false
  /\ (forall P, P ∈ [P1; P2] ->
        exists Qp t_qp, Float64.point_to_seg_closest eps Q1 Q2 P = Ok (Qp, t_qp)
          /\ Float64.norm (Float64.sub P Qp) = Ok infinity)
  /\ (forall Q, Q ∈ [Q1; Q2] ->
        exists Pp t_pp, Float64.point_to_seg_closest eps P1 P2 Q = Ok (Pp, t_pp)
          /\ Float64.norm (Float64.sub Pp Q) = Ok infinity)
  /\ (infinity <? infinity)%float = false
  /\ Float64.endpoint_fallback eps P1 P2 Q1 Q2 0 10 0 10 = Raise TypeError.
Proof.
  cbv zeta. split; [vm_compute; reflexivity|]. split; [reflexivity|].
  split.
  { intros P HP. repeat (apply elem_of_cons in HP as [-> | HP]);
      [ | | by apply elem_of_nil in HP ];
      eexists _, _; split; vm_compute; reflexivity. }
  split.
  { intros Q HQ. repeat (apply elem_of_cons in HQ as [-> | HQ]);
      [ | | by apply elem_of_nil in HQ ];
      eexists _, _; split; vm_compute; reflexivity. }
  split; [reflexivity|]. vm_compute. reflexivity.
Qed.

End Binary64_overflow.

(** ** Containment (C4) *)



(** ** The endpoint fallback on real numbers *)

(** On real numbers, where every candidate distance is below the initial
    infinite [best_dist]: when the line parameters are not both in [[0,1]],
    the solver returns one of the four endpoint candidates, namely the one
    of least distance and, among candidates of equal least distance, the one
    that comes first in the order P1-Q, P2-Q, Q1-P, Q2-P. *)
Lemma first_minimum_on_reals (A1 A2 B1 B2 : Endpoint) (s t : R) :
  Solver.line_parameters eps_default (xyz A1) (xyz A2) (xyz B1) (xyz B2) = Ok (s, t) ->
  ~ (in_unit s /\ in_unit t) ->
  exists (i : nat) (x : candidate),
    candidates eps_default (xyz A1) (xyz A2) (xyz B1) (xyz B2) !! i = Some x
    /\ Solver.closest_points_on_segments_in_3D
         (vec4 A1) (vec4 A2) (vec4 B1) (vec4 B2) eps_default
       = Ok (solution_of (etime A1) (etime A2) (etime B1) (etime B2) x)
    /\ forall (j : nat) (y : candidate),
         candidates eps_default (xyz A1) (xyz A2) (xyz B1) (xyz B2) !! j = Some y ->
         x.1 <= y.1 /\ ((j < i)%nat -> x.1 < y.1).
Proof.
  intros Hline Hout.
  assert (Heps : 0 <= eps_default) by (pose proof eps_default_pos; lra).
  rewrite line_parameters_ok in Hline by exact Heps.
  injection Hline as Hline.
  rewrite solver_ok by exact Heps. unfold solver_value. rewrite Hline.
  destruct (both_inside s t) eqn:Hin.
  { apply both_inside_true in Hin. contradiction. }
  unfold fallback_value, candidates.
  set (c0 := candidate_P eps_default (xyz B1) (xyz B2) (xyz A1) 0).
  set (cs := [candidate_P eps_default (xyz B1) (xyz B2) (xyz A2) 1;
              candidate_Q eps_default (xyz A1) (xyz A2) (xyz B1) 0;
              candidate_Q eps_default (xyz A1) (xyz A2) (xyz B2) 1]).
  destruct (first_min_spec c0 cs) as (i & Hi & Hmin).
  exists i, (first_min c0 cs). split; [exact Hi|]. split; [reflexivity|exact Hmin].
Qed.

(** ** True minimum distance (C1) *)

Lemma line_values_parallel (eps : R) (A1 A2 B1 B2 : Endpoint) :
  Rabs (sp_D A1 A2 B1 B2) <= eps -> eps < sp_c B1 B2 ->
  line_values eps (xyz A1) (xyz A2) (xyz B1) (xyz B2)
  = (0, sp_e A1 B1 B2 / sp_c B1 B2).
Proof.
  intros HD Hc. unfold line_values. cbv zeta.
  fold (vec_u A1 A2). fold (vec_v B1 B2). fold (vec_w A1 B1).
  fold (sp_a A1 A2). fold (sp_b A1 A2 B1 B2). fold (sp_c B1 B2).
  fold (sp_d A1 A2 B1). fold (sp_e A1 B1 B2). fold (sp_D A1 A2 B1 B2).
  apply Rgtb_false in HD. apply Rgtb_true in Hc. rewrite HD, Hc. reflexivity.
Qed.

Lemma line_values_point (eps : R) (A1 A2 B1 B2 : Endpoint) :
  Rabs (sp_D A1 A2 B1 B2) <= eps -> sp_c B1 B2 <= eps ->
  line_values eps (xyz A1) (xyz A2) (xyz B1) (xyz B2) = (0, 0).
Proof.
  intros HD Hc. unfold line_values. cbv zeta.
  fold (vec_u A1 A2). fold (vec_v B1 B2). fold (vec_w A1 B1).
  fold (sp_a A1 A2). fold (sp_b A1 A2 B1 B2). fold (sp_c B1 B2).
  fold (sp_d A1 A2 B1). fold (sp_e A1 B1 B2). fold (sp_D A1 A2 B1 B2).
  apply Rgtb_false in HD. apply Rgtb_false in Hc. rewrite HD, Hc. reflexivity.
Qed.


(** ** From the line parameters to the result *)

(** the solver is lines 45-64 followed by lines 66-109 *)
Lemma closest_points_steps (A1 A2 B1 B2 : list R) (eps : R) :
  Solver.closest_points_on_segments_in_3D A1 A2 B1 B2 eps
  = (tp1 ← getitem A1 3; tp2 ← getitem A2 3; tq1 ← getitem B1 3; tq2 ← getitem B2 3;
     '(s, t) ← Solver.line_parameters eps (take 3 A1) (take 3 A2) (take 3 B1) (take 3 B2);
     from_line_parameters eps (take 3 A1) (take 3 A2) (take 3 B1) (take 3 B2)
       tp1 tp2 tq1 tq2 s t).
Proof. reflexivity. Qed.




Lemma stationary_perpendicular (A1 A2 B1 B2 : Endpoint) (s t : R) :
  sp_a A1 A2 * s - sp_b A1 A2 B1 B2 * t = sp_d A1 A2 B1 ->
  sp_b A1 A2 B1 B2 * s - sp_c B1 B2 * t = sp_e A1 B1 B2 ->
  common_perpendicular A1 A2 B1 B2 s t.
Proof.
  unfold common_perpendicular. cbv zeta. to_coordinates. intros Hu Hv. split; lra.
Qed.

(** On real numbers the 2x2 solve gives the parameters of the common
    perpendicular, and for the segments exchanged the same two parameters
    exchanged. *)
Lemma line_values_on_reals (eps : R) (A1 A2 B1 B2 : Endpoint) :
  0 <= eps -> eps < Rabs (sp_D A1 A2 B1 B2) ->
  exists s t,
    line_values eps (xyz A1) (xyz A2) (xyz B1) (xyz B2) = (s, t)
    /\ line_values eps (xyz B1) (xyz B2) (xyz A1) (xyz A2) = (t, s)
    /\ common_perpendicular A1 A2 B1 B2 s t.
Proof.
  intros Heps HD.
  assert (HD0 : sp_D A1 A2 B1 B2 <> 0).
  { intros H0. rewrite H0, Rabs_R0 in HD. lra. }
  assert (Hex : sp_D B1 B2 A1 A2 = sp_D A1 A2 B1 B2) by (to_coordinates; ring).
  eexists _, _. split; [apply (line_values_main A1 A2 B1 B2 eps HD)|]. split.
  - rewrite (line_values_main B1 B2 A1 A2 eps) by (rewrite Hex; exact HD).
    rewrite Hex. unfold sp_D in HD0. to_coordinates. f_equal; field; exact HD0.
  - destruct (stationary_main A1 A2 B1 B2 HD0) as [H1 H2].
    by apply stationary_perpendicular.
Qed.

(** ** Minimality from the common perpendicular *)

Section Minimal_from_parameters.

Variables (eps : R) (A1 A2 B1 B2 : Endpoint) (s0 t0 : R).
Hypothesis eps_nonneg : 0 <= eps.
Hypothesis perpendicular : common_perpendicular A1 A2 B1 B2 s0 t0.
Hypothesis first_not_short : eps < sp_a A1 A2.
Hypothesis second_not_short : eps < sp_c B1 B2.




End Minimal_from_parameters.


Lemma skew_perpendicular : common_perpendicular skew_A1 skew_A2 skew_B1 skew_B2 2 (-1).
Proof. unfold common_perpendicular. cbv zeta. to_coordinates. simpl. split; ring. Qed.










(** ** Exchanging the two segments (C7) *)


Lemma sqdist_exchange (A1 A2 B1 B2 : Endpoint) (s t : R) :
  sqdist B1 B2 A1 A2 t s = sqdist A1 A2 B1 B2 s t.
Proof. to_coordinates. ring. Qed.
















(** ** The solver on binary64 floats: rounding of the denominator *)

(** On real numbers the two tilted segments are not parallel up to the
    tolerance. *)
Lemma tilted_exact_denominator :
  sp_D tilt_A1 tilt_A2 tilt_B1 tilt_B2 = - (10 ^ 4 / 2 ^ 46)
  /\ eps_default < Rabs (sp_D tilt_A1 tilt_A2 tilt_B1 tilt_B2).
Proof.
  assert (HD : sp_D tilt_A1 tilt_A2 tilt_B1 tilt_B2 = - (10 ^ 4 / 2 ^ 46))
    by (to_coordinates; simpl; field).
  split; [exact HD|]. rewrite HD, Rabs_left; unfold eps_default; lra.
Qed.

Section Binary64_rounding.

Import PrimFloat.

(** On binary64 floats their denominator is 0: the solver takes the
    parallel branch and returns the start of the first segment and a point
    100.49 away, although the middle of the first segment is at distance 10
    of the start of the second; with the segments exchanged it returns the
    distance 10. *)
Lemma tilted_rounded_denominator :
  (exists t, Float64.line_parameters Float64.eps_default
               (take 3 tilted_A1) (take 3 tilted_A2) (take 3 tilted_B1) (take 3 tilted_B2)
             = Ok (0%float, t))
  /\ (exists r, Float64.closest_points_on_segments_in_3D
                  tilted_A1 tilted_A2 tilted_B1 tilted_B2 Float64.eps_default = Ok r
        /\ r.1.1.1 = [0; 0; 0]%float
        /\ (100 <? r.1.2)%float = true)
  /\ Float64.norm (Float64.sub [50; 0; 0]%float (take 3 tilted_B1)) = Ok 10%float
  /\ (exists r', Float64.closest_points_on_segments_in_3D
                   tilted_B1 tilted_B2 tilted_A1 tilted_A2 Float64.eps_default = Ok r'
        /\ r'.1.2 = 10%float).
Proof.
  split; [eexists; vm_compute; reflexivity|].
  split; [eexists; split; [vm_compute; reflexivity|]; split; reflexivity|].
  split; [vm_compute; reflexivity|].
  eexists; split; [vm_compute; reflexivity|]. reflexivity.
Qed.

End Binary64_rounding.

Lemma first_min_head (c0 : candidate) (cs : list candidate) :
  (forall x, x ∈ cs -> c0.1 <= x.1) -> first_min c0 cs = c0.
Proof.
  unfold first_min. revert c0. induction cs as [|c cs IH]; intros c0 Hle; [reflexivity|].
  simpl. unfold keep_first_min at 2.
  rewrite (proj2 (Rltb_false c.1 c0.1)) by (apply Hle; left).
  apply IH. intros x Hx. apply Hle. by right.
Qed.

(** when no pair of points is closer than the first candidate, the fallback
    returns the first candidate *)
Lemma fallback_value_first (eps : R) (A1 A2 B1 B2 : Endpoint) :
  let t1 := projection eps (xyz B1) (xyz B2) (xyz A1) in
  (forall s t, sqrt (sqdist A1 A2 B1 B2 0 t1) <= sqrt (sqdist A1 A2 B1 B2 s t)) ->
  fallback_value eps A1 A2 B1 B2 = solution_at A1 A2 B1 B2 0 t1.
Proof.
  intros t1 Hle. rewrite fallback_value_first_min.
  rewrite first_min_head; [reflexivity|].
  intros x Hx.
  assert (Hx' : x ∈ candidates_at eps A1 A2 B1 B2) by (by right).
  destruct (candidates_at_params _ _ _ _ _ _ Hx') as (s & t & _ & _ & ->).
  rewrite !candidate_at_distance. apply Hle.
Qed.





(** ** The parallel branch on exactly parallel segments

    In the parallel branch the code takes [t = e / c] with [w = Q1 - P1];
    the foot of the perpendicular from [P1] has the parameter [- e / c]. *)

Lemma par_sqdist (s t : R) :
  sqdist par_A1 par_A2 par_B1 par_B2 s t
  = (2 * s - 2 * t - 1) * (2 * s - 2 * t - 1) + 1.
Proof. to_coordinates. simpl. ring. Qed.

(** The solver answers [sqrt 5] for the two parallel segments, although the
    midpoint of the first is at distance 1 of the start of the second. *)
Lemma parallel_overlap_distance :
  exists r : Solver.solution,
    Solver.closest_points_on_segments_in_3D
      (vec4 par_A1) (vec4 par_A2) (vec4 par_B1) (vec4 par_B2) eps_default = Ok r
    /\ sol_distance r = sqrt 5
    /\ distance (point_at (xyz par_A1) (xyz par_A2) (1 / 2))
                (point_at (xyz par_B1) (xyz par_B2) 0) = 1
    /\ ~ minimal_distance par_A1 par_A2 par_B1 par_B2 (sol_distance r).
Proof.
  assert (Hsmall : eps_default < 1) by (unfold eps_default; lra).
  pose proof eps_default_pos as Hpos.
  assert (HD : sp_D par_A1 par_A2 par_B1 par_B2 = 0) by (to_coordinates; simpl; ring).
  assert (Hc : sp_c par_B1 par_B2 = 4) by (to_coordinates; simpl; ring).
  assert (He : sp_e par_A1 par_B1 par_B2 = 2) by (to_coordinates; simpl; ring).
  assert (Hone : distance (point_at (xyz par_A1) (xyz par_A2) (1 / 2))
                          (point_at (xyz par_B1) (xyz par_B2) 0) = 1).
  { rewrite distance_at, par_sqdist. apply sqrt_of_square; [lra | field]. }
  assert (Hval : sol_distance (solver_value eps_default par_A1 par_A2 par_B1 par_B2)
                 = sqrt 5).
  { unfold solver_value.
    rewrite line_values_parallel by (rewrite ?HD, ?Hc, ?Rabs_R0; lra).
    rewrite He, Hc.
    replace (both_inside 0 (2 / 4)) with true
      by (symmetry; apply both_inside_true; unfold in_unit; lra).
    unfold direct_value, sol_distance. simpl.
    rewrite !clamp_id by (unfold in_unit; lra).
    rewrite distance_at, par_sqdist. f_equal. field. }
  eexists. split; [apply solver_ok; lra|].
  split; [exact Hval|]. split; [exact Hone|].
  intros Hmin.
  assert (H12 : in_unit (1 / 2)) by (unfold in_unit; lra).
  assert (H0 : in_unit 0) by (unfold in_unit; lra).
  specialize (Hmin (1 / 2) 0 H12 H0). rewrite Hone, Hval in Hmin.
  assert (sqrt 1 < sqrt 5) by (apply sqrt_lt_1_alt; lra).
  rewrite sqrt_1 in *. lra.
Qed.

(** With the two parallel segments exchanged the solver answers 1. *)
Lemma parallel_overlap_exchanged_distance :
  exists r' : Solver.solution,
    Solver.closest_points_on_segments_in_3D
      (vec4 par_B1) (vec4 par_B2) (vec4 par_A1) (vec4 par_A2) eps_default = Ok r'
    /\ sol_distance r' = 1.
Proof.
  assert (Hsmall : eps_default < 1) by (unfold eps_default; lra).
  pose proof eps_default_pos as Hpos.
  assert (HD : sp_D par_B1 par_B2 par_A1 par_A2 = 0) by (to_coordinates; simpl; ring).
  assert (Hc : sp_c par_A1 par_A2 = 4) by (to_coordinates; simpl; ring).
  assert (He : sp_e par_B1 par_A1 par_A2 = -2) by (to_coordinates; simpl; ring).
  assert (Hproj : projection eps_default (xyz par_A1) (xyz par_A2) (xyz par_B1) = 1 / 2).
  { unfold projection. cbv zeta.
    fold (vec_v par_A1 par_A2). fold (sp_c par_A1 par_A2). rewrite Hc.
    rewrite (proj2 (Rgtb_true 4 eps_default)) by lra.
    rewrite clamp_id; to_coordinates; simpl; [field | unfold in_unit; lra]. }
  eexists. split; [apply solver_ok; lra|].
  unfold solver_value.
  rewrite line_values_parallel by (rewrite ?HD, ?Hc, ?Rabs_R0; lra).
  rewrite He, Hc.
  replace (both_inside 0 (-2 / 4)) with false.
  2: { symmetry. apply not_true_is_false. intros Hin.
       apply both_inside_true in Hin as [_ [Hlo _]]. lra. }
  rewrite fallback_value_first; rewrite Hproj.
  - unfold solution_at, sol_distance. simpl.
    rewrite distance_at, (sqdist_exchange par_A1 par_A2 par_B1 par_B2), par_sqdist.
    apply sqrt_of_square; [lra | field].
  - intros s t. rewrite !(sqdist_exchange par_A1 par_A2 par_B1 par_B2), !par_sqdist.
    apply sqrt_le_1_alt. pose proof (sq_nonneg (2 * t - 2 * s - 1)). lra.
Qed.

(** The solver answers 1 although the point is on the segment; with the
    point as first argument it answers 0. *)
Lemma point_on_segment_distance :
  (exists r : Solver.solution,
     Solver.closest_points_on_segments_in_3D
       (vec4 dot_A1) (vec4 dot_A2) (vec4 dot_B1) (vec4 dot_B2) eps_default = Ok r
     /\ sol_distance r = 1)
  /\ distance (point_at (xyz dot_A1) (xyz dot_A2) (1 / 2))
              (point_at (xyz dot_B1) (xyz dot_B2) 0) = 0.
Proof.
  pose proof eps_default_pos as Hpos.
  assert (HD : sp_D dot_A1 dot_A2 dot_B1 dot_B2 = 0) by (to_coordinates; simpl; ring).
  assert (Hc : sp_c dot_B1 dot_B2 = 0) by (to_coordinates; simpl; ring).
  assert (Hsq : forall s t, sqdist dot_A1 dot_A2 dot_B1 dot_B2 s t
                            = (2 * s - 1) * (2 * s - 1))
    by (intros; to_coordinates; simpl; ring).
  split.
  - eexists. split; [apply solver_ok; lra|].
    unfold solver_value.
    rewrite line_values_point by (rewrite ?HD, ?Hc, ?Rabs_R0; lra).
    replace (both_inside 0 0) with true
      by (symmetry; apply both_inside_true; unfold in_unit; lra).
    unfold direct_value, sol_distance. simpl.
    rewrite !clamp_id by (unfold in_unit; lra).
    rewrite distance_at, Hsq. apply sqrt_of_square; [lra | ring].
  - rewrite distance_at, Hsq. apply sqrt_of_square; [lra | field].
Qed.

(** ** The loops of the aggregator *)

Lemma for_each_app {A S : Type} (body : S -> A -> result S) (l1 l2 : list A) (st : S) :
  for_each body (l1 ++ l2) st
  = match for_each body l1 st with
    | Ok st' => for_each body l2 st'
    | Raise e => Raise e
    end.
Proof.
  revert st. induction l1 as [|x l1 IH]; intros st; simpl; [reflexivity|].
  destruct (body st x); [apply IH | reflexivity].
Qed.

Lemma for_each_map {A A' S : Type} (g : A -> A') (body : S -> A' -> result S)
    (l : list A) (st : S) :
  for_each body (map g l) st = for_each (fun s x => body s (g x)) l st.
Proof.
  revert st. induction l as [|x l IH]; intros st; simpl; [reflexivity|].
  destruct (body st (g x)); [apply IH | reflexivity].
Qed.

Lemma for_each_ext {A S : Type} (body body' : S -> A -> result S) (l : list A) (st : S) :
  (forall s x, body s x = body' s x) -> for_each body l st = for_each body' l st.
Proof.
  intros Hext. revert st. induction l as [|x l IH]; intros st; simpl; [reflexivity|].
  rewrite Hext. destruct (body' st x); [apply IH | reflexivity].
Qed.

Lemma for_each_flat_map {A A' S : Type} (g : A -> list A') (body : S -> A' -> result S)
    (l : list A) (st : S) :
  for_each body (flat_map g l) st = for_each (fun s x => for_each body (g x) s) l st.
Proof.
  revert st. induction l as [|x l IH]; intros st; simpl; [reflexivity|].
  rewrite for_each_app. destruct (for_each body (g x) st); [apply IH | reflexivity].
Qed.

Lemma for_each_appending {A B : Type} (f : A -> result (list B)) (l : list A)
    (acc : list B) :
  for_each (appending f) l acc
  = match map_result f l with
    | Ok rs => Ok (acc ++ concat rs)
    | Raise e => Raise e
    end.
Proof.
  revert acc. induction l as [|x l IH]; intros acc; simpl.
  - by rewrite app_nil_r.
  - unfold appending at 1. destruct (f x) as [r|e]; simpl; [|reflexivity].
    rewrite IH. destruct (map_result f l) as [rs|e]; simpl; [|reflexivity].
    by rewrite app_assoc.
Qed.

Lemma conflict_level_cases (self : SpatialAnalyzer) (closest_P closest_Q : list R)
    (d t1 t2 : R) :
  check_for_conflicts self (closest_P, closest_Q, d, (t1, t2))
  = (0%Z, None, None, None, None)
  \/ check_for_conflicts self (closest_P, closest_Q, d, (t1, t2))
     = (1%Z, Some closest_P, Some closest_Q, Some t1, Some t2)
  \/ check_for_conflicts self (closest_P, closest_Q, d, (t1, t2))
     = (2%Z, Some closest_P, Some closest_Q, Some t1, Some t2).
Proof.
  unfold check_for_conflicts.
  destruct (Rltb d _); [destruct (Rltb (Rabs _) _)|]; simpl; auto.
Qed.

Lemma check_segment_pair_appending (self : SpatialAnalyzer) (reference_time : R)
    (other_drone_id : string) (i : nat) (p1 p2 : list R)
    (conflicts : list Conflict) (jo : nat * Segment) :
  check_segment_pair self reference_time other_drone_id i p1 p2 conflicts jo
  = appending (pair_conflicts self reference_time other_drone_id)
              conflicts ((i, (p1, p2)), jo).
Proof.
  destruct jo as [j [o1 o2]].
  unfold check_segment_pair, appending, pair_conflicts.
  unfold mbind, result_mbind, result_bind.
  destruct (Solver.closest_points_on_segments_in_3D p1 p2 o1 o2 eps_default)
    as [[[[cP cQ] d] [t1 t2]]|e]; [|reflexivity].
  unfold record_for, conflict_level.
  destruct (conflict_level_cases self cP cQ d t1 t2) as [H | [H | H]];
    rewrite H; simpl; [by rewrite app_nil_r | reflexivity | reflexivity].
Qed.

(** the two nested loops are the map over the cross product *)
Lemma check_spatial_conflicts_spec (self : SpatialAnalyzer)
    (primary_waypoints other_waypoints : list Waypoint) (other_drone_id : string) :
  check_spatial_conflicts self primary_waypoints other_waypoints other_drone_id
  = spatial_conflicts_spec self primary_waypoints other_waypoints other_drone_id.
Proof.
  unfold check_spatial_conflicts, spatial_conflicts_spec.
  destruct (reference_time_of _ _) as [ref|e]; simpl; [|reflexivity].
  destruct (convert_waypoints_to_segments ref primary_waypoints) as [ps|e]; simpl;
    [|reflexivity].
  destruct (convert_waypoints_to_segments ref other_waypoints) as [os|e]; simpl;
    [|reflexivity].
  unfold segment_pairs.
  transitivity (for_each (appending (pair_conflicts self ref other_drone_id))
                         (flat_map (fun ip => map (pair ip) (enumerate os)) (enumerate ps))
                         []).
  - rewrite for_each_flat_map. apply for_each_ext. intros acc [i [p1 p2]].
    rewrite for_each_map. apply for_each_ext. intros acc' jo.
    apply check_segment_pair_appending.
  - rewrite for_each_appending.
    replace (flat_map (fun ip => map (pair ip) (enumerate os)) (enumerate ps))
      with (list_prod (enumerate ps) (enumerate os)).
    + unfold mbind, result_mbind, result_bind. by destruct (map_result _ _).
    + generalize (enumerate ps) as l. induction l as [|x l IH]; simpl; [reflexivity|].
      by rewrite IH.
Qed.

(** the loop over the drones is the map over the drones *)
Lemma detect_all_conflicts_spec_eq (self : ConflictDetector) (primary_path : Path)
    (flights : list Path) :
  detect_all_conflicts self primary_path flights
  = detect_all_conflicts_spec self primary_path flights.
Proof.
  unfold detect_all_conflicts, detect_all_conflicts_spec.
  rewrite (for_each_ext _
             (appending (fun drone =>
                spatial_conflicts_spec (spatial_analyzer self)
                  (waypoints primary_path) (waypoints drone) (drone_id drone)))).
  - rewrite for_each_appending.
    unfold mbind, result_mbind, result_bind. by destruct (map_result _ _).
  - intros acc drone. unfold appending. by rewrite check_spatial_conflicts_spec.
Qed.

(** ** The reference epoch *)

Lemma fold_left_Rmin_spec (l : list R) (x : R) :
  (fold_left Rmin l x = x \/ fold_left Rmin l x ∈ l)
  /\ fold_left Rmin l x <= x
  /\ forall y, y ∈ l -> fold_left Rmin l x <= y.
Proof.
  revert x. induction l as [|z l IH]; intros x; simpl.
  - split; [by left|]. split; [lra|]. intros y Hy. by apply elem_of_nil in Hy.
  - destruct (IH (Rmin x z)) as (Hin & Hle & Hall).
    assert (Hmin : Rmin x z <= x /\ Rmin x z <= z /\ (Rmin x z = x \/ Rmin x z = z)).
    { unfold Rmin. destruct (Rle_dec x z); lra. }
    destruct Hmin as (Hx & Hz & Hcase).
    split; [|split].
    + destruct Hin as [Heq | Hin].
      * destruct Hcase as [Hc | Hc]; rewrite Heq, Hc; [by left | right; left].
      * right. by right.
    + lra.
    + intros y Hy. apply elem_of_cons in Hy as [-> | Hy]; [lra | by apply Hall].
Qed.

Lemma py_min_spec (l : list R) (m : R) :
  py_min l = Ok m -> m ∈ l /\ forall y, y ∈ l -> m <= y.
Proof.
  destruct l as [|x l]; simpl; [discriminate|].
  intros [= <-]. destruct (fold_left_Rmin_spec l x) as (Hin & Hle & Hall).
  split.
  - destruct Hin as [-> | Hin]; [left | by right].
  - intros y Hy. apply elem_of_cons in Hy as [-> | Hy]; [exact Hle | by apply Hall].
Qed.

Lemma timestamps_collected (wps : list Waypoint) (acc res : list R) :
  for_each
    (fun (all_timestamps : list R) (wp : Waypoint) =>
       ts ← wp_get wp "timestamp"; Ok (all_timestamps ++ [ts]))
    wps acc = Ok res ->
  exists tss, res = acc ++ tss
    /\ Forall2 (fun wp ts => wp !! "timestamp"%string = Some ts) wps tss.
Proof.
  revert acc. induction wps as [|wp wps IH]; intros acc; simpl.
  - intros [= <-]. exists []. split; [by rewrite app_nil_r | constructor].
  - unfold wp_get at 1. destruct (wp !! "timestamp"%string) as [ts|] eqn:Hts; simpl;
      [|discriminate].
    intros Hres. destruct (IH _ Hres) as (tss & -> & Hall).
    exists (ts :: tss). split; [by rewrite <- app_assoc | by constructor].
Qed.

Lemma reference_time_least (primary_waypoints other_waypoints : list Waypoint)
    (reference_time : R) :
  reference_time_of primary_waypoints other_waypoints = Ok reference_time ->
  least_timestamp (primary_waypoints ++ other_waypoints) reference_time.
Proof.
  unfold reference_time_of.
  destruct (for_each _ _ _) as [tss|e] eqn:Hloop; simpl; [|discriminate].
  intros Hmin. apply timestamps_collected in Hloop as (tss' & -> & Hall).
  simpl in Hmin. apply py_min_spec in Hmin as [Hin Hle].
  split.
  - apply list_elem_of_lookup in Hin as [k Hk].
    destruct (Forall2_lookup_r _ _ _ _ _ Hall Hk) as (wp & Hwp & Hts).
    exists wp. split; [by eapply list_elem_of_lookup_2 | exact Hts].
  - intros wp ts Hwp Hts. apply list_elem_of_lookup in Hwp as [k Hk].
    destruct (Forall2_lookup_l _ _ _ _ _ Hall Hk) as (ts' & Hk' & Hts').
    rewrite Hts in Hts'. injection Hts' as <-.
    apply Hle. by eapply list_elem_of_lookup_2.
Qed.

(** ** Records are consistent with their two locations (C10) *)

Lemma for_each_invariant {A S : Type} (I : S -> Prop) (body : S -> A -> result S)
    (items : list A) (st res : S) :
  I st ->
  (forall s x s', I s -> body s x = Ok s' -> I s') ->
  for_each body items st = Ok res -> I res.
Proof.
  intros Hst Hstep. revert st Hst.
  induction items as [|x items IH]; intros st Hst; simpl.
  - by intros [= <-].
  - destruct (body st x) as [st'|e] eqn:Hbody; [|discriminate].
    apply IH. by eapply Hstep.
Qed.

Lemma convert_segments_wf (reference_time : R) (wps : list Waypoint)
    (segs : list Segment) :
  convert_waypoints_to_segments reference_time wps = Ok segs -> Forall wf_segment segs.
Proof.
  unfold convert_waypoints_to_segments.
  apply (for_each_invariant (Forall wf_segment)); [constructor|].
  intros segments i segments' Hwf. unfold mbind, result_mbind, result_bind.
  repeat match goal with
         | |- match ?m with Ok _ => _ | Raise _ => _ end = Ok _ -> _ =>
             destruct m; [|discriminate]
         end.
  intros [= <-]. apply Forall_app. split; [exact Hwf|].
  constructor; [|constructor].
  eexists {| ex := _; ey := _; ez := _; etime := _ |},
          {| ex := _; ey := _; ez := _; etime := _ |}.
  reflexivity.
Qed.

Lemma map_result_Forall {A B : Type} (P : B -> Prop) (f : A -> result B)
    (l : list A) (rs : list B) :
  (forall x r, x ∈ l -> f x = Ok r -> P r) ->
  map_result f l = Ok rs -> Forall P rs.
Proof.
  revert rs. induction l as [|x l IH]; intros rs HP; simpl.
  - intros [= <-]. constructor.
  - unfold mbind, result_mbind, result_bind.
    destruct (f x) as [y|e] eqn:Hfx; [|discriminate].
    destruct (map_result f l) as [ys|e] eqn:Hl; [|discriminate].
    intros [= <-]. constructor.
    + apply (HP x); [left | exact Hfx].
    + apply IH; [|reflexivity]. intros x' r Hx'. apply HP. by right.
Qed.

Lemma enumerate_elem {A : Type} (l : list A) (i : nat) (x : A) :
  (i, x) ∈ enumerate l -> x ∈ l.
Proof. unfold enumerate. apply elem_of_zip_r. Qed.

Lemma segment_pairs_elem (ps os : list Segment) (ip jo : nat * Segment) :
  (ip, jo) ∈ segment_pairs ps os -> ip.2 ∈ ps /\ jo.2 ∈ os.
Proof.
  unfold segment_pairs. rewrite list_elem_of_In, in_prod_iff, <- !list_elem_of_In.
  destruct ip as [i p], jo as [j o]. intros [Hp Ho].
  split; eapply enumerate_elem; eassumption.
Qed.

Lemma record_for_consistent (self : SpatialAnalyzer) (reference_time : R)
    (id : string) (i j : nat) (A1 A2 B1 B2 : Endpoint) :
  Forall consistent
    (record_for self reference_time id i j (solver_value eps_default A1 A2 B1 B2)).
Proof.
  destruct (solver_value_shape eps_default A1 A2 B1 B2) as (s & t & _ & _ & ->).
  unfold record_for, solution_at.
  destruct (conflict_level _ _ =? 0)%Z; constructor; [reflexivity | constructor].
Qed.

(** C10.  Every Conflict Record that [check_spatial_conflicts] returns has
    as [min_distance] the Euclidean distance between its [location_primary]
    and its [location_other]. *)
Theorem conflict_records_consistent (self : SpatialAnalyzer)
    (primary_waypoints other_waypoints : list Waypoint) (other_drone_id : string)
    (records : list Conflict) (c : Conflict) :
  check_spatial_conflicts self primary_waypoints other_waypoints other_drone_id
  = Ok records ->
  c ∈ records ->
  min_distance c = distance (location_primary c) (location_other c).
Proof.
  rewrite check_spatial_conflicts_spec. unfold spatial_conflicts_spec.
  unfold mbind, result_mbind, result_bind.
  destruct (reference_time_of _ _) as [ref|e]; [|discriminate].
  destruct (convert_waypoints_to_segments ref primary_waypoints) as [ps|e] eqn:Hps;
    [|discriminate].
  destruct (convert_waypoints_to_segments ref other_waypoints) as [os|e] eqn:Hos;
    [|discriminate].
  destruct (map_result _ _) as [rs|e] eqn:Hrs; [|discriminate].
  intros [= <-] Hc.
  apply convert_segments_wf in Hps, Hos.
  assert (Hall : Forall (Forall consistent) rs).
  { eapply map_result_Forall; [|exact Hrs].
    intros [[i [p1 p2]] [j [o1 o2]]] r Hin Hr.
    apply segment_pairs_elem in Hin as [Hp Ho]. simpl in Hp, Ho.
    rewrite Forall_forall in Hps, Hos.
    destruct (Hps _ Hp) as (A1 & A2 & [= -> ->]).
    destruct (Hos _ Ho) as (B1 & B2 & [= -> ->]).
    unfold pair_conflicts in Hr.
    rewrite solver_ok in Hr by (pose proof eps_default_pos; lra).
    simpl in Hr. injection Hr as <-. apply record_for_consistent. }
  apply list_elem_of_In, in_concat in Hc as (l & Hl & Hcl).
  apply list_elem_of_In in Hl, Hcl.
  rewrite Forall_forall in Hall. specialize (Hall l Hl).
  rewrite Forall_forall in Hall. exact (Hall c Hcl).
Qed.

(** ** Paths of valid waypoints *)

Lemma waypoint_of_x x y z ts : wp_get (waypoint_of x y z ts) "x" = Ok x.
Proof. vm_compute. reflexivity. Qed.

Lemma waypoint_of_y x y z ts : wp_get (waypoint_of x y z ts) "y" = Ok y.
Proof. vm_compute. reflexivity. Qed.

Lemma waypoint_of_z x y z ts : wp_get (waypoint_of x y z ts) "z" = Ok z.
Proof. vm_compute. reflexivity. Qed.

Lemma waypoint_of_timestamp x y z ts : wp_get (waypoint_of x y z ts) "timestamp" = Ok ts.
Proof. vm_compute. reflexivity. Qed.

Lemma waypoint_of_valid x y z ts : validate_waypoint_data [waypoint_of x y z ts] = true.
Proof. vm_compute. reflexivity. Qed.

Section Two_waypoints.

Variables (self : SpatialAnalyzer) (id : string).
Variables (x1 y1 z1 ts1 x2 y2 z2 ts2 : R).
Variables (x3 y3 z3 ts3 x4 y4 z4 ts4 : R).

Local Abbreviation primary := [waypoint_of x1 y1 z1 ts1; waypoint_of x2 y2 z2 ts2].
Local Abbreviation other := [waypoint_of x3 y3 z3 ts3; waypoint_of x4 y4 z4 ts4].
Local Abbreviation reference := (fold_left Rmin [ts2; ts3; ts4] ts1).

Lemma two_waypoints_reference : reference_time_of primary other = Ok reference.
Proof.
unfold reference_time_of. cbn [app for_each].
rewrite !waypoint_of_timestamp. reflexivity.
Qed.

Lemma two_waypoints_segments (ref xa ya za ta xb yb zb tb : R) :
convert_waypoints_to_segments ref [waypoint_of xa ya za ta; waypoint_of xb yb zb tb]
= Ok [(vec4 (endpoint_of ref xa ya za ta), vec4 (endpoint_of ref xb yb zb tb))].
Proof.
unfold convert_waypoints_to_segments. cbn [length Nat.sub seq for_each].
change (wp_index [waypoint_of xa ya za ta; waypoint_of xb yb zb tb] 0)
  with (Ok (waypoint_of xa ya za ta)).
change (wp_index [waypoint_of xa ya za ta; waypoint_of xb yb zb tb] (0 + 1))
  with (Ok (waypoint_of xb yb zb tb)).
unfold mbind, result_mbind, result_bind.
rewrite !waypoint_of_x, !waypoint_of_y, !waypoint_of_z, !waypoint_of_timestamp.
reflexivity.
Qed.

(** two paths of two valid waypoints: one segment pair *)
Lemma two_waypoints_conflicts :
check_spatial_conflicts self primary other id
= Ok (record_for self reference id 0 0
        (solver_value eps_default
           (endpoint_of reference x1 y1 z1 ts1) (endpoint_of reference x2 y2 z2 ts2)
           (endpoint_of reference x3 y3 z3 ts3) (endpoint_of reference x4 y4 z4 ts4))).
Proof.
rewrite check_spatial_conflicts_spec. unfold spatial_conflicts_spec.
rewrite two_waypoints_reference.
unfold mbind at 1, result_mbind, result_bind.
rewrite !two_waypoints_segments.
unfold mbind at 1 2, result_mbind, result_bind.
change (segment_pairs _ _)
  with [((0%nat, (vec4 (endpoint_of reference x1 y1 z1 ts1),
                  vec4 (endpoint_of reference x2 y2 z2 ts2))),
         (0%nat, (vec4 (endpoint_of reference x3 y3 z3 ts3),
                  vec4 (endpoint_of reference x4 y4 z4 ts4))))].
cbn [map_result]. unfold pair_conflicts at 1.
rewrite solver_ok by (pose proof eps_default_pos; lra).
unfold mbind, result_mbind, result_bind. cbn [concat]. by rewrite app_nil_r.
Qed.

End Two_waypoints.

(** ** A worked scenario: two paths crossing at the same place and time *)

Lemma solver_value_direct (eps : R) (A1 A2 B1 B2 : Endpoint) (s t : R) :
  line_values eps (xyz A1) (xyz A2) (xyz B1) (xyz B2) = (s, t) ->
  in_unit s -> in_unit t ->
  solver_value eps A1 A2 B1 B2 = solution_at A1 A2 B1 B2 s t.
Proof.
  intros Hline Hs Ht. unfold solver_value. rewrite Hline.
  rewrite (proj2 (both_inside_true s t)) by (split; assumption).
  rewrite direct_value_shape, !clamp_id by assumption. reflexivity.
Qed.

Lemma crossing_solution :
  solver_value eps_default crossing_A1 crossing_A2 crossing_B1 crossing_B2
  = solution_at crossing_A1 crossing_A2 crossing_B1 crossing_B2 (1 / 2) (1 / 2).
Proof.
  assert (HD : sp_D crossing_A1 crossing_A2 crossing_B1 crossing_B2 = -10000)
    by (to_coordinates; simpl; ring).
  apply solver_value_direct; try (unfold in_unit; lra).
  rewrite line_values_main.
  - rewrite HD. to_coordinates. simpl. f_equal; field.
  - rewrite HD, Rabs_left by lra. unfold eps_default. lra.
Qed.

Lemma crossing_distance :
  distance (point_at (xyz crossing_A1) (xyz crossing_A2) (1 / 2))
           (point_at (xyz crossing_B1) (xyz crossing_B2) (1 / 2)) = 0.
Proof.
  rewrite distance_at. apply sqrt_of_square; [lra|].
  to_coordinates. simpl. field.
Qed.

Lemma record_for_level_2 (self : SpatialAnalyzer) (reference_time : R) (id : string)
    (i j : nat) (r : Solver.solution) :
  conflict_level self r = 2%Z ->
  record_for self reference_time id i j r
  = [ {| with_drone := id;
         min_distance := r.1.2;
         location_primary := r.1.1.1;
         location_other := r.1.1.2;
         timestamp_primary := reference_time + r.2.1;
         timestamp_other := reference_time + r.2.2;
         time_difference := Rabs (r.2.2 - r.2.1);
         spatial_conflict := true;
         temporal_conflict := true;
         conflict_type := "SPATIOTEMPORAL";
         primary_segment := i;
         other_segment := j |} ].
Proof.
  destruct r as [[[cP cQ] d] [t1 t2]]. intros Hlevel.
  unfold record_for. rewrite Hlevel. reflexivity.
Qed.

Lemma crossing_level :
  conflict_level (SpatialAnalyzer_init 5 2 1)
    (solution_at crossing_A1 crossing_A2 crossing_B1 crossing_B2 (1 / 2) (1 / 2)) = 2%Z.
Proof.
  assert (Hdt : time_at (etime crossing_B1) (etime crossing_B2) (1 / 2)
                - time_at (etime crossing_A1) (etime crossing_A2) (1 / 2) = 0).
  { unfold time_at, crossing_A1, crossing_A2, crossing_B1, crossing_B2, endpoint_of,
      convert_timestamp_to_seconds. simpl. field. }
  unfold conflict_level, check_for_conflicts, solution_at.
  rewrite crossing_distance, Hdt, Rabs_R0.
  cbn [safety_threshold safety_time SpatialAnalyzer_init].
  rewrite (proj2 (Rltb_true 0 (5 * 3))) by lra.
  rewrite (proj2 (Rltb_true 0 2)) by lra.
  reflexivity.
Qed.

(** the crossing gives one SPATIOTEMPORAL record of distance 0 *)
Lemma crossing_conflicts :
  check_spatial_conflicts (SpatialAnalyzer_init 5 2 1) crossing_primary crossing_other "D2"
  = Ok [crossing_record]
  /\ min_distance crossing_record = 0.
Proof.
  assert (Href : fold_left Rmin [10; 0; 10] 0 = 0).
  { simpl. unfold Rmin. repeat destruct (Rle_dec _ _); lra. }
  split.
  - unfold crossing_primary, crossing_other.
    rewrite two_waypoints_conflicts, Href.
    fold crossing_A1 crossing_A2 crossing_B1 crossing_B2.
    rewrite crossing_solution. f_equal.
    apply (record_for_level_2 _ _ _ _ _ _ crossing_level).
  - apply crossing_distance.
Qed.

(** the record of the crossing *)
Lemma conflict_records_consistent_witness :
  min_distance crossing_record
  = distance (location_primary crossing_record) (location_other crossing_record).
Proof.
  apply (conflict_records_consistent (SpatialAnalyzer_init 5 2 1)
           crossing_primary crossing_other "D2" [crossing_record] crossing_record).
  - exact (proj1 crossing_conflicts).
  - apply list_elem_of_here.
Defined.

(** ** Valid waypoints and short paths (C9) *)

Lemma validate_waypoint_data_true (wps : list Waypoint) :
  validate_waypoint_data wps = true <-> Forall valid_waypoint wps.
Proof.
  unfold validate_waypoint_data, valid_waypoint.
  rewrite forallb_forall, Forall_forall. split.
  - intros H wp Hwp field Hfield.
    apply list_elem_of_In in Hwp, Hfield.
    specialize (H wp Hwp). rewrite forallb_forall in H.
    specialize (H field Hfield). by apply bool_decide_eq_true in H.
  - intros H wp Hwp. apply forallb_forall. intros field Hfield.
    apply bool_decide_eq_true. apply H; by apply list_elem_of_In.
Qed.

Lemma valid_waypoint_get (wp : Waypoint) (field : string) :
  valid_waypoint wp -> field ∈ required_fields -> exists v, wp_get wp field = Ok v.
Proof.
  intros Hwp Hfield. destruct (Hwp field Hfield) as [v Hv].
  exists v. unfold wp_get. by rewrite Hv.
Qed.

Lemma for_each_total {A S : Type} (body : S -> A -> result S) (items : list A) (st : S) :
  (forall s x, x ∈ items -> exists s', body s x = Ok s') ->
  exists res, for_each body items st = Ok res.
Proof.
  revert st. induction items as [|x items IH]; intros st Hbody; simpl.
  - by exists st.
  - destruct (Hbody st x) as [st' ->]; [left|].
    apply IH. intros s y Hy. apply Hbody. by right.
Qed.

Lemma convert_short (reference_time : R) (wps : list Waypoint) :
  (length wps < 2)%nat -> convert_waypoints_to_segments reference_time wps = Ok [].
Proof.
  intros Hlen. unfold convert_waypoints_to_segments.
  replace (length wps - 1)%nat with 0%nat by lia. reflexivity.
Qed.

Lemma convert_total (reference_time : R) (wps : list Waypoint) :
  Forall valid_waypoint wps ->
  exists segs, convert_waypoints_to_segments reference_time wps = Ok segs.
Proof.
  intros Hvalid. unfold convert_waypoints_to_segments.
  apply for_each_total. intros segments i Hi.
  apply elem_of_seq in Hi as [_ Hi].
  destruct (lookup_lt_is_Some_2 wps i) as [wp1 H1]; [lia|].
  destruct (lookup_lt_is_Some_2 wps (i + 1)) as [wp2 H2]; [lia|].
  rewrite Forall_forall in Hvalid.
  assert (Hv1 : valid_waypoint wp1) by (apply Hvalid; by eapply list_elem_of_lookup_2).
  assert (Hv2 : valid_waypoint wp2) by (apply Hvalid; by eapply list_elem_of_lookup_2).
  unfold wp_index. rewrite H1, H2. unfold mbind, result_mbind, result_bind.
  assert (Hx : ("x" : string) ∈ required_fields) by (apply list_elem_of_In; simpl; tauto).
  assert (Hy : ("y" : string) ∈ required_fields) by (apply list_elem_of_In; simpl; tauto).
  assert (Hz : ("z" : string) ∈ required_fields) by (apply list_elem_of_In; simpl; tauto).
  assert (Ht : ("timestamp" : string) ∈ required_fields)
    by (apply list_elem_of_In; simpl; tauto).
  destruct (valid_waypoint_get wp1 _ Hv1 Hx) as [? ->].
  destruct (valid_waypoint_get wp1 _ Hv1 Hy) as [? ->].
  destruct (valid_waypoint_get wp1 _ Hv1 Hz) as [? ->].
  destruct (valid_waypoint_get wp1 _ Hv1 Ht) as [? ->].
  destruct (valid_waypoint_get wp2 _ Hv2 Hx) as [? ->].
  destruct (valid_waypoint_get wp2 _ Hv2 Hy) as [? ->].
  destruct (valid_waypoint_get wp2 _ Hv2 Hz) as [? ->].
  destruct (valid_waypoint_get wp2 _ Hv2 Ht) as [? ->].
  eexists. reflexivity.
Qed.

Lemma timestamps_total (wps : list Waypoint) (acc : list R) :
  Forall valid_waypoint wps ->
  exists tss, length tss = length wps
    /\ for_each
         (fun (all_timestamps : list R) (wp : Waypoint) =>
            ts ← wp_get wp "timestamp"; Ok (all_timestamps ++ [ts]))
         wps acc = Ok (acc ++ tss).
Proof.
  intros Hvalid. revert acc. induction Hvalid as [|wp wps Hwp _ IH]; intros acc.
  - exists []. split; [reflexivity|]. simpl. by rewrite app_nil_r.
  - assert (Ht : ("timestamp" : string) ∈ required_fields)
      by (apply list_elem_of_In; simpl; tauto).
    destruct (valid_waypoint_get wp _ Hwp Ht) as [ts Hts].
    destruct (IH (acc ++ [ts])) as (tss & Hlen & Hloop).
    exists (ts :: tss). split; [simpl; lia|].
    simpl. rewrite Hts. simpl. rewrite Hloop. by rewrite <- app_assoc.
Qed.

Lemma reference_time_total (primary_waypoints other_waypoints : list Waypoint) :
  Forall valid_waypoint primary_waypoints -> Forall valid_waypoint other_waypoints ->
  primary_waypoints ++ other_waypoints <> [] ->
  exists reference_time,
    reference_time_of primary_waypoints other_waypoints = Ok reference_time.
Proof.
  intros Hp Ho Hne. unfold reference_time_of.
  destruct (timestamps_total (primary_waypoints ++ other_waypoints) [])
    as (tss & Hlen & ->); [by apply Forall_app|].
  simpl. destruct tss as [|ts tss].
  - destruct (primary_waypoints ++ other_waypoints); [done | discriminate].
  - eexists. reflexivity.
Qed.

Lemma segment_pairs_nil_r (ps : list Segment) : segment_pairs ps [] = [].
Proof.
  unfold segment_pairs. generalize (enumerate ps) as l.
  induction l as [|x l IH]; [reflexivity | exact IH].
Qed.

Lemma check_spatial_conflicts_short (self : SpatialAnalyzer)
    (primary_waypoints other_waypoints : list Waypoint) (other_drone_id : string) :
  Forall valid_waypoint primary_waypoints -> Forall valid_waypoint other_waypoints ->
  primary_waypoints ++ other_waypoints <> [] ->
  (length primary_waypoints < 2 \/ length other_waypoints < 2)%nat ->
  check_spatial_conflicts self primary_waypoints other_waypoints other_drone_id = Ok [].
Proof.
  intros Hp Ho Hne Hshort.
  rewrite check_spatial_conflicts_spec. unfold spatial_conflicts_spec.
  destruct (reference_time_total _ _ Hp Ho Hne) as [ref ->].
  unfold mbind, result_mbind, result_bind.
  destruct Hshort as [Hlen | Hlen].
  - rewrite (convert_short ref primary_waypoints Hlen).
    destruct (convert_total ref other_waypoints Ho) as [os ->]. reflexivity.
  - destruct (convert_total ref primary_waypoints Hp) as [ps ->].
    rewrite (convert_short ref other_waypoints Hlen).
    rewrite segment_pairs_nil_r. reflexivity.
Qed.

(** C9.  A path with fewer than 2 waypoints yields zero segments.  For
    paths of the data model (every waypoint carries its four fields and a
    path has at least one waypoint, so that the two paths are not both
    empty), a comparison in which one path has fewer than 2 waypoints
    returns the empty list of records without raising, and so does a
    detection with no other drone. *)
Theorem short_paths_yield_no_records (self : SpatialAnalyzer)
    (primary_waypoints other_waypoints : list Waypoint) (other_drone_id : string) :
  validate_waypoint_data primary_waypoints = true ->
  validate_waypoint_data other_waypoints = true ->
  primary_waypoints ++ other_waypoints <> [] ->
  (length primary_waypoints < 2 \/ length other_waypoints < 2)%nat ->
  (forall (reference_time : R) (wps : list Waypoint),
      (length wps < 2)%nat -> convert_waypoints_to_segments reference_time wps = Ok [])
  /\ check_spatial_conflicts self primary_waypoints other_waypoints other_drone_id = Ok []
  /\ (forall (detector : ConflictDetector) (primary_path : Path),
        detect_all_conflicts detector primary_path [] = Ok []).
Proof.
  intros Hp Ho Hne Hshort.
  apply validate_waypoint_data_true in Hp, Ho.
  split; [exact convert_short|].
  split; [by apply check_spatial_conflicts_short|].
  reflexivity.
Qed.

(** a primary path of one waypoint against the other path of the crossing *)
Lemma short_paths_yield_no_records_witness :
  (forall (reference_time : R) (wps : list Waypoint),
      (length wps < 2)%nat -> convert_waypoints_to_segments reference_time wps = Ok [])
  /\ check_spatial_conflicts (SpatialAnalyzer_init 5 2 1)
       [waypoint_of 0 0 0 0] crossing_other "D2" = Ok []
  /\ (forall (detector : ConflictDetector) (primary_path : Path),
        detect_all_conflicts detector primary_path [] = Ok []).
Proof.
  apply (short_paths_yield_no_records (SpatialAnalyzer_init 5 2 1)
           [waypoint_of 0 0 0 0] crossing_other "D2").
  - apply waypoint_of_valid.
  - vm_compute. reflexivity.
  - discriminate.
  - left. simpl. lia.
Defined.

(** Outside the data model: the comparison of two paths without waypoints
    takes the minimum of no timestamp and raises. *)
Lemma empty_paths_raise :
  check_spatial_conflicts (SpatialAnalyzer_init 5 2 1) [] [] "D2" = Raise ValueError.
Proof. reflexivity. Qed.

(** ** Input validation (C5) *)

Lemma validate_waypoint_data_false (wps : list Waypoint) (wp : Waypoint) (field : string) :
  wp ∈ wps -> field ∈ required_fields -> wp !! field = None ->
  validate_waypoint_data wps = false.
Proof.
  intros Hwp Hfield Hnone.
  destruct (validate_waypoint_data wps) eqn:Hvalid; [|reflexivity].
  apply validate_waypoint_data_true in Hvalid.
  rewrite Forall_forall in Hvalid.
  destruct (Hvalid wp Hwp field Hfield) as [v Hv]. congruence.
Qed.

(** C5, as the code has it.  When a waypoint of the primary path lacks one
    of the fields [x], [y], [z], [timestamp], [analyze_flight_data] returns
    at once, without a result and without running the detection. *)
Theorem invalid_primary_rejected (radius time_threshold : R) (flights : list Path)
    (primary_path : Path) (wp : Waypoint) (field : string) :
  wp ∈ waypoints primary_path -> field ∈ required_fields -> wp !! field = None ->
  validate_waypoint_data (waypoints primary_path) = false
  /\ analyze_flight_data radius time_threshold flights primary_path = Ok None.
Proof.
  intros Hwp Hfield Hnone.
  pose proof (validate_waypoint_data_false _ _ _ Hwp Hfield Hnone) as Hvalid.
  split; [exact Hvalid|].
  unfold analyze_flight_data. rewrite Hvalid. reflexivity.
Qed.

(** the primary path whose first waypoint has no altitude *)
Lemma invalid_primary_rejected_witness :
  validate_waypoint_data (waypoints flat_primary) = false
  /\ analyze_flight_data 5 2 [crossing_drone] flat_primary = Ok None.
Proof.
  apply (invalid_primary_rejected 5 2 [crossing_drone] flat_primary flat_waypoint "z").
  - apply list_elem_of_here.
  - apply list_elem_of_In. simpl. tauto.
  - vm_compute. reflexivity.
Defined.

(** C5 fails as stated: a primary path with decreasing timestamps and a
    primary path without waypoints both pass the validation and are
    analysed; the analysis returns its list of records. *)
Lemma contract_violations_analysed :
  (exists records : list Conflict,
      analyze_flight_data 5 2 [crossing_drone] backwards_primary = Ok (Some records))
  /\ analyze_flight_data 5 2 [crossing_drone] empty_primary = Ok (Some []).
Proof.
  split.
  - eexists. unfold analyze_flight_data.
    replace (validate_waypoint_data (waypoints backwards_primary)) with true
      by (vm_compute; reflexivity).
    unfold detect_all_conflicts, backwards_primary, crossing_drone, crossing_other.
    cbn [negb waypoints drone_id for_each].
    rewrite two_waypoints_conflicts. reflexivity.
  - unfold analyze_flight_data.
    replace (validate_waypoint_data (waypoints empty_primary)) with true
      by reflexivity.
    unfold detect_all_conflicts, empty_primary, crossing_drone.
    cbn [negb waypoints drone_id for_each].
    rewrite check_spatial_conflicts_short; [reflexivity | constructor | | | ].
    + apply validate_waypoint_data_true. vm_compute. reflexivity.
    + discriminate.
    + left. simpl. lia.
Qed.

(** * Further properties of the code *)

(** ** Where the records of a comparison come from *)

Lemma enumerate_lookup {A : Type} (l : list A) (i : nat) (x : A) :
  (i, x) ∈ enumerate l <-> l !! i = Some x.
Proof.
  unfold enumerate. rewrite list_elem_of_lookup. split.
  - intros [k Hk]. apply lookup_zip_with_Some in Hk as (i' & x' & [= <- <-] & Hi & Hx).
    apply lookup_seq in Hi as [-> _]. exact Hx.
  - intros Hx. exists i. apply lookup_zip_with_Some. exists i, x.
    split; [reflexivity|]. split; [|exact Hx].
    apply lookup_seq. split; [reflexivity|]. by apply lookup_lt_Some in Hx.
Qed.

Lemma map_result_elem {A B : Type} (f : A -> result B) (l : list A) (rs : list B)
    (r : B) :
  map_result f l = Ok rs -> r ∈ rs -> exists x, x ∈ l /\ f x = Ok r.
Proof.
  revert rs. induction l as [|x l IH]; intros rs; simpl.
  - intros [= <-] Hr. by apply elem_of_nil in Hr.
  - unfold mbind, result_mbind, result_bind.
    destruct (f x) as [y|e] eqn:Hfx; [|discriminate].
    destruct (map_result f l) as [ys|e] eqn:Hl; [|discriminate].
    intros [= <-] Hr. apply elem_of_cons in Hr as [-> | Hr].
    + exists x. split; [left | exact Hfx].
    + destruct (IH ys eq_refl Hr) as (x' & Hx' & Hfx'). exists x'. split; [by right | exact Hfx'].
Qed.

(** every record comes from one pair of segments of the two paths *)
Lemma record_origin (self : SpatialAnalyzer)
    (primary_waypoints other_waypoints : list Waypoint) (other_drone_id : string)
    (records : list Conflict) (c : Conflict) :
  check_spatial_conflicts self primary_waypoints other_waypoints other_drone_id
  = Ok records ->
  c ∈ records ->
  exists (reference_time : R) (ps os : list Segment) (i j : nat) (A1 A2 B1 B2 : Endpoint),
    reference_time_of primary_waypoints other_waypoints = Ok reference_time
    /\ convert_waypoints_to_segments reference_time primary_waypoints = Ok ps
    /\ convert_waypoints_to_segments reference_time other_waypoints = Ok os
    /\ ps !! i = Some (vec4 A1, vec4 A2) /\ os !! j = Some (vec4 B1, vec4 B2)
    /\ c ∈ record_for self reference_time other_drone_id i j
             (solver_value eps_default A1 A2 B1 B2).
Proof.
  rewrite check_spatial_conflicts_spec. unfold spatial_conflicts_spec.
  unfold mbind, result_mbind, result_bind.
  destruct (reference_time_of _ _) as [ref|e]; [|discriminate].
  destruct (convert_waypoints_to_segments ref primary_waypoints) as [ps|e] eqn:Hps;
    [|discriminate].
  destruct (convert_waypoints_to_segments ref other_waypoints) as [os|e] eqn:Hos;
    [|discriminate].
  destruct (map_result _ _) as [rs|e] eqn:Hrs; [|discriminate].
  intros [= <-] Hc.
  apply list_elem_of_In, in_concat in Hc as (l & Hl & Hcl).
  apply list_elem_of_In in Hl, Hcl.
  destruct (map_result_elem _ _ _ _ Hrs Hl) as ([[i [p1 p2]] [j [o1 o2]]] & Hin & Hr).
  unfold segment_pairs in Hin.
  rewrite list_elem_of_In, in_prod_iff, <- !list_elem_of_In in Hin.
  destruct Hin as [Hp Ho]. apply enumerate_lookup in Hp, Ho.
  pose proof (convert_segments_wf _ _ _ Hps) as Hwfp.
  pose proof (convert_segments_wf _ _ _ Hos) as Hwfo.
  rewrite Forall_forall in Hwfp, Hwfo.
  destruct (Hwfp (p1, p2)) as (A1 & A2 & [= -> ->]); [by eapply list_elem_of_lookup_2|].
  destruct (Hwfo (o1, o2)) as (B1 & B2 & [= -> ->]); [by eapply list_elem_of_lookup_2|].
  unfold pair_conflicts in Hr.
  rewrite solver_ok in Hr by (pose proof eps_default_pos; lra).
  simpl in Hr. injection Hr as <-.
  exists ref, ps, os, i, j, A1, A2, B1, B2. auto 10.
Qed.

(** what [record_for] puts in a record *)
Lemma record_for_fields (self : SpatialAnalyzer) (reference_time : R) (id : string)
    (i j : nat) (r : Solver.solution) (c : Conflict) :
  c ∈ record_for self reference_time id i j r ->
  r.1.2 < safety_threshold self
  /\ c = {| with_drone := id;
            min_distance := r.1.2;
            location_primary := r.1.1.1;
            location_other := r.1.1.2;
            timestamp_primary := reference_time + r.2.1;
            timestamp_other := reference_time + r.2.2;
            time_difference := Rabs (r.2.2 - r.2.1);
            spatial_conflict := true;
            temporal_conflict := Rltb (Rabs (r.2.2 - r.2.1)) (safety_time self);
            conflict_type := if Rltb (Rabs (r.2.2 - r.2.1)) (safety_time self)
                             then "SPATIOTEMPORAL" else "SPATIAL";
            primary_segment := i;
            other_segment := j |}.
Proof.
  destruct r as [[[cP cQ] d] [t1 t2]]. unfold record_for, conflict_level, check_for_conflicts.
  simpl.
  destruct (Rltb d (safety_threshold self)) eqn:Hd.
  - apply Rltb_true in Hd.
    destruct (Rltb (Rabs (t2 - t1)) (safety_time self)); simpl;
      intros Hc; apply list_elem_of_singleton in Hc as ->; split; auto.
  - simpl. intros Hc. by apply elem_of_nil in Hc.
Qed.

(** ** Invariants of the records of a comparison *)

Lemma solver_value_distance_nonneg (eps : R) (A1 A2 B1 B2 : Endpoint) :
  0 <= (solver_value eps A1 A2 B1 B2).1.2.
Proof.
  destruct (solver_value_shape eps A1 A2 B1 B2) as (s & t & _ & _ & ->).
  unfold solution_at, distance. simpl. apply sqrt_pos.
Qed.

(** X1.  Every record of a comparison has a distance that is at least 0 and
    strictly below the safety threshold, names the other drone, has its
    spatial flag set, has a time difference that is at least 0, has its
    temporal flag set exactly when this time difference is strictly below
    the safety time, and is typed SPATIOTEMPORAL when the temporal flag is
    set and SPATIAL otherwise. *)
Theorem conflict_record_invariants (self : SpatialAnalyzer)
    (primary_waypoints other_waypoints : list Waypoint) (other_drone_id : string)
    (records : list Conflict) (c : Conflict) :
  check_spatial_conflicts self primary_waypoints other_waypoints other_drone_id
  = Ok records ->
  c ∈ records ->
  0 <= min_distance c < safety_threshold self
  /\ with_drone c = other_drone_id
  /\ spatial_conflict c = true
  /\ 0 <= time_difference c
  /\ (temporal_conflict c = true <-> time_difference c < safety_time self)
  /\ conflict_type c = (if temporal_conflict c then "SPATIOTEMPORAL" else "SPATIAL")%string.
Proof.
  intros Hrun Hc.
  destruct (record_origin _ _ _ _ _ _ Hrun Hc)
    as (ref & ps & os & i & j & A1 & A2 & B1 & B2 & _ & _ & _ & _ & _ & Hrec).
  apply record_for_fields in Hrec as [Hd ->]. simpl.
  pose proof (solver_value_distance_nonneg eps_default A1 A2 B1 B2) as Hpos.
  split; [split; assumption|]. split; [reflexivity|]. split; [reflexivity|].
  split; [apply Rabs_pos|]. split; [apply Rltb_true | reflexivity].
Qed.

(** the crossing has its one record *)
Lemma conflict_record_invariants_witness :
  0 <= min_distance crossing_record < safety_threshold (SpatialAnalyzer_init 5 2 1)
  /\ with_drone crossing_record = "D2"%string
  /\ spatial_conflict crossing_record = true
  /\ 0 <= time_difference crossing_record
  /\ (temporal_conflict crossing_record = true
      <-> time_difference crossing_record < safety_time (SpatialAnalyzer_init 5 2 1))
  /\ conflict_type crossing_record
     = (if temporal_conflict crossing_record then "SPATIOTEMPORAL" else "SPATIAL")%string.
Proof.
  apply (conflict_record_invariants (SpatialAnalyzer_init 5 2 1)
           crossing_primary crossing_other "D2" [crossing_record] crossing_record).
  - exact (proj1 crossing_conflicts).
  - apply list_elem_of_here.
Defined.

(** X2.  With a safety threshold that is not positive, that is with a drone
    radius of 0 or less, a comparison that returns returns no record. *)
Theorem nonpositive_radius_no_record (radius time : R) (step : Z)
    (primary_waypoints other_waypoints : list Waypoint) (other_drone_id : string)
    (records : list Conflict) :
  radius <= 0 ->
  check_spatial_conflicts (SpatialAnalyzer_init radius time step)
    primary_waypoints other_waypoints other_drone_id = Ok records ->
  records = [].
Proof.
  intros Hradius Hrun. destruct records as [|c records]; [reflexivity|].
  assert (Hc : c ∈ c :: records) by left.
  destruct (record_origin _ _ _ _ _ _ Hrun Hc)
    as (ref & ps & os & i & j & A1 & A2 & B1 & B2 & _ & _ & _ & _ & _ & Hrec).
  apply record_for_fields in Hrec as [Hd _]. simpl in Hd.
  pose proof (solver_value_distance_nonneg eps_default A1 A2 B1 B2). lra.
Qed.

(** the crossing with a radius of 0 *)
Lemma nonpositive_radius_no_record_witness :
  record_for (SpatialAnalyzer_init 0 2 1) (fold_left Rmin [10; 0; 10] 0) "D2" 0 0
    (solver_value eps_default
       (endpoint_of (fold_left Rmin [10; 0; 10] 0) 0 0 0 0)
       (endpoint_of (fold_left Rmin [10; 0; 10] 0) 10 0 0 10)
       (endpoint_of (fold_left Rmin [10; 0; 10] 0) 5 (-5) 0 0)
       (endpoint_of (fold_left Rmin [10; 0; 10] 0) 5 5 0 10))
  = [].
Proof.
  apply (nonpositive_radius_no_record 0 2 1 crossing_primary crossing_other "D2").
  - lra.
  - apply two_waypoints_conflicts.
Defined.

(** ** Order and number of the records *)

Lemma for_each_length {A B : Type} (body : list B -> A -> result (list B))
    (items : list A) (st res : list B) :
  (forall s x s', body s x = Ok s' -> length s' = S (length s)) ->
  for_each body items st = Ok res -> length res = (length st + length items)%nat.
Proof.
  intros Hstep. revert st. induction items as [|x items IH]; intros st; simpl.
  - intros [= <-]. lia.
  - destruct (body st x) as [st'|e] eqn:Hbody; [|discriminate].
    intros Hres. rewrite (IH _ Hres), (Hstep _ _ _ Hbody). lia.
Qed.

Lemma convert_length (reference_time : R) (wps : list Waypoint) (segs : list Segment) :
  convert_waypoints_to_segments reference_time wps = Ok segs ->
  length segs = (length wps - 1)%nat.
Proof.
  unfold convert_waypoints_to_segments. intros Hrun.
  apply for_each_length in Hrun; [by rewrite Hrun, length_seq|].
  intros segments i segments'. unfold mbind, result_mbind, result_bind.
  repeat match goal with
         | |- match ?m with Ok _ => _ | Raise _ => _ end = Ok _ -> _ =>
             destruct m; [|discriminate]
         end.
  intros [= <-]. rewrite length_app. simpl. lia.
Qed.

Lemma enumerate_indices {A : Type} (l : list A) :
  map fst (enumerate l) = seq 0 (length l).
Proof. unfold enumerate. apply fst_zip. by rewrite length_seq. Qed.

Lemma list_prod_indices {A B : Type} (l1 : list (nat * A)) (l2 : list (nat * B)) :
  map (fun pq => (pq.1.1, pq.2.1)) (list_prod l1 l2)
  = list_prod (map fst l1) (map fst l2).
Proof.
  induction l1 as [|x l1 IH]; simpl; [reflexivity|].
  rewrite map_app, IH. f_equal. rewrite !map_map. reflexivity.
Qed.

Lemma map_result_sublist {A B K : Type} (f : A -> result (list B)) (g : B -> K)
    (h : A -> K) (l : list A) (rs : list (list B)) :
  (forall x r, f x = Ok r -> map g r `sublist_of` [h x]) ->
  map_result f l = Ok rs -> map g (concat rs) `sublist_of` map h l.
Proof.
  intros Hone. revert rs. induction l as [|x l IH]; intros rs; simpl.
  - intros [= <-]. constructor.
  - unfold mbind, result_mbind, result_bind.
    destruct (f x) as [y|e] eqn:Hfx; [|discriminate].
    destruct (map_result f l) as [ys|e] eqn:Hl; [|discriminate].
    intros [= <-]. simpl. rewrite map_app.
    change (h x :: map h l) with ([h x] ++ map h l).
    apply sublist_app; [by apply Hone | by apply IH].
Qed.

Lemma pair_conflicts_indices (self : SpatialAnalyzer) (reference_time : R)
    (id : string) (pq : (nat * Segment) * (nat * Segment)) (r : list Conflict) :
  pair_conflicts self reference_time id pq = Ok r ->
  map segment_indices r `sublist_of` [(pq.1.1, pq.2.1)].
Proof.
  destruct pq as [[i [p1 p2]] [j [o1 o2]]]. unfold pair_conflicts.
  unfold mbind, result_mbind, result_bind.
  destruct (Solver.closest_points_on_segments_in_3D _ _ _ _ _)
    as [[[[cP cQ] d] [t1 t2]]|e]; [|discriminate].
  intros [= <-]. unfold record_for.
  destruct (conflict_level _ _ =? 0)%Z; simpl.
  - apply sublist_nil_l.
  - reflexivity.
Qed.

(** X3.  The pairs (primary_segment, other_segment) of the records of a
    comparison form a subsequence of the pairs (i, j) with i below the number
    of primary segments and j below the number of other segments, listed
    with i ascending and then j ascending: the records come in this order,
    no pair of segments has two records, and there are at most
    (len(primary) - 1) * (len(other) - 1) records. *)
Theorem conflict_records_ordered (self : SpatialAnalyzer)
    (primary_waypoints other_waypoints : list Waypoint) (other_drone_id : string)
    (records : list Conflict) :
  check_spatial_conflicts self primary_waypoints other_waypoints other_drone_id
  = Ok records ->
  map segment_indices records
    `sublist_of` list_prod (seq 0 (length primary_waypoints - 1))
                           (seq 0 (length other_waypoints - 1))
  /\ (length records
      <= (length primary_waypoints - 1) * (length other_waypoints - 1))%nat.
Proof.
  rewrite check_spatial_conflicts_spec. unfold spatial_conflicts_spec.
  unfold mbind, result_mbind, result_bind.
  destruct (reference_time_of _ _) as [ref|e]; [|discriminate].
  destruct (convert_waypoints_to_segments ref primary_waypoints) as [ps|e] eqn:Hps;
    [|discriminate].
  destruct (convert_waypoints_to_segments ref other_waypoints) as [os|e] eqn:Hos;
    [|discriminate].
  destruct (map_result _ _) as [rs|e] eqn:Hrs; [|discriminate].
  intros [= <-].
  apply convert_length in Hps, Hos.
  assert (Hsub : map segment_indices (concat rs)
                 `sublist_of` list_prod (seq 0 (length primary_waypoints - 1))
                                        (seq 0 (length other_waypoints - 1))).
  { rewrite <- Hps, <- Hos, <- !enumerate_indices, <- list_prod_indices.
    eapply map_result_sublist; [|exact Hrs].
    intros pq r. apply pair_conflicts_indices. }
  split; [exact Hsub|].
  apply sublist_length in Hsub.
  rewrite length_map, length_prod, !length_seq in Hsub. exact Hsub.
Qed.

(** the crossing: one record, for the pair (0, 0) *)
Lemma conflict_records_ordered_witness :
  map segment_indices [crossing_record]
    `sublist_of` list_prod (seq 0 (length crossing_primary - 1))
                           (seq 0 (length crossing_other - 1))
  /\ (length [crossing_record]
      <= (length crossing_primary - 1) * (length crossing_other - 1))%nat.
Proof.
  apply (conflict_records_ordered (SpatialAnalyzer_init 5 2 1)
           crossing_primary crossing_other "D2" [crossing_record]).
  exact (proj1 crossing_conflicts).
Defined.

(** ** Paths whose waypoints carry their four fields *)

Lemma has_fields_get (wp : Waypoint) (e : Endpoint) :
  has_fields wp e ->
  wp_get wp "x" = Ok (ex e) /\ wp_get wp "y" = Ok (ey e)
  /\ wp_get wp "z" = Ok (ez e) /\ wp_get wp "timestamp" = Ok (etime e).
Proof.
  intros (Hx & Hy & Hz & Ht). unfold wp_get. rewrite Hx, Hy, Hz, Ht. auto.
Qed.

Lemma waypoint_of_has_fields (x y z ts : R) :
  has_fields (waypoint_of x y z ts) {| ex := x; ey := y; ez := z; etime := ts |}.
Proof. unfold has_fields. simpl. vm_compute. auto. Qed.

Lemma two_waypoints_have_fields (x1 y1 z1 ts1 x2 y2 z2 ts2 : R) :
  Forall2 has_fields [waypoint_of x1 y1 z1 ts1; waypoint_of x2 y2 z2 ts2]
    [Build_Endpoint x1 y1 z1 ts1; Build_Endpoint x2 y2 z2 ts2].
Proof.
  constructor; [apply waypoint_of_has_fields|].
  constructor; [apply waypoint_of_has_fields | constructor].
Qed.

Lemma two_waypoints_validated (x1 y1 z1 ts1 x2 y2 z2 ts2 : R) :
  validate_waypoint_data [waypoint_of x1 y1 z1 ts1; waypoint_of x2 y2 z2 ts2] = true.
Proof. vm_compute. reflexivity. Qed.

Lemma has_fields_valid (wps : list Waypoint) (es : list Endpoint) :
  Forall2 has_fields wps es -> Forall valid_waypoint wps.
Proof.
  intros H. induction H as [|wp e wps es (Hx & Hy & Hz & Ht) _ IH]; constructor; [|exact IH].
  intros field Hfield. unfold required_fields in Hfield.
  repeat (apply elem_of_cons in Hfield as [-> | Hfield]; [eauto|]).
  by apply elem_of_nil in Hfield.
Qed.

Lemma valid_has_fields (wps : list Waypoint) :
  Forall valid_waypoint wps -> exists es, Forall2 has_fields wps es.
Proof.
  induction 1 as [|wp wps Hwp _ [es IH]]; [exists []; constructor|].
  destruct (Hwp "x"%string) as [x Hx]; [unfold required_fields; apply list_elem_of_In; simpl; tauto|].
  destruct (Hwp "y"%string) as [y Hy]; [unfold required_fields; apply list_elem_of_In; simpl; tauto|].
  destruct (Hwp "z"%string) as [z Hz]; [unfold required_fields; apply list_elem_of_In; simpl; tauto|].
  destruct (Hwp "timestamp"%string) as [ts Hts];
    [unfold required_fields; apply list_elem_of_In; simpl; tauto|].
  exists ({| ex := x; ey := y; ez := z; etime := ts |} :: es).
  constructor; [|exact IH]. unfold has_fields. simpl. auto.
Qed.

Lemma segments_of_lookup (reference_time : R) (es : list Endpoint) (i : nat)
    (seg : Segment) :
  segments_of reference_time es !! i = Some seg
  <-> exists a b, es !! i = Some a /\ es !! S i = Some b
        /\ seg = (vec4 (relative reference_time a), vec4 (relative reference_time b)).
Proof.
  unfold segments_of. rewrite list_lookup_fmap, fmap_Some. split.
  - intros ([a b] & Hab & ->).
    apply lookup_zip_with_Some in Hab as (a' & b' & [= <- <-] & Ha & Hb).
    rewrite lookup_tail in Hb. exists a, b. auto.
  - intros (a & b & Ha & Hb & ->). exists (a, b). split; [|reflexivity].
    apply lookup_zip_with_Some. exists a, b. rewrite lookup_tail. auto.
Qed.

Lemma segments_of_length (reference_time : R) (es : list Endpoint) :
  length (segments_of reference_time es) = (length es - 1)%nat.
Proof.
  unfold segments_of. rewrite length_map, length_zip_with.
  destruct es as [|e es]; [reflexivity|]. simpl length. lia.
Qed.

(** the segments of a path, in closed form *)
Lemma convert_closed (reference_time : R) (wps : list Waypoint) (es : list Endpoint) :
  Forall2 has_fields wps es ->
  convert_waypoints_to_segments reference_time wps = Ok (segments_of reference_time es).
Proof.
  intros Hfields. unfold convert_waypoints_to_segments.
  pose proof (Forall2_length _ _ _ Hfields) as Hlen.
  set (body := fun (segments : list Segment) (i : nat) => _).
  assert (Hpre : forall n, (n <= length wps - 1)%nat ->
            for_each body (seq 0 n) [] = Ok (take n (segments_of reference_time es))).
  { induction n as [|n IH]; intros Hn; [reflexivity|].
    rewrite seq_S, for_each_app, IH by lia. simpl.
    destruct (lookup_lt_is_Some_2 es n) as [a Ha]; [lia|].
    destruct (lookup_lt_is_Some_2 es (S n)) as [b Hb]; [lia|].
    destruct (Forall2_lookup_r _ _ _ _ _ Hfields Ha) as (wp1 & Hwp1 & Hf1).
    destruct (Forall2_lookup_r _ _ _ _ _ Hfields Hb) as (wp2 & Hwp2 & Hf2).
    apply has_fields_get in Hf1 as (Hx1 & Hy1 & Hz1 & Ht1).
    apply has_fields_get in Hf2 as (Hx2 & Hy2 & Hz2 & Ht2).
    unfold body, wp_index. replace (n + 1)%nat with (S n) by lia.
    rewrite Hwp1, Hwp2. unfold mbind, result_mbind, result_bind.
    rewrite Hx1, Hy1, Hz1, Ht1, Hx2, Hy2, Hz2, Ht2. f_equal.
    symmetry. apply take_S_r. apply segments_of_lookup. exists a, b. auto. }
  rewrite Hpre by lia. f_equal. apply take_ge.
  rewrite segments_of_length. lia.
Qed.

Lemma vec4_inj (e e' : Endpoint) : vec4 e = vec4 e' -> e = e'.
Proof. destruct e, e'. unfold vec4. simpl. intros [= -> -> -> ->]. reflexivity. Qed.

Lemma time_at_difference (reference_time a1 a2 b1 b2 s t : R) :
  Rabs (time_at (convert_timestamp_to_seconds b1 reference_time)
                (convert_timestamp_to_seconds b2 reference_time) t
        - time_at (convert_timestamp_to_seconds a1 reference_time)
                  (convert_timestamp_to_seconds a2 reference_time) s)
  = Rabs (time_at b1 b2 t - time_at a1 a2 s).
Proof. unfold time_at, convert_timestamp_to_seconds. f_equal. ring. Qed.

(** where a record lies *)
Lemma record_on_segments (self : SpatialAnalyzer)
    (primary_waypoints other_waypoints : list Waypoint)
    (primary_points other_points : list Endpoint) (other_drone_id : string)
    (records : list Conflict) (c : Conflict) :
  Forall2 has_fields primary_waypoints primary_points ->
  Forall2 has_fields other_waypoints other_points ->
  check_spatial_conflicts self primary_waypoints other_waypoints other_drone_id
  = Ok records ->
  c ∈ records ->
  exists (A1 A2 B1 B2 : Endpoint) (s t : R),
    primary_points !! primary_segment c = Some A1
    /\ primary_points !! S (primary_segment c) = Some A2
    /\ other_points !! other_segment c = Some B1
    /\ other_points !! S (other_segment c) = Some B2
    /\ in_unit s /\ in_unit t
    /\ location_primary c = point_at (xyz A1) (xyz A2) s
    /\ location_other c = point_at (xyz B1) (xyz B2) t
    /\ time_difference c
       = Rabs (time_at (etime B1) (etime B2) t - time_at (etime A1) (etime A2) s)
    /\ min_distance c = distance (location_primary c) (location_other c).
Proof.
  intros Hp Ho Hrun Hc.
  destruct (record_origin _ _ _ _ _ _ Hrun Hc)
    as (ref & ps & os & i & j & A1' & A2' & B1' & B2' & _ & Hps & Hos & Hi & Hj & Hrec).
  rewrite (convert_closed _ _ _ Hp) in Hps. injection Hps as <-.
  rewrite (convert_closed _ _ _ Ho) in Hos. injection Hos as <-.
  apply segments_of_lookup in Hi as (A1 & A2 & HA1 & HA2 & HA).
  apply segments_of_lookup in Hj as (B1 & B2 & HB1 & HB2 & HB).
  apply pair_equal_spec in HA as [HA1' HA2'], HB as [HB1' HB2'].
  apply vec4_inj in HA1', HA2', HB1', HB2'. subst A1' A2' B1' B2'.
  apply record_for_fields in Hrec as [_ ->].
  destruct (solver_value_shape eps_default (relative ref A1) (relative ref A2)
              (relative ref B1) (relative ref B2)) as (s & t & Hs & Ht & ->).
  exists A1, A2, B1, B2, s, t. unfold solution_at. simpl.
  repeat (split; [first [assumption | reflexivity | apply time_at_difference]|]).
  reflexivity.
Qed.

(** X4.  When every waypoint of the two paths carries its four fields, each
    record of a comparison lies on the segments it names: its primary
    location is a point of parameter s in [0,1] between the waypoints
    primary_segment and primary_segment + 1 of the primary path, its other
    location a point of parameter t in [0,1] between the waypoints
    other_segment and other_segment + 1 of the other path, its time
    difference is the absolute difference of the times of these waypoints
    interpolated at s and t (whatever the reference time), and its distance
    is the distance of the two locations. *)
Theorem conflict_record_on_segments (self : SpatialAnalyzer)
    (primary_waypoints other_waypoints : list Waypoint)
    (primary_points other_points : list Endpoint) (other_drone_id : string)
    (records : list Conflict) (c : Conflict) :
  Forall2 has_fields primary_waypoints primary_points ->
  Forall2 has_fields other_waypoints other_points ->
  check_spatial_conflicts self primary_waypoints other_waypoints other_drone_id
  = Ok records ->
  c ∈ records ->
  exists (A1 A2 B1 B2 : Endpoint) (s t : R),
    primary_points !! primary_segment c = Some A1
    /\ primary_points !! S (primary_segment c) = Some A2
    /\ other_points !! other_segment c = Some B1
    /\ other_points !! S (other_segment c) = Some B2
    /\ in_unit s /\ in_unit t
    /\ location_primary c = point_at (xyz A1) (xyz A2) s
    /\ location_other c = point_at (xyz B1) (xyz B2) t
    /\ time_difference c
       = Rabs (time_at (etime B1) (etime B2) t - time_at (etime A1) (etime A2) s)
    /\ min_distance c = distance (location_primary c) (location_other c).
Proof. apply record_on_segments. Qed.

(** the crossing: the record lies in the middle of the two segments *)
Lemma conflict_record_on_segments_witness :
  exists (A1 A2 B1 B2 : Endpoint) (s t : R),
    [Build_Endpoint 0 0 0 0; Build_Endpoint 10 0 0 10] !! primary_segment crossing_record
    = Some A1
    /\ [Build_Endpoint 0 0 0 0; Build_Endpoint 10 0 0 10]
         !! S (primary_segment crossing_record) = Some A2
    /\ [Build_Endpoint 5 (-5) 0 0; Build_Endpoint 5 5 0 10] !! other_segment crossing_record
       = Some B1
    /\ [Build_Endpoint 5 (-5) 0 0; Build_Endpoint 5 5 0 10]
         !! S (other_segment crossing_record) = Some B2
    /\ in_unit s /\ in_unit t
    /\ location_primary crossing_record = point_at (xyz A1) (xyz A2) s
    /\ location_other crossing_record = point_at (xyz B1) (xyz B2) t
    /\ time_difference crossing_record
       = Rabs (time_at (etime B1) (etime B2) t - time_at (etime A1) (etime A2) s)
    /\ min_distance crossing_record
       = distance (location_primary crossing_record) (location_other crossing_record).
Proof.
  apply (conflict_record_on_segments (SpatialAnalyzer_init 5 2 1)
           crossing_primary crossing_other
           [Build_Endpoint 0 0 0 0; Build_Endpoint 10 0 0 10]
           [Build_Endpoint 5 (-5) 0 0; Build_Endpoint 5 5 0 10]
           "D2" [crossing_record] crossing_record).
  - apply two_waypoints_have_fields.
  - apply two_waypoints_have_fields.
  - exact (proj1 crossing_conflicts).
  - apply list_elem_of_here.
Defined.

(** ** Which inputs raise, and what *)

Lemma map_result_total {A B : Type} (f : A -> result B) (l : list A) :
  (forall x, x ∈ l -> exists r, f x = Ok r) -> exists rs, map_result f l = Ok rs.
Proof.
  induction l as [|x l IH]; intros Hall; simpl; [by eexists|].
  destruct (Hall x) as [r Hr]; [left|].
  destruct IH as [rs Hrs]; [intros y Hy; apply Hall; by right|].
  unfold mbind, result_mbind, result_bind. rewrite Hr, Hrs. by eexists.
Qed.

Lemma map_result_raise {A B : Type} (f : A -> result B) (l : list A) (e : exn) :
  map_result f l = Raise e -> exists x, x ∈ l /\ f x = Raise e.
Proof.
  induction l as [|x l IH]; simpl; [discriminate|].
  unfold mbind, result_mbind, result_bind.
  destruct (f x) as [y|e'] eqn:Hfx.
  - destruct (map_result f l) as [ys|e'']; [discriminate|].
    intros [= <-]. destruct IH as (x' & Hx' & Hfx'); [reflexivity|].
    exists x'. split; [by right | exact Hfx'].
  - intros [= <-]. exists x. split; [left | exact Hfx].
Qed.

Lemma for_each_raise {A S : Type} (body : S -> A -> result S) (items : list A)
    (st : S) (e : exn) :
  for_each body items st = Raise e -> exists s x, x ∈ items /\ body s x = Raise e.
Proof.
  revert st. induction items as [|x items IH]; intros st; simpl; [discriminate|].
  destruct (body st x) as [st'|e'] eqn:Hbody.
  - intros Hrest. destruct (IH _ Hrest) as (s & y & Hy & Hraise).
    exists s, y. split; [by right | exact Hraise].
  - intros [= <-]. exists st, x. split; [left | exact Hbody].
Qed.

Lemma pair_conflicts_total (self : SpatialAnalyzer) (reference_time : R) (id : string)
    (ps os : list Segment) (pq : (nat * Segment) * (nat * Segment)) :
  Forall wf_segment ps -> Forall wf_segment os ->
  pq ∈ segment_pairs ps os ->
  exists r, pair_conflicts self reference_time id pq = Ok r.
Proof.
  intros Hps Hos Hpq. destruct pq as [[i p] [j o]].
  apply segment_pairs_elem in Hpq as [Hp Ho]. simpl in Hp, Ho.
  rewrite Forall_forall in Hps, Hos.
  destruct (Hps _ Hp) as (A1 & A2 & ->). destruct (Hos _ Ho) as (B1 & B2 & ->).
  unfold pair_conflicts. rewrite solver_ok by (pose proof eps_default_pos; lra).
  by eexists.
Qed.

Lemma check_spatial_conflicts_total (self : SpatialAnalyzer)
    (primary_waypoints other_waypoints : list Waypoint) (other_drone_id : string) :
  Forall valid_waypoint primary_waypoints -> Forall valid_waypoint other_waypoints ->
  primary_waypoints ++ other_waypoints <> [] ->
  exists records,
    check_spatial_conflicts self primary_waypoints other_waypoints other_drone_id
    = Ok records.
Proof.
  intros Hp Ho Hne. rewrite check_spatial_conflicts_spec. unfold spatial_conflicts_spec.
  destruct (reference_time_total _ _ Hp Ho Hne) as [ref ->].
  unfold mbind, result_mbind, result_bind.
  destruct (convert_total ref _ Hp) as [ps Hps]. rewrite Hps.
  destruct (convert_total ref _ Ho) as [os Hos]. rewrite Hos.
  apply convert_segments_wf in Hps, Hos.
  destruct (map_result_total (pair_conflicts self ref other_drone_id) (segment_pairs ps os))
    as [rs ->]; [|by eexists].
  intros pq Hpq. exact (pair_conflicts_total self ref other_drone_id ps os pq Hps Hos Hpq).
Qed.

Lemma timestamps_raise (wps : list Waypoint) (acc : list R) (e : exn) :
  for_each
    (fun (all_timestamps : list R) (wp : Waypoint) =>
       ts ← wp_get wp "timestamp"; Ok (all_timestamps ++ [ts]))
    wps acc = Raise e ->
  e = KeyError "timestamp".
Proof.
  intros Hraise. apply for_each_raise in Hraise as (s & wp & _ & Hbody).
  unfold wp_get, mbind, result_mbind, result_bind in Hbody.
  destruct (wp !! "timestamp"%string); [discriminate|]. by injection Hbody as <-.
Qed.

Lemma reference_time_missing (primary_waypoints other_waypoints : list Waypoint)
    (wp : Waypoint) :
  wp ∈ primary_waypoints ++ other_waypoints ->
  wp !! "timestamp"%string = None ->
  reference_time_of primary_waypoints other_waypoints = Raise (KeyError "timestamp").
Proof.
  intros Hwp Hnone. unfold reference_time_of.
  unfold mbind at 1, result_mbind at 1, result_bind at 1.
  match goal with
  | |- match ?loop with Ok _ => _ | Raise _ => _ end = _ =>
      destruct loop as [tss|e] eqn:Hloop
  end.
  - apply timestamps_collected in Hloop as (tss' & _ & Hall).
    apply list_elem_of_lookup in Hwp as [k Hk].
    destruct (Forall2_lookup_l _ _ _ _ _ Hall Hk) as (ts & _ & Hts). congruence.
  - apply timestamps_raise in Hloop as ->. reflexivity.
Qed.

Lemma missing_timestamp (self : SpatialAnalyzer)
    (primary_waypoints other_waypoints : list Waypoint) (other_drone_id : string)
    (wp : Waypoint) :
  wp ∈ primary_waypoints ++ other_waypoints ->
  wp !! "timestamp"%string = None ->
  check_spatial_conflicts self primary_waypoints other_waypoints other_drone_id
  = Raise (KeyError "timestamp").
Proof.
  intros Hwp Hnone. unfold check_spatial_conflicts.
  rewrite (reference_time_missing _ _ _ Hwp Hnone). reflexivity.
Qed.

(** X6.  When a waypoint of either path has no timestamp, the comparison
    raises KeyError for the key timestamp, before any coordinate is read
    and whatever else the two paths hold. *)
Theorem missing_timestamp_raises (self : SpatialAnalyzer)
    (primary_waypoints other_waypoints : list Waypoint) (other_drone_id : string)
    (wp : Waypoint) :
  wp ∈ primary_waypoints ++ other_waypoints ->
  wp !! "timestamp"%string = None ->
  check_spatial_conflicts self primary_waypoints other_waypoints other_drone_id
  = Raise (KeyError "timestamp").
Proof. apply missing_timestamp. Qed.

(** a path without altitudes and a waypoint without timestamp *)
Lemma missing_timestamp_raises_witness :
  check_spatial_conflicts (SpatialAnalyzer_init 5 2 1)
    [flat_waypoint; flat_waypoint] [waypoint_of 1 1 1 1; ∅] "D2"
  = Raise (KeyError "timestamp").
Proof.
  apply (missing_timestamp_raises (SpatialAnalyzer_init 5 2 1)
           [flat_waypoint; flat_waypoint] [waypoint_of 1 1 1 1; ∅] "D2" ∅).
  - apply elem_of_app. right. apply list_elem_of_further, list_elem_of_here.
  - apply lookup_empty.
Defined.

Lemma convert_raise (reference_time : R) (wps : list Waypoint) (e : exn) :
  convert_waypoints_to_segments reference_time wps = Raise e ->
  exists field, field ∈ required_fields /\ e = KeyError field.
Proof.
  unfold convert_waypoints_to_segments. intros Hraise.
  apply for_each_raise in Hraise as (segments & i & Hi & Hbody).
  apply list_elem_of_In, in_seq in Hi.
  unfold wp_index in Hbody.
  destruct (lookup_lt_is_Some_2 wps i) as [wp1 Hwp1]; [lia|].
  destruct (lookup_lt_is_Some_2 wps (i + 1)) as [wp2 Hwp2]; [lia|].
  rewrite Hwp1, Hwp2 in Hbody.
  unfold mbind, result_mbind, result_bind, wp_get in Hbody.
  assert (Hfield : forall field, In field required_fields ->
            exists f, f ∈ required_fields /\ KeyError field = KeyError f).
  { intros field Hin. exists field. split; [by apply list_elem_of_In | reflexivity]. }
  repeat match type of Hbody with
         | context [match ?wp !! ?k with Some _ => _ | None => _ end] =>
             destruct (wp !! k);
             [|injection Hbody as <-; apply Hfield; simpl; tauto]
         end.
  discriminate.
Qed.

(** X7.  A comparison raises neither IndexError nor ZeroDivisionError: the
    exceptions it can raise are KeyError for one of the keys x, y, z and
    timestamp, the ValueError of the minimum of no timestamp, which needs two
    paths without waypoints, and TypeError (which the solver raises at line
    109 when no candidate distance is below infinity). *)
Theorem comparison_exceptions (self : SpatialAnalyzer)
    (primary_waypoints other_waypoints : list Waypoint) (other_drone_id : string)
    (e : exn) :
  check_spatial_conflicts self primary_waypoints other_waypoints other_drone_id
  = Raise e ->
  (exists field, field ∈ required_fields /\ e = KeyError field)
  \/ (e = ValueError /\ primary_waypoints = [] /\ other_waypoints = [])
  \/ e = TypeError.
Proof.
  rewrite check_spatial_conflicts_spec. unfold spatial_conflicts_spec, reference_time_of.
  unfold mbind, result_mbind, result_bind.
  match goal with
  | |- match match ?loop with Ok _ => _ | Raise _ => _ end with _ => _ end = _ -> _ =>
      destruct loop as [tss|e'] eqn:Hloop
  end.
  - apply timestamps_collected in Hloop as (tss' & -> & Hall). simpl.
    destruct tss' as [|ts tss']; simpl.
    + intros [= <-]. right. left. apply Forall2_nil_inv_r in Hall.
      apply app_eq_nil in Hall as [-> ->]. auto.
    + destruct (convert_waypoints_to_segments _ primary_waypoints) as [ps|e1] eqn:Hps.
      * destruct (convert_waypoints_to_segments _ other_waypoints) as [os|e2] eqn:Hos.
        -- destruct (map_result _ _) as [rs|e3] eqn:Hrs; [discriminate|].
           intros [= <-]. apply map_result_raise in Hrs as (pq & Hpq & Hraise).
           apply convert_segments_wf in Hps, Hos.
           destruct (pair_conflicts_total self (fold_left Rmin tss' ts) other_drone_id
                       ps os pq Hps Hos Hpq) as [r Hr].
           congruence.
        -- intros [= <-]. left. by eapply convert_raise.
      * intros [= <-]. left. by eapply convert_raise.
  - intros [= <-]. apply timestamps_raise in Hloop as ->.
    left. exists "timestamp"%string. split; [|reflexivity].
    apply list_elem_of_In. simpl. tauto.
Qed.

(** two paths without waypoints: the ValueError *)
Lemma comparison_exceptions_witness :
  (exists field, field ∈ required_fields /\ ValueError = KeyError field)
  \/ (ValueError = ValueError /\ @nil Waypoint = [] /\ @nil Waypoint = [])
  \/ ValueError = TypeError.
Proof.
  apply (comparison_exceptions (SpatialAnalyzer_init 5 2 1) [] [] "D2").
  reflexivity.
Defined.

(** X8.  Only the primary path is validated: when it passes and a waypoint
    of some other drone has no timestamp, analyze_flight_data raises an
    exception instead of returning without a result. *)
Theorem unvalidated_drone_raises (radius time_threshold : R) (flights : list Path)
    (primary_path drone : Path) (wp : Waypoint) :
  validate_waypoint_data (waypoints primary_path) = true ->
  drone ∈ flights -> wp ∈ waypoints drone -> wp !! "timestamp"%string = None ->
  exists e, analyze_flight_data radius time_threshold flights primary_path = Raise e.
Proof.
  intros Hvalid Hdrone Hwp Hnone. unfold analyze_flight_data. rewrite Hvalid. simpl negb.
  cbv iota. rewrite detect_all_conflicts_spec_eq. unfold detect_all_conflicts_spec.
  unfold mbind, result_mbind, result_bind.
  destruct (map_result _ flights) as [rs|e] eqn:Hrs; [|by eexists].
  exfalso. revert rs Hrs. induction flights as [|d flights IH]; intros rs.
  - by apply elem_of_nil in Hdrone.
  - simpl. unfold mbind, result_mbind, result_bind.
    destruct (spatial_conflicts_spec _ _ (waypoints d) _) as [r|e] eqn:Hd; [|discriminate].
    destruct (map_result _ flights) as [rs'|e]; [|discriminate]. intros _.
    apply elem_of_cons in Hdrone as [<- | Hdrone]; [|by eapply IH].
    rewrite <- check_spatial_conflicts_spec in Hd.
    rewrite (missing_timestamp _ _ _ _ wp) in Hd; [discriminate| |exact Hnone].
    apply elem_of_app. by right.
Qed.

(** the crossing primary path against a drone whose waypoint is empty *)
Lemma unvalidated_drone_raises_witness :
  exists e,
    analyze_flight_data 5 2 [crossing_drone; {| drone_id := "D3"; waypoints := [∅] |}]
      {| drone_id := "P"; waypoints := crossing_primary |}
    = Raise e.
Proof.
  apply (unvalidated_drone_raises 5 2
           [crossing_drone; {| drone_id := "D3"; waypoints := [∅] |}]
           {| drone_id := "P"; waypoints := crossing_primary |}
           {| drone_id := "D3"; waypoints := [∅] |} ∅).
  - apply two_waypoints_validated.
  - apply list_elem_of_further, list_elem_of_here.
  - apply list_elem_of_here.
  - apply lookup_empty.
Defined.

(** ** The two thresholds *)

Lemma map_result_rel {A B B' : Type} (Q : B -> B' -> Prop) (f : A -> result B)
    (g : A -> result B') (l : list A) (rs : list B) :
  (forall x r, f x = Ok r -> exists r', g x = Ok r' /\ Q r r') ->
  map_result f l = Ok rs ->
  exists rs', map_result g l = Ok rs' /\ Forall2 Q rs rs'.
Proof.
  intros Hfg. revert rs. induction l as [|x l IH]; intros rs; simpl.
  - intros [= <-]. exists []. split; [reflexivity | constructor].
  - unfold mbind, result_mbind, result_bind.
    destruct (f x) as [y|e] eqn:Hfx; [|discriminate].
    destruct (map_result f l) as [ys|e]; [|discriminate].
    intros [= <-]. destruct (Hfg _ _ Hfx) as (y' & -> & Hy).
    destruct (IH ys eq_refl) as (ys' & -> & Hys).
    exists (y' :: ys'). split; [reflexivity | by constructor].
Qed.

Lemma concat_Forall2 {B B' : Type} (Q : B -> B' -> Prop) (rs : list (list B))
    (rs' : list (list B')) :
  Forall2 (Forall2 Q) rs rs' -> Forall2 Q (concat rs) (concat rs').
Proof.
  induction 1 as [|r r' rs rs' Hr _ IH]; simpl; [constructor|].
  by apply Forall2_app.
Qed.

Lemma concat_sublist {B : Type} (rs rs' : list (list B)) :
  Forall2 sublist rs rs' -> concat rs `sublist_of` concat rs'.
Proof.
  induction 1 as [|r r' rs rs' Hr _ IH]; simpl; [constructor|].
  by apply sublist_app.
Qed.

(** the records of two analyzers on the same paths, pair by pair *)
Lemma comparisons_related (Q : list Conflict -> list Conflict -> Prop)
    (self self' : SpatialAnalyzer)
    (primary_waypoints other_waypoints : list Waypoint) (other_drone_id : string)
    (records : list Conflict) :
  (forall reference_time i j r,
     Q (record_for self reference_time other_drone_id i j r)
       (record_for self' reference_time other_drone_id i j r)) ->
  check_spatial_conflicts self primary_waypoints other_waypoints other_drone_id
  = Ok records ->
  exists rs rs',
    records = concat rs
    /\ check_spatial_conflicts self' primary_waypoints other_waypoints other_drone_id
       = Ok (concat rs')
    /\ Forall2 Q rs rs'.
Proof.
  intros HQ. rewrite !check_spatial_conflicts_spec. unfold spatial_conflicts_spec.
  unfold mbind, result_mbind, result_bind.
  destruct (reference_time_of _ _) as [ref|e]; [|discriminate].
  destruct (convert_waypoints_to_segments ref primary_waypoints) as [ps|e]; [|discriminate].
  destruct (convert_waypoints_to_segments ref other_waypoints) as [os|e]; [|discriminate].
  destruct (map_result (pair_conflicts self ref other_drone_id) _) as [rs|e] eqn:Hrs;
    [|discriminate].
  intros [= <-].
  assert (Hfg : forall pq r, pair_conflicts self ref other_drone_id pq = Ok r ->
            exists r', pair_conflicts self' ref other_drone_id pq = Ok r' /\ Q r r').
  { intros [[i [p1 p2]] [j [o1 o2]]] r. unfold pair_conflicts.
    unfold mbind, result_mbind, result_bind.
    destruct (Solver.closest_points_on_segments_in_3D _ _ _ _ _) as [sol|e]; [|discriminate].
    intros [= <-]. eexists. split; [reflexivity | apply HQ]. }
  destruct (map_result_rel Q _ _ _ _ Hfg Hrs) as (rs' & -> & Hrel).
  exists rs, rs'. auto.
Qed.

(** X9.  The safety time decides the type and the temporal flag of the
    records and nothing else: two analyzers with the same drone radius
    return, for the same two paths, lists of records of the same length
    that agree, record by record, on the drone, the distance, the two
    locations, the two timestamps, the time difference, the spatial flag and
    the two segment indices. *)
Theorem safety_time_only_types (radius time time' : R) (step step' : Z)
    (primary_waypoints other_waypoints : list Waypoint) (other_drone_id : string)
    (records : list Conflict) :
  check_spatial_conflicts (SpatialAnalyzer_init radius time step)
    primary_waypoints other_waypoints other_drone_id = Ok records ->
  exists records',
    check_spatial_conflicts (SpatialAnalyzer_init radius time' step')
      primary_waypoints other_waypoints other_drone_id = Ok records'
    /\ Forall2 same_encounter records records'.
Proof.
  intros Hrun.
  assert (HQ : forall reference_time i j r,
            Forall2 same_encounter
              (record_for (SpatialAnalyzer_init radius time step) reference_time
                 other_drone_id i j r)
              (record_for (SpatialAnalyzer_init radius time' step') reference_time
                 other_drone_id i j r)).
  { intros ref i j [[[cP cQ] d] [t1 t2]].
    unfold record_for, conflict_level, check_for_conflicts. simpl.
    destruct (Rltb d (radius * 3)); simpl; [|constructor].
    destruct (Rltb (Rabs (t2 - t1)) time), (Rltb (Rabs (t2 - t1)) time'); simpl;
      (constructor; [unfold same_encounter; simpl; auto 12 | constructor]). }
  destruct (comparisons_related _ _ _ _ _ _ _ HQ Hrun) as (rs & rs' & -> & Hrun' & Hrel).
  exists (concat rs'). split; [exact Hrun' | by apply concat_Forall2].
Qed.

(** the crossing with a safety time of 2 and of 0 *)
Lemma safety_time_only_types_witness :
  exists records',
    check_spatial_conflicts (SpatialAnalyzer_init 5 0 1)
      crossing_primary crossing_other "D2" = Ok records'
    /\ Forall2 same_encounter [crossing_record] records'.
Proof.
  apply (safety_time_only_types 5 2 0 1 1 crossing_primary crossing_other "D2"
           [crossing_record]).
  exact (proj1 crossing_conflicts).
Defined.

(** X10.  A larger drone radius only adds records: with the same safety
    time, the records found with a radius are, unchanged and in the same
    order, among the records found with any larger radius. *)
Theorem larger_radius_adds_records (radius radius' time : R) (step step' : Z)
    (primary_waypoints other_waypoints : list Waypoint) (other_drone_id : string)
    (records : list Conflict) :
  radius <= radius' ->
  check_spatial_conflicts (SpatialAnalyzer_init radius time step)
    primary_waypoints other_waypoints other_drone_id = Ok records ->
  exists records',
    check_spatial_conflicts (SpatialAnalyzer_init radius' time step')
      primary_waypoints other_waypoints other_drone_id = Ok records'
    /\ records `sublist_of` records'.
Proof.
  intros Hradius Hrun.
  assert (HQ : forall reference_time i j r,
            record_for (SpatialAnalyzer_init radius time step) reference_time
              other_drone_id i j r
            `sublist_of` record_for (SpatialAnalyzer_init radius' time step')
                           reference_time other_drone_id i j r).
  { intros ref i j [[[cP cQ] d] [t1 t2]].
    unfold record_for, conflict_level, check_for_conflicts. simpl.
    destruct (Rltb d (radius * 3)) eqn:Hd; simpl; [|apply sublist_nil_l].
    apply Rltb_true in Hd.
    assert (Hd' : Rltb d (radius' * 3) = true) by (apply Rltb_true; lra).
    rewrite Hd'. reflexivity. }
  destruct (comparisons_related _ _ _ _ _ _ _ HQ Hrun) as (rs & rs' & -> & Hrun' & Hrel).
  exists (concat rs'). split; [exact Hrun' | by apply concat_sublist].
Qed.

(** the crossing with a radius of 5 and of 10 *)
Lemma larger_radius_adds_records_witness :
  exists records',
    check_spatial_conflicts (SpatialAnalyzer_init 10 2 1)
      crossing_primary crossing_other "D2" = Ok records'
    /\ [crossing_record] `sublist_of` records'.
Proof.
  apply (larger_radius_adds_records 5 10 2 1 1 crossing_primary crossing_other "D2"
           [crossing_record]).
  - lra.
  - exact (proj1 crossing_conflicts).
Defined.

(** ** Segments that start at the same point *)

Lemma line_values_common_start (eps : R) (A1 A2 B1 B2 : Endpoint) :
  xyz A1 = xyz B1 ->
  line_values eps (xyz A1) (xyz A2) (xyz B1) (xyz B2) = (0, 0).
Proof.
  intros Hstart. unfold line_values. rewrite <- Hstart.
  assert (Hw : Solver.sub (xyz A1) (xyz A1) = [0; 0; 0]).
  { unfold xyz. rewrite sub3. repeat f_equal; ring. }
  rewrite Hw.
  assert (Hzero : forall a, Solver.dot (Solver.sub a (xyz A1)) [0; 0; 0] = 0
                            \/ length a <> 3%nat).
  { intros [|x [|y [|z [|? ?]]]]; try (right; simpl; lia).
    left. unfold xyz. rewrite sub3, dot3. ring. }
  destruct (Hzero (xyz A2)) as [-> | Hbad]; [|by destruct Hbad].
  destruct (Hzero (xyz B2)) as [-> | Hbad]; [|by destruct Hbad].
  destruct (Rgtb _ eps).
  - f_equal; unfold Rdiv; ring.
  - destruct (Rgtb _ eps); f_equal. unfold Rdiv. ring.
Qed.

(** the result for two segments that start at the same point *)
Lemma common_start_value (eps : R) (A1 A2 B1 B2 : Endpoint) :
  xyz A1 = xyz B1 ->
  solver_value eps A1 A2 B1 B2 = (xyz A1, xyz B1, 0, (etime A1, etime B1)).
Proof.
  intros Hstart.
  rewrite (solver_value_direct eps A1 A2 B1 B2 0 0);
    [|by apply line_values_common_start | unfold in_unit; lra | unfold in_unit; lra].
  unfold solution_at. rewrite !point_at_0. rewrite <- Hstart.
  unfold time_at. repeat f_equal; try ring.
  unfold distance, xyz. rewrite sub3, dot3.
  apply sqrt_of_square; [lra | ring].
Qed.

(** X11.  Two segments that start at the same point, a segment against
    itself among them, have distance 0: with a tolerance of at least 0 the
    solver returns this common point twice, the distance 0 and the two start
    times, whatever the directions and the lengths of the segments. *)
Theorem common_start_found (eps : R) (A1 A2 B1 B2 : Endpoint) :
  0 <= eps ->
  xyz A1 = xyz B1 ->
  Solver.closest_points_on_segments_in_3D (vec4 A1) (vec4 A2) (vec4 B1) (vec4 B2) eps
  = Ok (xyz A1, xyz B1, 0, (etime A1, etime B1)).
Proof.
  intros Heps Hstart. rewrite solver_ok by exact Heps. f_equal.
  by apply common_start_value.
Qed.

(** the first segment of the crossing against itself *)
Lemma common_start_found_witness :
  Solver.closest_points_on_segments_in_3D (vec4 crossing_A1) (vec4 crossing_A2)
    (vec4 crossing_A1) (vec4 crossing_A2) eps_default
  = Ok (xyz crossing_A1, xyz crossing_A1, 0, (etime crossing_A1, etime crossing_A1)).
Proof.
  apply (common_start_found eps_default crossing_A1 crossing_A2 crossing_A1 crossing_A2).
  - pose proof eps_default_pos. lra.
  - reflexivity.
Defined.

(** ** Positions in time *)

(** the interpolation factor of [interpolate_position] *)
Lemma interpolation_factor (t1 t2 t : R) :
  (if Rgtb (t2 - t1) 0 then truediv (t - t1) (t2 - t1) else Ok 0)
  = Ok (if Rgtb (t2 - t1) 0 then (t - t1) / (t2 - t1) else 0).
Proof.
  destruct (Rgtb (t2 - t1) 0) eqn:Hpos; [|reflexivity].
  apply Rgtb_true in Hpos. apply truediv_ok. lra.
Qed.

(** [interpolate_position] on two waypoints that carry their fields *)
Lemma interpolate_position_closed (wp1 wp2 : Waypoint) (e1 e2 : Endpoint) (t : R) :
  has_fields wp1 e1 -> has_fields wp2 e2 ->
  interpolate_position wp1 wp2 t
  = Ok (if Rltb t (etime e1) || Rgtb t (etime e2) then None
        else Some (point_at (xyz e1) (xyz e2) (factor (etime e1) (etime e2) t))).
Proof.
  intros H1 H2.
  apply has_fields_get in H1 as (Hx1 & Hy1 & Hz1 & Ht1).
  apply has_fields_get in H2 as (Hx2 & Hy2 & Hz2 & Ht2).
  unfold interpolate_position. rewrite Ht1, Ht2.
  unfold mbind at 1 2, result_mbind at 1 2, result_bind at 1 2.
  destruct (Rltb t (etime e1) || Rgtb t (etime e2)); [reflexivity|].
  rewrite interpolation_factor, Hx1, Hx2, Hy1, Hy2, Hz1, Hz2.
  unfold mbind, result_mbind, result_bind. do 2 f_equal.
  unfold point_at, xyz, factor. rewrite sub3, scale3, add3.
  f_equal; [ring|]. f_equal; [ring|]. f_equal. ring.
Qed.

Lemma factor_start (t1 t2 : R) : factor t1 t2 t1 = 0.
Proof. unfold factor. destruct (Rgtb _ _); [|reflexivity]. unfold Rdiv. ring. Qed.

Lemma factor_end (t1 t2 : R) : t1 < t2 -> factor t1 t2 t2 = 1.
Proof.
  intros Hlt. unfold factor.
  assert (Hpos : Rgtb (t2 - t1) 0 = true) by (apply Rgtb_true; lra).
  rewrite Hpos. field. lra.
Qed.

Lemma factor_time_at (t1 t2 s : R) : t1 < t2 -> factor t1 t2 (time_at t1 t2 s) = s.
Proof.
  intros Hlt. unfold factor, time_at.
  assert (Hpos : Rgtb (t2 - t1) 0 = true) by (apply Rgtb_true; lra).
  rewrite Hpos. field. lra.
Qed.

Lemma outside_true (t t1 t2 : R) :
  Rltb t t1 || Rgtb t t2 = true <-> t < t1 \/ t2 < t.
Proof. rewrite orb_true_iff, Rltb_true, Rgtb_true. reflexivity. Qed.

Lemma outside_false (t t1 t2 : R) :
  Rltb t t1 || Rgtb t t2 = false <-> t1 <= t <= t2.
Proof. rewrite orb_false_iff, Rltb_false, Rgtb_false. reflexivity. Qed.

Lemma inside_true (t t1 t2 : R) :
  Rleb t1 t && Rleb t t2 = true <-> t1 <= t <= t2.
Proof. rewrite andb_true_iff, !Rleb_true. reflexivity. Qed.

Lemma factor_in_unit (t1 t2 t : R) :
  t1 <= t <= t2 -> in_unit (factor t1 t2 t).
Proof.
  intros Ht. unfold in_unit, factor. destruct (Rgtb (t2 - t1) 0) eqn:Hpos; [|lra].
  apply Rgtb_true in Hpos. split.
  - apply Rmult_le_pos; [lra|]. left. apply Rinv_0_lt_compat. exact Hpos.
  - apply Rmult_le_reg_r with (t2 - t1); [exact Hpos|].
    unfold Rdiv. rewrite Rmult_assoc, Rinv_l by lra. lra.
Qed.

(** X12.  interpolate_position inverts the time map of the closest-point
    solver (time_calculations): between two waypoints whose timestamps strictly increase, the
    position at the time of parameter s in [0,1] is the point of parameter
    s of the segment. *)
Theorem interpolate_position_inverts_time (wp1 wp2 : Waypoint) (e1 e2 : Endpoint)
    (s : R) :
  has_fields wp1 e1 -> has_fields wp2 e2 ->
  etime e1 < etime e2 -> in_unit s ->
  interpolate_position wp1 wp2 (time_at (etime e1) (etime e2) s)
  = Ok (Some (point_at (xyz e1) (xyz e2) s)).
Proof.
  intros H1 H2 Hlt [Hs0 Hs1]. rewrite (interpolate_position_closed _ _ _ _ _ H1 H2).
  set (t := time_at (etime e1) (etime e2) s).
  assert (Hin : etime e1 <= t <= etime e2) by (unfold t, time_at; split; nra).
  apply outside_false in Hin. rewrite Hin.
  do 3 f_equal. unfold t. apply (factor_time_at (etime e1) (etime e2) s Hlt).
Qed.

(** half of the first segment of the crossing *)
Lemma interpolate_position_inverts_time_witness :
  interpolate_position (waypoint_of 0 0 0 0) (waypoint_of 10 0 0 10)
    (time_at 0 10 (1 / 2))
  = Ok (Some (point_at [0; 0; 0] [10; 0; 0] (1 / 2))).
Proof.
  apply (interpolate_position_inverts_time (waypoint_of 0 0 0 0) (waypoint_of 10 0 0 10)
           (Build_Endpoint 0 0 0 0) (Build_Endpoint 10 0 0 10) (1 / 2)).
  - apply waypoint_of_has_fields.
  - apply waypoint_of_has_fields.
  - simpl. lra.
  - unfold in_unit. lra.
Defined.

(** X13.  On two waypoints that carry their four fields interpolate_position
    raises no exception, a segment of zero duration included: it returns no
    position exactly for a time outside the range of the two timestamps (so
    for every time when the second timestamp is the earlier one), and
    otherwise a point of the segment between the two waypoints. *)
Theorem interpolate_position_defined (wp1 wp2 : Waypoint) (e1 e2 : Endpoint) (t : R) :
  has_fields wp1 e1 -> has_fields wp2 e2 ->
  exists r, interpolate_position wp1 wp2 t = Ok r
    /\ (r = None <-> t < etime e1 \/ etime e2 < t)
    /\ (forall pos, r = Some pos ->
          exists alpha, in_unit alpha /\ pos = point_at (xyz e1) (xyz e2) alpha).
Proof.
  intros H1 H2. rewrite (interpolate_position_closed _ _ _ _ _ H1 H2).
  eexists. split; [reflexivity|].
  destruct (Rltb t (etime e1) || Rgtb t (etime e2)) eqn:Hout.
  - apply outside_true in Hout. split; [tauto | discriminate].
  - apply outside_false in Hout. split.
    + split; [discriminate | lra].
    + intros pos [= <-]. eexists. split; [|reflexivity]. by apply factor_in_unit.
Qed.

(** a segment of zero duration *)
Lemma interpolate_position_defined_witness :
  exists r, interpolate_position (waypoint_of 0 0 0 3) (waypoint_of 10 0 0 3) 3 = Ok r
    /\ (r = None <-> 3 < 3 \/ 3 < 3)
    /\ (forall pos, r = Some pos ->
          exists alpha, in_unit alpha /\ pos = point_at [0; 0; 0] [10; 0; 0] alpha).
Proof.
  apply (interpolate_position_defined (waypoint_of 0 0 0 3) (waypoint_of 10 0 0 3)
           (Build_Endpoint 0 0 0 3) (Build_Endpoint 10 0 0 3) 3).
  - apply waypoint_of_has_fields.
  - apply waypoint_of_has_fields.
Defined.

(** ** The position of a drone at a time *)

Lemma get_position_loop_closed (wps : list Waypoint) (es : list Endpoint) (t : R)
    (n k : nat) :
  Forall2 has_fields wps es ->
  (k + n = length wps - 1)%nat ->
  get_position_loop wps t (seq k n) = Ok (position_in (drop k es) t).
Proof.
  intros Hfields. pose proof (Forall2_length _ _ _ Hfields) as Hlen.
  revert k. induction n as [|n IH]; intros k Hk; simpl.
  - destruct (drop k es) as [|e1 [|e2 rest]] eqn:Hdrop; [reflexivity..|].
    apply (f_equal length) in Hdrop. rewrite length_drop in Hdrop. simpl in Hdrop. lia.
  - destruct (lookup_lt_is_Some_2 es k) as [e1 He1]; [lia|].
    destruct (lookup_lt_is_Some_2 es (S k)) as [e2 He2]; [lia|].
    destruct (Forall2_lookup_r _ _ _ _ _ Hfields He1) as (wp1 & Hwp1 & Hf1).
    destruct (Forall2_lookup_r _ _ _ _ _ Hfields He2) as (wp2 & Hwp2 & Hf2).
    unfold wp_index. replace (k + 1)%nat with (S k) by lia. rewrite Hwp1, Hwp2.
    destruct (has_fields_get _ _ Hf1) as (_ & _ & _ & Ht1).
    destruct (has_fields_get _ _ Hf2) as (_ & _ & _ & Ht2).
    unfold mbind, result_mbind, result_bind. rewrite Ht1, Ht2.
    rewrite (drop_S _ _ _ He1), (drop_S _ _ _ He2). simpl position_in.
    destruct (Rleb (etime e1) t && Rleb t (etime e2)) eqn:Hin.
    + rewrite (interpolate_position_closed _ _ _ _ _ Hf1 Hf2).
      apply inside_true in Hin. apply outside_false in Hin. rewrite Hin. reflexivity.
    + rewrite IH by lia. rewrite (drop_S _ _ _ He2). reflexivity.
Qed.

(** [get_position_at_time] on a path whose waypoints carry their fields *)
Lemma get_position_closed (wps : list Waypoint) (es : list Endpoint) (t : R) :
  Forall2 has_fields wps es ->
  get_position_at_time wps t = Ok (position_in es t).
Proof.
  intros Hfields. unfold get_position_at_time.
  rewrite (get_position_loop_closed wps es t _ 0 Hfields) by lia. reflexivity.
Qed.

Lemma increasing_ascending (es : list Endpoint) : increasing es -> ascending es.
Proof.
  induction es as [|e1 [|e2 rest] IH]; simpl; try tauto.
  intros [Hlt Hrest]. split; [lra | by apply IH].
Qed.

(** along an ascending path no timestamp is before the first one *)
Lemma ascending_first (e1 : Endpoint) (rest : list Endpoint) (e : Endpoint) :
  ascending (e1 :: rest) -> e ∈ e1 :: rest -> etime e1 <= etime e.
Proof.
  revert e1. induction rest as [|e2 rest IH]; intros e1 Hasc He.
  - apply list_elem_of_singleton in He as ->. lra.
  - destruct Hasc as [Hle Hrest]. apply elem_of_cons in He as [-> | He]; [lra|].
    pose proof (IH e2 Hrest He). lra.
Qed.

(** along an increasing path every later timestamp is after the first one *)
Lemma increasing_first (e1 : Endpoint) (rest : list Endpoint) (e : Endpoint) :
  increasing (e1 :: rest) -> e ∈ rest -> etime e1 < etime e.
Proof.
  intros Hinc He. destruct rest as [|e2 rest]; [by apply elem_of_nil in He|].
  destruct Hinc as [Hlt Hrest]. apply increasing_ascending in Hrest.
  pose proof (ascending_first e2 rest e Hrest He). lra.
Qed.

(** X14.  On a path whose waypoints carry their four fields
    get_position_at_time raises no exception, and a position it returns
    lies on a segment of the path whose time range holds the time: it is the
    point of a parameter in [0,1] between two consecutive waypoints. *)
Theorem position_at_time_on_path (wps : list Waypoint) (es : list Endpoint) (t : R) :
  Forall2 has_fields wps es ->
  exists r, get_position_at_time wps t = Ok r
    /\ forall pos, r = Some pos ->
         exists (i : nat) (e1 e2 : Endpoint) (alpha : R),
           es !! i = Some e1 /\ es !! S i = Some e2
           /\ etime e1 <= t <= etime e2 /\ in_unit alpha
           /\ pos = point_at (xyz e1) (xyz e2) alpha.
Proof.
  intros Hfields. rewrite (get_position_closed _ _ _ Hfields).
  eexists. split; [reflexivity|]. clear wps Hfields.
  induction es as [|e1 [|e2 rest] IH]; intros pos; simpl; try discriminate.
  destruct (Rleb (etime e1) t && Rleb t (etime e2)) eqn:Hin.
  - apply inside_true in Hin. intros [= <-].
    exists 0%nat, e1, e2, (factor (etime e1) (etime e2) t).
    repeat (split; [first [reflexivity | exact Hin | by apply factor_in_unit]|]).
    reflexivity.
  - intros Hpos. destruct (IH pos Hpos) as (i & a & b & alpha & Ha & Hb & Hrest).
    exists (S i), a, b, alpha. auto.
Qed.

(** the first path of the crossing at time 5 *)
Lemma position_at_time_on_path_witness :
  exists r, get_position_at_time crossing_primary 5 = Ok r
    /\ forall pos, r = Some pos ->
         exists (i : nat) (e1 e2 : Endpoint) (alpha : R),
           [Build_Endpoint 0 0 0 0; Build_Endpoint 10 0 0 10] !! i = Some e1
           /\ [Build_Endpoint 0 0 0 0; Build_Endpoint 10 0 0 10] !! S i = Some e2
           /\ etime e1 <= 5 <= etime e2 /\ in_unit alpha
           /\ pos = point_at (xyz e1) (xyz e2) alpha.
Proof.
  apply (position_at_time_on_path crossing_primary
           [Build_Endpoint 0 0 0 0; Build_Endpoint 10 0 0 10] 5).
  apply two_waypoints_have_fields.
Defined.

Lemma position_in_domain (es : list Endpoint) (t : R) :
  ascending es ->
  is_Some (position_in es t)
  <-> exists first final, head es = Some first /\ last es = Some final
        /\ (2 <= length es)%nat /\ etime first <= t <= etime final.
Proof.
  induction es as [|e1 [|e2 rest] IH]; intros Hasc.
  - simpl. split; [intros [? ?]; discriminate | intros (? & ? & ? & _); discriminate].
  - simpl. split; [intros [? ?]; discriminate | intros (? & ? & _ & _ & ? & _); lia].
  - destruct Hasc as [Hle Hrest]. specialize (IH Hrest).
    assert (Hlast : exists final, last (e2 :: rest) = Some final /\ etime e2 <= etime final).
    { destruct (last (e2 :: rest)) as [final|] eqn:Hfinal.
      - exists final. split; [reflexivity|].
        apply (ascending_first e2 rest final Hrest). by apply last_Some_elem_of.
      - by apply last_None in Hfinal. }
    destruct Hlast as (final & Hfinal & Hfinal_le).
    change (last (e1 :: e2 :: rest)) with (last (e2 :: rest)).
    change (position_in (e1 :: e2 :: rest) t)
      with (if Rleb (etime e1) t && Rleb t (etime e2)
            then Some (point_at (xyz e1) (xyz e2) (factor (etime e1) (etime e2) t))
            else position_in (e2 :: rest) t).
    destruct (Rleb (etime e1) t && Rleb t (etime e2)) eqn:Hin.
    + apply inside_true in Hin. split; [|by eexists].
      intros _. exists e1, final. simpl length.
      repeat split; [exact Hfinal | lia | lra | lra].
    + rewrite IH. rewrite Hfinal. simpl head. simpl length.
      assert (Hout : ~ (etime e1 <= t <= etime e2)).
      { intros Habs. apply inside_true in Habs. congruence. }
      split.
      * intros (first & final' & [= <-] & [= <-] & Hlen & Ht).
        exists e1, final. repeat split; [lia | lra | lra].
      * intros (first & final' & [= <-] & [= <-] & Hlen & Ht).
        exists e2, final. repeat split; [|lra|lra].
        destruct rest as [|e3 rest]; [|simpl; lia].
        simpl in Hfinal. injection Hfinal as <-. lra.
Qed.

(** X15.  On a path whose waypoints carry their four fields and whose
    timestamps never decrease, get_position_at_time returns a position
    exactly when the path has at least two waypoints and the time lies
    between its first and its last timestamp, both included. *)
Theorem position_at_time_domain (wps : list Waypoint) (es : list Endpoint) (t : R) :
  Forall2 has_fields wps es -> ascending es ->
  exists r, get_position_at_time wps t = Ok r
    /\ (is_Some r
        <-> exists first final, head es = Some first /\ last es = Some final
              /\ (2 <= length es)%nat /\ etime first <= t <= etime final).
Proof.
  intros Hfields Hasc. rewrite (get_position_closed _ _ _ Hfields).
  eexists. split; [reflexivity|]. by apply position_in_domain.
Qed.

(** the first path of the crossing at time 11, after its end *)
Lemma position_at_time_domain_witness :
  exists r, get_position_at_time crossing_primary 11 = Ok r
    /\ (is_Some r
        <-> exists first final,
              head [Build_Endpoint 0 0 0 0; Build_Endpoint 10 0 0 10] = Some first
              /\ last [Build_Endpoint 0 0 0 0; Build_Endpoint 10 0 0 10] = Some final
              /\ (2 <= length [Build_Endpoint 0 0 0 0; Build_Endpoint 10 0 0 10])%nat
              /\ etime first <= 11 <= etime final).
Proof.
  apply (position_at_time_domain crossing_primary
           [Build_Endpoint 0 0 0 0; Build_Endpoint 10 0 0 10] 11).
  - apply two_waypoints_have_fields.
  - simpl. lra.
Defined.

Lemma position_in_segment (es : list Endpoint) (i : nat) (a b : Endpoint) (s : R) :
  increasing es -> es !! i = Some a -> es !! S i = Some b -> in_unit s ->
  position_in es (time_at (etime a) (etime b) s) = Some (point_at (xyz a) (xyz b) s).
Proof.
  revert i. induction es as [|e1 [|e2 rest] IH]; intros i Hinc Ha Hb Hs;
    [discriminate | destruct i; discriminate |].
  destruct Hinc as [Hlt Hrest].
  change (position_in (e1 :: e2 :: rest) (time_at (etime a) (etime b) s))
    with (if Rleb (etime e1) (time_at (etime a) (etime b) s)
             && Rleb (time_at (etime a) (etime b) s) (etime e2)
          then Some (point_at (xyz e1) (xyz e2)
                       (factor (etime e1) (etime e2) (time_at (etime a) (etime b) s)))
          else position_in (e2 :: rest) (time_at (etime a) (etime b) s)).
  destruct i as [|i].
  - injection Ha as <-. injection Hb as <-.
    assert (Hin : etime e1 <= time_at (etime e1) (etime e2) s <= etime e2).
    { destruct Hs. unfold time_at. split; nra. }
    apply inside_true in Hin. rewrite Hin, factor_time_at by exact Hlt. reflexivity.
  - change ((e2 :: rest) !! i = Some a) in Ha.
    change ((e2 :: rest) !! S i = Some b) in Hb.
    assert (Hab : etime a < etime b).
    { clear IH. revert Ha Hb Hrest. generalize (e2 :: rest). clear.
      intros l. revert i. induction l as [|x [|y l] IHl]; intros i Ha Hb Hinc;
        [discriminate | destruct i; discriminate |].
      destruct Hinc as [Hxy Hl]. destruct i as [|i].
      - injection Ha as <-. injection Hb as <-. exact Hxy.
      - by apply (IHl i). }
    assert (Ha2 : etime e2 <= etime a).
    { apply (ascending_first e2 rest a); [by apply increasing_ascending|].
      by eapply list_elem_of_lookup_2. }
    assert (Ht : etime a <= time_at (etime a) (etime b) s).
    { destruct Hs. unfold time_at. nra. }
    destruct (Rle_dec (time_at (etime a) (etime b) s) (etime e2)) as [Hle|Hgt].
    + assert (Hea : etime a = etime e2) by lra.
      assert (Hi : i = 0%nat).
      { destruct i as [|i]; [reflexivity|]. exfalso.
        assert (a ∈ rest) by (by eapply list_elem_of_lookup_2).
        pose proof (increasing_first e2 rest a Hrest H). lra. }
      subst i. injection Ha as <-.
      assert (Hs0 : s = 0).
      { destruct Hs. unfold time_at in Hle. nra. }
      subst s.
      assert (Hin : etime e1 <= time_at (etime e2) (etime b) 0 <= etime e2).
      { unfold time_at. split; lra. }
      apply inside_true in Hin. rewrite Hin.
      replace (time_at (etime e2) (etime b) 0) with (etime e2) by (unfold time_at; ring).
      rewrite factor_end by exact Hlt.
      unfold point_at, xyz. rewrite !sub3, !scale3, !add3.
      do 2 f_equal; [ring|]. f_equal; [ring|]. f_equal. ring.
    + assert (Hout : Rleb (etime e1) (time_at (etime a) (etime b) s)
                     && Rleb (time_at (etime a) (etime b) s) (etime e2) = false).
      { apply andb_false_iff. right. apply not_true_is_false. rewrite Rleb_true. exact Hgt. }
      rewrite Hout. by apply (IH i).
Qed.

(** X16.  With strictly increasing timestamps along a path whose waypoints
    carry their four fields, the position at the timestamp of a waypoint is
    the position of that waypoint, and more generally the position at the
    time of parameter s in [0,1] of a segment of the path is the point of
    parameter s of this segment. *)
Theorem position_at_time_interpolates (wps : list Waypoint) (es : list Endpoint)
    (i : nat) (a b : Endpoint) (s : R) :
  Forall2 has_fields wps es -> increasing es ->
  es !! i = Some a -> es !! S i = Some b -> in_unit s ->
  get_position_at_time wps (time_at (etime a) (etime b) s)
  = Ok (Some (point_at (xyz a) (xyz b) s))
  /\ get_position_at_time wps (etime a) = Ok (Some (xyz a))
  /\ get_position_at_time wps (etime b) = Ok (Some (xyz b)).
Proof.
  intros Hfields Hinc Ha Hb Hs. rewrite !(get_position_closed _ _ _ Hfields).
  split; [by rewrite (position_in_segment es i a b s)|].
  assert (H0 : in_unit 0) by (unfold in_unit; lra).
  assert (H1 : in_unit 1) by (unfold in_unit; lra).
  pose proof (position_in_segment es i a b 0 Hinc Ha Hb H0) as Hstart.
  pose proof (position_in_segment es i a b 1 Hinc Ha Hb H1) as Hend.
  replace (time_at (etime a) (etime b) 0) with (etime a) in Hstart
    by (unfold time_at; ring).
  replace (time_at (etime a) (etime b) 1) with (etime b) in Hend
    by (unfold time_at; ring).
  rewrite (point_at_0 a b) in Hstart. rewrite (point_at_1 a b) in Hend.
  by rewrite Hstart, Hend.
Qed.

(** a quarter of the first path of the crossing *)
Lemma position_at_time_interpolates_witness :
  get_position_at_time crossing_primary (time_at 0 10 (1 / 4))
  = Ok (Some (point_at [0; 0; 0] [10; 0; 0] (1 / 4)))
  /\ get_position_at_time crossing_primary 0 = Ok (Some [0; 0; 0])
  /\ get_position_at_time crossing_primary 10 = Ok (Some [10; 0; 0]).
Proof.
  apply (position_at_time_interpolates crossing_primary
           [Build_Endpoint 0 0 0 0; Build_Endpoint 10 0 0 10] 0
           (Build_Endpoint 0 0 0 0) (Build_Endpoint 10 0 0 10) (1 / 4)).
  - apply two_waypoints_have_fields.
  - simpl. lra.
  - reflexivity.
  - reflexivity.
  - unfold in_unit. lra.
Defined.

(** ** Two drones that start at the same point *)

Lemma segment_pairs_cons (p : Segment) (ps : list Segment) (o : Segment)
    (os : list Segment) :
  exists rest, segment_pairs (p :: ps) (o :: os) = ((0%nat, p), (0%nat, o)) :: rest.
Proof. unfold segment_pairs, enumerate. simpl. eexists. reflexivity. Qed.

(** the comparison of two paths of at least two waypoints that start at the
    same point, on real numbers *)
Lemma shared_start_value (radius time : R) (step : Z)
    (primary_waypoints other_waypoints : list Waypoint)
    (A1 A2 B1 B2 : Endpoint) (primary_rest other_rest : list Endpoint)
    (other_drone_id : string) :
  0 < radius ->
  Forall2 has_fields primary_waypoints (A1 :: A2 :: primary_rest) ->
  Forall2 has_fields other_waypoints (B1 :: B2 :: other_rest) ->
  xyz A1 = xyz B1 ->
  exists c rest,
    check_spatial_conflicts (SpatialAnalyzer_init radius time step)
      primary_waypoints other_waypoints other_drone_id = Ok (c :: rest)
    /\ segment_indices c = (0%nat, 0%nat)
    /\ min_distance c = 0
    /\ location_primary c = xyz A1 /\ location_other c = xyz A1
    /\ timestamp_primary c = etime A1 /\ timestamp_other c = etime B1
    /\ (conflict_type c = "SPATIOTEMPORAL"%string
        <-> Rabs (etime B1 - etime A1) < time).
Proof.
  intros Hradius Hp Ho Hstart.
  destruct (check_spatial_conflicts_total (SpatialAnalyzer_init radius time step)
              primary_waypoints other_waypoints other_drone_id) as [records Hrun].
  { by eapply has_fields_valid. }
  { by eapply has_fields_valid. }
  { inversion Hp; subst. discriminate. }
  rewrite Hrun. revert Hrun.
  rewrite check_spatial_conflicts_spec. unfold spatial_conflicts_spec.
  unfold mbind, result_mbind, result_bind.
  destruct (reference_time_of _ _) as [ref|e]; [|discriminate].
  rewrite (convert_closed ref _ _ Hp), (convert_closed ref _ _ Ho).
  change (segments_of ref (A1 :: A2 :: primary_rest))
    with ((vec4 (relative ref A1), vec4 (relative ref A2))
          :: segments_of ref (A2 :: primary_rest)).
  change (segments_of ref (B1 :: B2 :: other_rest))
    with ((vec4 (relative ref B1), vec4 (relative ref B2))
          :: segments_of ref (B2 :: other_rest)).
  destruct (segment_pairs_cons
              (vec4 (relative ref A1), vec4 (relative ref A2))
              (segments_of ref (A2 :: primary_rest))
              (vec4 (relative ref B1), vec4 (relative ref B2))
              (segments_of ref (B2 :: other_rest))) as [pairs ->].
  assert (Hfirst :
    pair_conflicts (SpatialAnalyzer_init radius time step) ref other_drone_id
      ((0%nat, (vec4 (relative ref A1), vec4 (relative ref A2))),
       (0%nat, (vec4 (relative ref B1), vec4 (relative ref B2))))
    = Ok (record_for (SpatialAnalyzer_init radius time step) ref other_drone_id 0 0
            (xyz (relative ref A1), xyz (relative ref B1), 0,
             (etime (relative ref A1), etime (relative ref B1))))).
  { unfold pair_conflicts. rewrite solver_ok by (pose proof eps_default_pos; lra).
    rewrite (common_start_value eps_default (relative ref A1) (relative ref A2)
               (relative ref B1) (relative ref B2)) by exact Hstart.
    reflexivity. }
  cbn [map_result]. rewrite Hfirst. clear Hfirst.
  unfold mbind, result_mbind, result_bind.
  destruct (map_result _ pairs) as [rs|e]; [|discriminate].
  intros [= <-]. cbn [concat].
  unfold record_for, conflict_level, check_for_conflicts. simpl.
  assert (Hd : Rltb 0 (radius * 3) = true) by (apply Rltb_true; lra).
  rewrite Hd. unfold convert_timestamp_to_seconds.
  replace (etime B1 - ref - (etime A1 - ref)) with (etime B1 - etime A1) by ring.
  destruct (Rltb (Rabs (etime B1 - etime A1)) time) eqn:Htime; simpl;
    (eexists; eexists; split; [reflexivity|]; simpl;
     split; [reflexivity|]; split; [reflexivity|]; split; [reflexivity|];
     split; [symmetry; exact Hstart|]; split; [ring|]; split; [ring|]).
  - split; [intros _; by apply Rltb_true | reflexivity].
  - split; [discriminate|]. intros Hlt. apply Rltb_true in Hlt. congruence.
Qed.

(** X18.  Let two paths have at least two waypoints each, every waypoint
    with its four fields, and let them start at the same point.  With a
    positive drone radius, a comparison of the two paths that returns
    reports the two drones: its first record is for the segment pair
    (0, 0), has distance 0, has the common point as its two locations and
    the two start times as its timestamps, and is SPATIOTEMPORAL exactly
    when the two start times differ by less than the safety time.  A path
    of at least two waypoints compared with itself is such a case. *)
Theorem shared_start_reported (radius time : R) (step : Z)
    (primary_waypoints other_waypoints : list Waypoint)
    (A1 A2 B1 B2 : Endpoint) (primary_rest other_rest : list Endpoint)
    (other_drone_id : string) (records : list Conflict) :
  0 < radius ->
  Forall2 has_fields primary_waypoints (A1 :: A2 :: primary_rest) ->
  Forall2 has_fields other_waypoints (B1 :: B2 :: other_rest) ->
  xyz A1 = xyz B1 ->
  check_spatial_conflicts (SpatialAnalyzer_init radius time step)
    primary_waypoints other_waypoints other_drone_id = Ok records ->
  exists c rest,
    records = c :: rest
    /\ segment_indices c = (0%nat, 0%nat)
    /\ min_distance c = 0
    /\ location_primary c = xyz A1 /\ location_other c = xyz A1
    /\ timestamp_primary c = etime A1 /\ timestamp_other c = etime B1
    /\ (conflict_type c = "SPATIOTEMPORAL"%string
        <-> Rabs (etime B1 - etime A1) < time).
Proof.
  intros Hradius Hp Ho Hstart Hrun.
  destruct (shared_start_value radius time step primary_waypoints other_waypoints
              A1 A2 B1 B2 primary_rest other_rest other_drone_id Hradius Hp Ho Hstart)
    as (c & rest & Hvalue & Hc).
  rewrite Hvalue in Hrun. injection Hrun as <-.
  exists c, rest. split; [reflexivity | exact Hc].
Qed.

(** the first path of the crossing against itself *)
Lemma shared_start_reported_witness :
  exists c rest,
    record_for (SpatialAnalyzer_init 5 2 1) (fold_left Rmin [10; 0; 10] 0) "P" 0 0
      (solver_value eps_default
         (endpoint_of (fold_left Rmin [10; 0; 10] 0) 0 0 0 0)
         (endpoint_of (fold_left Rmin [10; 0; 10] 0) 10 0 0 10)
         (endpoint_of (fold_left Rmin [10; 0; 10] 0) 0 0 0 0)
         (endpoint_of (fold_left Rmin [10; 0; 10] 0) 10 0 0 10))
    = c :: rest
    /\ segment_indices c = (0%nat, 0%nat)
    /\ min_distance c = 0
    /\ location_primary c = [0; 0; 0] /\ location_other c = [0; 0; 0]
    /\ timestamp_primary c = 0 /\ timestamp_other c = 0
    /\ (conflict_type c = "SPATIOTEMPORAL"%string <-> Rabs (0 - 0) < 2).
Proof.
  apply (shared_start_reported 5 2 1 crossing_primary crossing_primary
           (Build_Endpoint 0 0 0 0) (Build_Endpoint 10 0 0 10)
           (Build_Endpoint 0 0 0 0) (Build_Endpoint 10 0 0 10) [] [] "P").
  - lra.
  - apply two_waypoints_have_fields.
  - apply two_waypoints_have_fields.
  - reflexivity.
  - apply two_waypoints_conflicts.
Defined.

(** ** The printed summary *)

Lemma detection_origin (self : ConflictDetector) (primary_path : Path)
    (flights : list Path) (records : list Conflict) (c : Conflict) :
  detect_all_conflicts self primary_path flights = Ok records ->
  c ∈ records ->
  exists drone rs,
    drone ∈ flights
    /\ check_spatial_conflicts (spatial_analyzer self) (waypoints primary_path)
         (waypoints drone) (drone_id drone) = Ok rs
    /\ c ∈ rs.
Proof.
  rewrite detect_all_conflicts_spec_eq. unfold detect_all_conflicts_spec.
  unfold mbind, result_mbind, result_bind.
  destruct (map_result _ flights) as [rs|e] eqn:Hrs; [|discriminate].
  intros [= <-] Hc.
  apply list_elem_of_In, in_concat in Hc as (l & Hl & Hcl).
  apply list_elem_of_In in Hl, Hcl.
  destruct (map_result_elem _ _ _ _ Hrs Hl) as (drone & Hdrone & Hrun).
  exists drone, l. rewrite check_spatial_conflicts_spec. auto.
Qed.

Lemma record_type (self : SpatialAnalyzer)
    (primary_waypoints other_waypoints : list Waypoint) (other_drone_id : string)
    (records : list Conflict) (c : Conflict) :
  check_spatial_conflicts self primary_waypoints other_waypoints other_drone_id
  = Ok records ->
  c ∈ records ->
  conflict_type c = "SPATIAL"%string \/ conflict_type c = "SPATIOTEMPORAL"%string.
Proof.
  intros Hrun Hc.
  destruct (record_origin _ _ _ _ _ _ Hrun Hc)
    as (ref & ps & os & i & j & A1 & A2 & B1 & B2 & _ & _ & _ & _ & _ & Hrec).
  apply record_for_fields in Hrec as [_ ->]. simpl.
  destruct (Rltb _ _); auto.
Qed.

Lemma count_ones (l : list Conflict) (acc : Z) :
  fold_left Z.add (map (fun _ => 1%Z) l) acc = (acc + Z.of_nat (length l))%Z.
Proof.
  revert acc. induction l as [|c l IH]; intros acc; simpl length; simpl fold_left.
  - lia.
  - rewrite IH. lia.
Qed.

Lemma count_if_cons (test : Conflict -> bool) (c : Conflict) (l : list Conflict) :
  count_if test (c :: l) = ((if test c then 1 else 0) + count_if test l)%Z.
Proof.
  unfold count_if. rewrite filter_cons.
  destruct (decide (test c = true)) as [Hc|Hc].
  - rewrite Hc. cbv iota. cbn [map fold_left]. rewrite !count_ones. lia.
  - apply not_true_is_false in Hc. rewrite Hc. cbv iota. lia.
Qed.

Lemma counts_of_types (l : list Conflict) :
  Forall (fun c => conflict_type c = "SPATIAL"%string
                   \/ conflict_type c = "SPATIOTEMPORAL"%string) l ->
  count_if (fun c => String.eqb (conflict_type c) "TEMPORAL") l = 0%Z
  /\ (count_if (fun c => String.eqb (conflict_type c) "SPATIAL") l
      + count_if (fun c => String.eqb (conflict_type c) "SPATIOTEMPORAL") l
      = Z.of_nat (length l))%Z.
Proof.
  induction 1 as [|c l Hc _ [IH0 IH1]]; [split; reflexivity|].
  rewrite !count_if_cons. simpl length.
  destruct Hc as [-> | ->]; simpl; lia.
Qed.

(** X19.  In the summary printed for the records of a detection, the count
    of TEMPORAL conflicts is always 0, and the counts of SPATIAL and of
    SPATIOTEMPORAL conflicts add up to the total, the number of records:
    every record has exactly one of these two types.  The counts are left
    out only for an empty list of records. *)
Theorem summary_counts (self : ConflictDetector) (primary_path : Path)
    (flights : list Path) (records : list Conflict) :
  detect_all_conflicts self primary_path flights = Ok records ->
  match print_conflict_summary records with
  | Some summary =>
      temporal_count summary = 0%Z
      /\ (spatial_count summary + spatiotemporal_count summary
          = Z.of_nat (total_count summary))%Z
      /\ total_count summary = length records
  | None => records = []
  end.
Proof.
  intros Hrun.
  assert (Htypes : Forall (fun c => conflict_type c = "SPATIAL"%string
                                    \/ conflict_type c = "SPATIOTEMPORAL"%string) records).
  { apply Forall_forall. intros c Hc.
    destruct (detection_origin _ _ _ _ _ Hrun Hc) as (drone & rs & _ & Hrs & Hcrs).
    by eapply record_type. }
  destruct (counts_of_types records Htypes) as [H0 H1].
  destruct records as [|c records]; [reflexivity|].
  simpl. auto.
Qed.

(** the crossing: one SPATIOTEMPORAL conflict *)
Lemma summary_counts_witness :
  match print_conflict_summary [crossing_record] with
  | Some summary =>
      temporal_count summary = 0%Z
      /\ (spatial_count summary + spatiotemporal_count summary
          = Z.of_nat (total_count summary))%Z
      /\ total_count summary = length [crossing_record]
  | None => [crossing_record] = []
  end.
Proof.
  apply (summary_counts (ConflictDetector_init 5 2)
           {| drone_id := "P"; waypoints := crossing_primary |} [crossing_drone]
           [crossing_record]).
  unfold detect_all_conflicts. cbn [for_each waypoints drone_id crossing_drone].
  change (spatial_analyzer (ConflictDetector_init 5 2))
    with (SpatialAnalyzer_init 5 2 1).
  rewrite (proj1 crossing_conflicts). reflexivity.
Defined.

(** ** The segments with their times *)

Lemma map_result_Forall2 {A B C : Type} (f : A -> result B) (g : C -> B)
    (l : list A) (l' : list C) :
  Forall2 (fun x y => f x = Ok (g y)) l l' -> map_result f l = Ok (map g l').
Proof.
  induction 1 as [|x y l l' Hxy _ IH]; simpl; [reflexivity|].
  unfold mbind, result_mbind, result_bind. by rewrite Hxy, IH.
Qed.

Lemma zip_consecutive (wps : list Waypoint) (es : list Endpoint) :
  Forall2 has_fields wps es ->
  Forall2 (fun (w12 : Waypoint * Waypoint) (ab : Endpoint * Endpoint) =>
             has_fields w12.1 ab.1 /\ has_fields w12.2 ab.2)
    (zip (take (length wps - 1) wps) (drop 1 wps)) (zip es (tail es)).
Proof.
  induction 1 as [|w e wps es Hwe Htail IH]; [constructor|].
  destruct Htail as [|w' e' wps' es' Hwe' Htail']; [constructor|].
  simpl in IH. rewrite Nat.sub_0_r in IH.
  simpl. constructor; [split; assumption | exact IH].
Qed.

(** the result of [get_segments_with_time] *)
Lemma segments_with_time_closed (wps : list Waypoint) (es : list Endpoint) :
  Forall2 has_fields wps es ->
  get_segments_with_time wps
  = Ok (map (fun ab : Endpoint * Endpoint => (xyz ab.1, xyz ab.2, etime ab.1, etime ab.2))
            (zip es (tail es))).
Proof.
  intros Hfields. unfold get_segments_with_time. apply map_result_Forall2.
  eapply Forall2_impl; [by apply zip_consecutive|].
  intros [w1 w2] [a b] [Ha Hb]. simpl in Ha, Hb.
  apply has_fields_get in Ha as (Hx1 & Hy1 & Hz1 & Ht1).
  apply has_fields_get in Hb as (Hx2 & Hy2 & Hz2 & Ht2).
  rewrite Hx1, Hy1, Hz1, Hx2, Hy2, Hz2, Ht1, Ht2. reflexivity.
Qed.

(** X20.  The two segment builders of the analyzer agree: on a path whose
    waypoints carry their four fields, get_segments_with_time returns one
    segment for each pair of consecutive waypoints, len(waypoints) - 1 in
    all (none for a path of fewer than 2 waypoints), and the segments that
    check_spatial_conflicts builds for a reference time are these segments
    with each time appended to its point as seconds from the reference
    time. *)
Theorem segments_with_time_agree (wps : list Waypoint) (es : list Endpoint)
    (reference_time : R) :
  Forall2 has_fields wps es ->
  exists timed,
    get_segments_with_time wps = Ok timed
    /\ length timed = (length wps - 1)%nat
    /\ convert_waypoints_to_segments reference_time wps
       = Ok (map (fun seg : TimedSegment =>
                    (seg.1.1.1 ++ [convert_timestamp_to_seconds seg.1.2 reference_time],
                     seg.1.1.2 ++ [convert_timestamp_to_seconds seg.2 reference_time]))
                 timed).
Proof.
  intros Hfields. rewrite (segments_with_time_closed _ _ Hfields).
  eexists. split; [reflexivity|]. split.
  - rewrite length_map. rewrite (Forall2_length _ _ _ Hfields).
    pose proof (segments_of_length 0 es) as Hlen. unfold segments_of in Hlen.
    by rewrite length_map in Hlen.
  - rewrite (convert_closed _ _ _ Hfields). unfold segments_of. rewrite map_map.
    reflexivity.
Qed.

(** the first path of the crossing *)
Lemma segments_with_time_agree_witness :
  exists timed,
    get_segments_with_time crossing_primary = Ok timed
    /\ length timed = (length crossing_primary - 1)%nat
    /\ convert_waypoints_to_segments 0 crossing_primary
       = Ok (map (fun seg : TimedSegment =>
                    (seg.1.1.1 ++ [convert_timestamp_to_seconds seg.1.2 0],
                     seg.1.1.2 ++ [convert_timestamp_to_seconds seg.2 0]))
                 timed).
Proof.
  apply (segments_with_time_agree crossing_primary
           [Build_Endpoint 0 0 0 0; Build_Endpoint 10 0 0 10] 0).
  apply two_waypoints_have_fields.
Defined.

(** ** Sampling a path *)

Lemma py_int_nonneg (x : R) : 0 <= x -> (0 <= py_int x)%Z /\ IZR (py_int x) <= x.
Proof.
  intros Hx. unfold py_int. destruct (Rle_dec 0 x) as [_|Hneg]; [|lra].
  destruct (base_Int_part x) as [Hle Hgt]. split; [|exact Hle].
  assert (Hlt : IZR (-1) < IZR (Int_part x)) by (simpl; lra).
  apply lt_IZR in Hlt. lia.
Qed.

Lemma py_int_negative (x : R) : (py_int x + 1 < 0)%Z -> x < 0.
Proof.
  intros Hint. destruct (Rlt_le_dec x 0) as [Hlt|Hle]; [exact Hlt|].
  destruct (py_int_nonneg x Hle). lia.
Qed.

Lemma sample_at_closed (wp1 wp2 : Waypoint) (e1 e2 : Endpoint)
    (samples : list Sample) (s : Z) :
  has_fields wp1 e1 -> has_fields wp2 e2 ->
  sample_at wp1 wp2 (etime e1) samples s = Ok (samples ++ segment_sample e1 e2 s).
Proof.
  intros H1 H2. unfold sample_at, segment_sample.
  rewrite (interpolate_position_closed _ _ _ _ _ H1 H2).
  unfold mbind, result_mbind, result_bind.
  destruct (Rltb _ _ || Rgtb _ _); [by rewrite app_nil_r | reflexivity].
Qed.

Lemma sample_loop_closed (wp1 wp2 : Waypoint) (e1 e2 : Endpoint) (steps : list Z)
    (samples : list Sample) :
  has_fields wp1 e1 -> has_fields wp2 e2 ->
  for_each (sample_at wp1 wp2 (etime e1)) steps samples
  = Ok (samples ++ flat_map (segment_sample e1 e2) steps).
Proof.
  intros H1 H2. revert samples. induction steps as [|s steps IH]; intros samples.
  - simpl. by rewrite app_nil_r.
  - rewrite (for_each_step _ _ _ _ _ (sample_at_closed _ _ _ _ samples s H1 H2)).
    rewrite IH. simpl. by rewrite app_assoc.
Qed.

Lemma sample_segment_closed (step : Z) (wps : list Waypoint)
    (es : list Endpoint) (samples : list Sample) (i : nat) (e1 e2 : Endpoint) :
  Forall2 has_fields wps es -> es !! i = Some e1 -> es !! S i = Some e2 ->
  step <> 0%Z ->
  sample_segment step wps samples i = Ok (samples ++ segment_samples step e1 e2).
Proof.
  intros Hfields He1 He2 Hstep.
  destruct (Forall2_lookup_r _ _ _ _ _ Hfields He1) as (wp1 & Hwp1 & Hf1).
  destruct (Forall2_lookup_r _ _ _ _ _ Hfields He2) as (wp2 & Hwp2 & Hf2).
  unfold sample_segment, wp_index. replace (i + 1)%nat with (S i) by lia.
  rewrite Hwp1, Hwp2.
  destruct (has_fields_get _ _ Hf1) as (_ & _ & _ & Ht1).
  destruct (has_fields_get _ _ Hf2) as (_ & _ & _ & Ht2).
  unfold mbind, result_mbind, result_bind. rewrite Ht1, Ht2.
  unfold py_range. apply Z.eqb_neq in Hstep. rewrite Hstep.
  by apply sample_loop_closed.
Qed.

(** a loop over the segment indices that appends what [g] gives for each
    pair of consecutive endpoints *)
Lemma for_each_segments {B : Type} (body : list B -> nat -> result (list B))
    (g : Endpoint -> Endpoint -> list B) (es : list Endpoint) :
  (forall acc i e1 e2, es !! i = Some e1 -> es !! S i = Some e2 ->
     body acc i = Ok (acc ++ g e1 e2)) ->
  for_each body (seq 0 (length es - 1)) []
  = Ok (flat_map (fun ab : Endpoint * Endpoint => g ab.1 ab.2) (zip es (tail es))).
Proof.
  intros Hbody.
  assert (Hpre : forall n, (n <= length es - 1)%nat ->
            for_each body (seq 0 n) []
            = Ok (flat_map (fun ab : Endpoint * Endpoint => g ab.1 ab.2)
                    (take n (zip es (tail es))))).
  { induction n as [|n IH]; intros Hn; [reflexivity|].
    rewrite seq_S, for_each_app, IH by lia. simpl.
    destruct (lookup_lt_is_Some_2 es n) as [e1 He1]; [lia|].
    destruct (lookup_lt_is_Some_2 es (S n)) as [e2 He2]; [lia|].
    rewrite (Hbody _ _ _ _ He1 He2).
    assert (Hzip : zip es (tail es) !! n = Some (e1, e2)).
    { apply lookup_zip_with_Some. exists e1, e2. rewrite lookup_tail. auto. }
    rewrite (take_S_r _ _ _ Hzip), flat_map_app. simpl. by rewrite app_nil_r. }
  rewrite Hpre by lia. do 2 f_equal. apply take_ge.
  rewrite length_zip_with. destruct es as [|e es]; [simpl; lia|].
  cbn [tail length]. lia.
Qed.

(** the samples of a path, for a step that is not 0 *)
Lemma sample_loop_segments (step : Z) (wps : list Waypoint) (es : list Endpoint) :
  step <> 0%Z -> Forall2 has_fields wps es ->
  for_each (sample_segment step wps) (seq 0 (length wps - 1)) []
  = Ok (flat_map (fun ab : Endpoint * Endpoint => segment_samples step ab.1 ab.2)
                 (zip es (tail es))).
Proof.
  intros Hstep Hfields. rewrite (Forall2_length _ _ _ Hfields).
  apply (for_each_segments (sample_segment step wps) (segment_samples step) es).
  intros acc i e1 e2 He1 He2. by apply (sample_segment_closed step wps es).
Qed.

Lemma sample_path_closed (self : SpatialAnalyzer) (wps : list Waypoint)
    (es : list Endpoint) :
  interpolation_step self <> 0%Z -> Forall2 has_fields wps es ->
  sample_path_positions self wps
  = Ok (flat_map (fun ab : Endpoint * Endpoint =>
                    segment_samples (interpolation_step self) ab.1 ab.2)
                 (zip es (tail es))).
Proof. intros Hstep Hfields. by apply sample_loop_segments. Qed.

(** X21.  With an interpolation step of 0, sampling a path of at least two
    waypoints whose first two carry a timestamp raises ValueError, the error
    of a range with a zero step, before any position is computed. *)
Theorem zero_step_raises (self : SpatialAnalyzer) (wp1 wp2 : Waypoint)
    (rest : list Waypoint) :
  interpolation_step self = 0%Z ->
  is_Some (wp1 !! "timestamp"%string) -> is_Some (wp2 !! "timestamp"%string) ->
  sample_path_positions self (wp1 :: wp2 :: rest) = Raise ValueError.
Proof.
  intros Hstep [t1 Ht1] [t2 Ht2].
  assert (Hfirst : sample_segment (interpolation_step self) (wp1 :: wp2 :: rest) [] 0
                   = Raise ValueError).
  { unfold sample_segment, wp_index.
    change ((wp1 :: wp2 :: rest) !! 0%nat) with (Some wp1).
    change ((wp1 :: wp2 :: rest) !! (0 + 1)%nat) with (Some wp2).
    unfold mbind, result_mbind, result_bind, wp_get. rewrite Ht1, Ht2.
    unfold py_range. rewrite Hstep. reflexivity. }
  unfold sample_path_positions.
  change (seq 0 (length (wp1 :: wp2 :: rest) - 1)) with (0%nat :: seq 1 (length rest)).
  cbn [for_each]. by rewrite Hfirst.
Qed.

(** the first path of the crossing *)
Lemma zero_step_raises_witness :
  sample_path_positions (SpatialAnalyzer_init 5 2 0)
    (waypoint_of 0 0 0 0 :: waypoint_of 10 0 0 10 :: []) = Raise ValueError.
Proof.
  apply (zero_step_raises (SpatialAnalyzer_init 5 2 0)
           (waypoint_of 0 0 0 0) (waypoint_of 10 0 0 10) []).
  - reflexivity.
  - destruct (waypoint_of_has_fields 0 0 0 0) as (_ & _ & _ & Ht). by eexists.
  - destruct (waypoint_of_has_fields 10 0 0 10) as (_ & _ & _ & Ht). by eexists.
Defined.

Lemma flat_map_nil {A B : Type} (f : A -> list B) (l : list A) :
  (forall x, x ∈ l -> f x = []) -> flat_map f l = [].
Proof.
  induction l as [|x l IH]; intros Hnil; [reflexivity|].
  simpl. rewrite (Hnil x) by left. apply IH. intros y Hy. apply Hnil. by right.
Qed.

Lemma segment_samples_negative_step (step : Z) (e1 e2 : Endpoint) :
  (step < 0)%Z -> segment_samples step e1 e2 = [].
Proof.
  intros Hstep. unfold segment_samples, range_values, range_length.
  assert (Hsign : (0 <? step)%Z = false) by (apply Z.ltb_ge; lia).
  rewrite Hsign.
  destruct (py_int (etime e2 - etime e1) + 1 <? 0)%Z eqn:Hstop; [|reflexivity].
  apply Z.ltb_lt, py_int_negative in Hstop.
  apply flat_map_nil. intros s _. unfold segment_sample.
  assert (Hout : Rltb (etime e1 + IZR s) (etime e1)
                 || Rgtb (etime e1 + IZR s) (etime e2) = true).
  { apply outside_true. lra. }
  by rewrite Hout.
Qed.

(** X22.  With a negative interpolation step, sampling a path whose
    waypoints carry their four fields returns no sample at all. *)
Theorem negative_step_no_sample (self : SpatialAnalyzer) (wps : list Waypoint)
    (es : list Endpoint) :
  (interpolation_step self < 0)%Z -> Forall2 has_fields wps es ->
  sample_path_positions self wps = Ok [].
Proof.
  intros Hstep Hfields. rewrite (sample_path_closed self wps es) by (lia || exact Hfields).
  f_equal. apply flat_map_nil. intros [e1 e2] _.
  by apply segment_samples_negative_step.
Qed.

(** the first path of the crossing, sampled backwards *)
Lemma negative_step_no_sample_witness :
  sample_path_positions (SpatialAnalyzer_init 5 2 (-1)) crossing_primary = Ok [].
Proof.
  apply (negative_step_no_sample (SpatialAnalyzer_init 5 2 (-1)) crossing_primary
           [Build_Endpoint 0 0 0 0; Build_Endpoint 10 0 0 10]).
  - simpl. lia.
  - apply two_waypoints_have_fields.
Defined.

(** X23.  With an interpolation step other than 0, sampling a path whose
    waypoints carry their four fields raises no exception, and every sample
    lies on the path: its time is a whole number of steps after the start
    of a segment and within the time range of this segment, and its position
    is the position interpolated on this segment at this time. *)
Theorem samples_on_path (self : SpatialAnalyzer) (wps : list Waypoint)
    (es : list Endpoint) :
  interpolation_step self <> 0%Z -> Forall2 has_fields wps es ->
  exists samples,
    sample_path_positions self wps = Ok samples
    /\ Forall (sample_on_path (interpolation_step self) es) samples.
Proof.
  intros Hstep Hfields. rewrite (sample_path_closed self wps es Hstep Hfields).
  eexists. split; [reflexivity|]. apply Forall_forall. intros sample Hsample.
  apply list_elem_of_In, in_flat_map in Hsample as ([e1 e2] & Hpair & Hsample).
  apply list_elem_of_In, list_elem_of_lookup in Hpair as [i Hi].
  apply lookup_zip_with_Some in Hi as (a & b & [= <- <-] & He1 & He2).
  rewrite lookup_tail in He2.
  unfold segment_samples in Hsample. simpl in Hsample.
  apply in_flat_map in Hsample as (s & Hs & Hsample).
  unfold range_values in Hs. apply in_map_iff in Hs as (k & <- & _).
  unfold segment_sample in Hsample.
  destruct (Rltb _ _ || Rgtb _ _) eqn:Hout; [destruct Hsample|].
  apply outside_false in Hout.
  destruct Hsample as [<- | []].
  exists i, e1, e2, k. simpl. auto.
Qed.

(** the first path of the crossing, sampled every 3 seconds *)
Lemma samples_on_path_witness :
  exists samples,
    sample_path_positions (SpatialAnalyzer_init 5 2 3) crossing_primary = Ok samples
    /\ Forall (sample_on_path (interpolation_step (SpatialAnalyzer_init 5 2 3))
                 [Build_Endpoint 0 0 0 0; Build_Endpoint 10 0 0 10]) samples.
Proof.
  apply (samples_on_path (SpatialAnalyzer_init 5 2 3) crossing_primary
           [Build_Endpoint 0 0 0 0; Build_Endpoint 10 0 0 10]).
  - simpl. lia.
  - apply two_waypoints_have_fields.
Defined.

Lemma segment_sample_times (step : Z) (e1 e2 : Endpoint) :
  (0 < step)%Z -> etime e1 <= etime e2 ->
  map snd (segment_samples step e1 e2) = sample_times step e1 e2.
Proof.
  intros Hstep Hle. unfold segment_samples, sample_times, range_values, range_length.
  destruct (py_int_nonneg (etime e2 - etime e1)) as [Hn Hduration]; [lra|].
  set (n := py_int (etime e2 - etime e1)) in *.
  assert (Hsign : (0 <? step)%Z = true) by (apply Z.ltb_lt; lia).
  assert (Hstop : (0 <? n + 1)%Z = true) by (apply Z.ltb_lt; lia).
  rewrite Hsign, Hstop. replace (n + 1 - 0 - 1)%Z with n by lia.
  assert (Hall : forall k, k ∈ seq 0 (Z.to_nat (n / step + 1)) ->
            map snd (segment_sample e1 e2 (0 + Z.of_nat k * step))
            = [etime e1 + IZR (Z.of_nat k * step)]).
  { intros k Hk. apply list_elem_of_In, in_seq in Hk.
    assert (Hdiv : (0 <= n / step)%Z) by (apply Z.div_pos; lia).
    assert (Hk' : (Z.of_nat k <= n / step)%Z) by lia.
    assert (Hmul : (Z.of_nat k * step <= n)%Z).
    { pose proof (Z.mul_div_le n step Hstep). nia. }
    assert (Hpos : (0 <= Z.of_nat k * step)%Z) by nia.
    apply IZR_le in Hmul, Hpos.
    unfold segment_sample. rewrite Z.add_0_l.
    assert (Hin : Rltb (etime e1 + IZR (Z.of_nat k * step)) (etime e1)
                  || Rgtb (etime e1 + IZR (Z.of_nat k * step)) (etime e2) = false).
    { apply outside_false. lra. }
    rewrite Hin. reflexivity. }
  revert Hall. generalize (seq 0 (Z.to_nat (n / step + 1))). intros l Hall.
  induction l as [|k l IH]; [reflexivity|].
  simpl. rewrite map_app, Hall by left. simpl. f_equal.
  apply IH. intros k' Hk'. apply Hall. by right.
Qed.

Lemma path_sample_times (step : Z) (es : list Endpoint) :
  (0 < step)%Z -> ascending es ->
  map snd (flat_map (fun ab : Endpoint * Endpoint => segment_samples step ab.1 ab.2)
             (zip es (tail es)))
  = flat_map (fun ab : Endpoint * Endpoint => sample_times step ab.1 ab.2)
      (zip es (tail es)).
Proof.
  intros Hstep. induction es as [|e1 [|e2 rest] IH]; intros Hasc; [reflexivity..|].
  destruct Hasc as [Hle Hrest]. specialize (IH Hrest).
  change (zip (e1 :: e2 :: rest) (tail (e1 :: e2 :: rest)))
    with ((e1, e2) :: zip (e2 :: rest) (tail (e2 :: rest))).
  cbn [flat_map]. rewrite map_app, IH. f_equal.
  by apply segment_sample_times.
Qed.

(** X24.  With a positive interpolation step, along a path whose waypoints
    carry their four fields and whose timestamps never decrease, the times
    of the samples are, segment after segment, the start of the segment
    plus 0, 1, 2, ... steps for the whole seconds of its duration: no
    sample is dropped, a waypoint between two segments is sampled with
    both when it is reached, and the end of a segment whose whole seconds
    are not a multiple of the step is not sampled. *)
Theorem sample_times_of_path (self : SpatialAnalyzer) (wps : list Waypoint)
    (es : list Endpoint) :
  (0 < interpolation_step self)%Z -> Forall2 has_fields wps es -> ascending es ->
  exists samples,
    sample_path_positions self wps = Ok samples
    /\ map snd samples
       = flat_map (fun ab : Endpoint * Endpoint =>
                     sample_times (interpolation_step self) ab.1 ab.2)
                  (zip es (tail es)).
Proof.
  intros Hstep Hfields Hasc.
  rewrite (sample_path_closed self wps es) by (lia || exact Hfields).
  eexists. split; [reflexivity|]. by apply path_sample_times.
Qed.

(** the first path of the crossing, sampled every 3 seconds *)
Lemma sample_times_of_path_witness :
  exists samples,
    sample_path_positions (SpatialAnalyzer_init 5 2 3) crossing_primary = Ok samples
    /\ map snd samples
       = flat_map (fun ab : Endpoint * Endpoint =>
                     sample_times (interpolation_step (SpatialAnalyzer_init 5 2 3))
                       ab.1 ab.2)
                  (zip [Build_Endpoint 0 0 0 0; Build_Endpoint 10 0 0 10]
                       (tail [Build_Endpoint 0 0 0 0; Build_Endpoint 10 0 0 10])).
Proof.
  apply (sample_times_of_path (SpatialAnalyzer_init 5 2 3) crossing_primary
           [Build_Endpoint 0 0 0 0; Build_Endpoint 10 0 0 10]).
  - simpl. lia.
  - apply two_waypoints_have_fields.
  - simpl. lra.
Defined.

(** ** Drone after drone *)

Lemma map_result_app {A B : Type} (f : A -> result B) (l1 l2 : list A) :
  map_result f (l1 ++ l2)
  = (rs1 ← map_result f l1; rs2 ← map_result f l2; Ok (rs1 ++ rs2)).
Proof.
  induction l1 as [|x l1 IH]; simpl.
  - unfold mbind, result_mbind, result_bind. by destruct (map_result f l2).
  - rewrite IH. unfold mbind, result_mbind, result_bind.
    destruct (f x); [|reflexivity]. destruct (map_result f l1); [|reflexivity].
    by destruct (map_result f l2).
Qed.

(** X25.  Each drone is compared with the primary path on its own: the
    detection over a list of drones followed by more drones returns the
    records of the first list followed by the records of the others, and
    raises as soon as one of the two detections raises. *)
Theorem detection_drone_after_drone (self : ConflictDetector) (primary_path : Path)
    (flights more_flights : list Path) :
  detect_all_conflicts self primary_path (flights ++ more_flights)
  = (records ← detect_all_conflicts self primary_path flights;
     more_records ← detect_all_conflicts self primary_path more_flights;
     Ok (records ++ more_records)).
Proof.
  rewrite !detect_all_conflicts_spec_eq. unfold detect_all_conflicts_spec.
  rewrite map_result_app. unfold mbind, result_mbind, result_bind.
  destruct (map_result _ flights) as [rs1|e]; [|reflexivity].
  destruct (map_result _ more_flights) as [rs2|e]; [|reflexivity].
  by rewrite concat_app.
Qed.

(** ** A safety time that is not positive *)

(** X26.  With a safety time of 0 or less no conflict is temporal: every
    record of a comparison is of type SPATIAL, with its temporal flag
    unset. *)
Theorem nonpositive_time_only_spatial (radius time : R) (step : Z)
    (primary_waypoints other_waypoints : list Waypoint) (other_drone_id : string)
    (records : list Conflict) :
  time <= 0 ->
  check_spatial_conflicts (SpatialAnalyzer_init radius time step)
    primary_waypoints other_waypoints other_drone_id = Ok records ->
  Forall (fun c => conflict_type c = "SPATIAL"%string /\ temporal_conflict c = false)
         records.
Proof.
  intros Htime Hrun. apply Forall_forall. intros c Hc.
  destruct (record_origin _ _ _ _ _ _ Hrun Hc)
    as (ref & ps & os & i & j & A1 & A2 & B1 & B2 & _ & _ & _ & _ & _ & Hrec).
  apply record_for_fields in Hrec as [_ ->]. simpl.
  assert (Hnever : forall x, Rltb (Rabs x) time = false).
  { intros x. apply Rltb_false. pose proof (Rabs_pos x). lra. }
  rewrite Hnever. auto.
Qed.

(** the crossing with a safety time of 0 *)
Lemma nonpositive_time_only_spatial_witness :
  Forall (fun c => conflict_type c = "SPATIAL"%string /\ temporal_conflict c = false)
    (record_for (SpatialAnalyzer_init 5 0 1) (fold_left Rmin [10; 0; 10] 0) "D2" 0 0
       (solver_value eps_default
          (endpoint_of (fold_left Rmin [10; 0; 10] 0) 0 0 0 0)
          (endpoint_of (fold_left Rmin [10; 0; 10] 0) 10 0 0 10)
          (endpoint_of (fold_left Rmin [10; 0; 10] 0) 5 (-5) 0 0)
          (endpoint_of (fold_left Rmin [10; 0; 10] 0) 5 5 0 10))).
Proof.
  apply (nonpositive_time_only_spatial 5 0 1 crossing_primary crossing_other "D2").
  - lra.
  - apply two_waypoints_conflicts.
Defined.

(** ** The same flights at another time *)

Lemma timestamps_closed (wps : list Waypoint) (es : list Endpoint) (acc : list R) :
  Forall2 has_fields wps es ->
  for_each
    (fun (all_timestamps : list R) (wp : Waypoint) =>
       ts ← wp_get wp "timestamp"; Ok (all_timestamps ++ [ts]))
    wps acc = Ok (acc ++ map etime es).
Proof.
  intros Hfields. revert acc.
  induction Hfields as [|wp e wps es Hwe _ IH]; intros acc; simpl.
  - by rewrite app_nil_r.
  - destruct (has_fields_get _ _ Hwe) as (_ & _ & _ & ->).
    unfold mbind, result_mbind, result_bind.
    rewrite IH, <- app_assoc. reflexivity.
Qed.

(** the reference time of two paths whose waypoints carry their fields *)
Lemma reference_closed (primary_waypoints other_waypoints : list Waypoint)
    (primary_points other_points : list Endpoint) :
  Forall2 has_fields primary_waypoints primary_points ->
  Forall2 has_fields other_waypoints other_points ->
  reference_time_of primary_waypoints other_waypoints
  = py_min (map etime (primary_points ++ other_points)).
Proof.
  intros Hp Ho. unfold reference_time_of.
  rewrite (timestamps_closed _ (primary_points ++ other_points)) by (by apply Forall2_app).
  reflexivity.
Qed.

Lemma Rmin_shift (x y delta : R) : Rmin (x + delta) (y + delta) = Rmin x y + delta.
Proof. unfold Rmin. destruct (Rle_dec x y), (Rle_dec (x + delta) (y + delta)); lra. Qed.

Lemma py_min_shift (delta : R) (l : list R) :
  py_min (map (fun x => x + delta) l)
  = match py_min l with
    | Ok m => Ok (m + delta)
    | Raise e => Raise e
    end.
Proof.
  destruct l as [|x l]; [reflexivity|]. simpl. f_equal.
  revert x. induction l as [|y l IH]; intros x; [reflexivity|].
  simpl. rewrite Rmin_shift. apply IH.
Qed.

Lemma segments_of_delay (reference_time delta : R) (es : list Endpoint) :
  segments_of (reference_time + delta) (map (delay delta) es)
  = segments_of reference_time es.
Proof.
  assert (Hrel : forall e, vec4 (relative (reference_time + delta) (delay delta e))
                           = vec4 (relative reference_time e)).
  { intros e. unfold vec4, relative, endpoint_of, delay, convert_timestamp_to_seconds.
    simpl. do 3 f_equal. f_equal. ring. }
  induction es as [|e1 [|e2 rest] IH]; [reflexivity..|].
  change (segments_of (reference_time + delta) (map (delay delta) (e1 :: e2 :: rest)))
    with ((vec4 (relative (reference_time + delta) (delay delta e1)),
           vec4 (relative (reference_time + delta) (delay delta e2)))
          :: segments_of (reference_time + delta) (map (delay delta) (e2 :: rest))).
  rewrite IH, !Hrel. reflexivity.
Qed.

Lemma record_for_delay (self : SpatialAnalyzer) (reference_time delta : R) (id : string)
    (i j : nat) (r : Solver.solution) :
  record_for self (reference_time + delta) id i j r
  = map (delay_record delta) (record_for self reference_time id i j r).
Proof.
  destruct r as [[[cP cQ] d] [t1 t2]]. unfold record_for.
  destruct (conflict_level self _ =? 0)%Z; [reflexivity|].
  simpl. unfold delay_record. simpl. do 2 f_equal; ring.
Qed.

Lemma concat_delay (delta : R) (rs rs' : list (list Conflict)) :
  Forall2 (fun r r' => r' = map (delay_record delta) r) rs rs' ->
  concat rs' = map (delay_record delta) (concat rs).
Proof.
  induction 1 as [|r r' rs rs' -> _ IH]; [reflexivity|].
  simpl. by rewrite map_app, IH.
Qed.

(** X27.  The records do not depend on the origin of time: when every
    timestamp of the two paths is moved by the same number of seconds, the
    comparison returns the same records with their two timestamps moved by
    this number, and every other field unchanged. *)
Theorem time_shift_invariance (self : SpatialAnalyzer) (delta : R)
    (primary_waypoints other_waypoints later_primary later_other : list Waypoint)
    (primary_points other_points : list Endpoint) (other_drone_id : string)
    (records : list Conflict) :
  Forall2 has_fields primary_waypoints primary_points ->
  Forall2 has_fields other_waypoints other_points ->
  Forall2 has_fields later_primary (map (delay delta) primary_points) ->
  Forall2 has_fields later_other (map (delay delta) other_points) ->
  check_spatial_conflicts self primary_waypoints other_waypoints other_drone_id
  = Ok records ->
  check_spatial_conflicts self later_primary later_other other_drone_id
  = Ok (map (delay_record delta) records).
Proof.
  intros Hp Ho Hp' Ho'. rewrite !check_spatial_conflicts_spec.
  unfold spatial_conflicts_spec.
  rewrite (reference_closed _ _ _ _ Hp Ho), (reference_closed _ _ _ _ Hp' Ho').
  rewrite <- map_app, map_map.
  change (map (fun x => etime (delay delta x)) (primary_points ++ other_points))
    with (map (fun x => etime x + delta) (primary_points ++ other_points)).
  rewrite <- (map_map etime (fun x => x + delta)), py_min_shift.
  destruct (py_min _) as [ref|e]; [|discriminate].
  unfold mbind, result_mbind, result_bind.
  rewrite (convert_closed _ _ _ Hp), (convert_closed _ _ _ Ho).
  rewrite (convert_closed _ _ _ Hp'), (convert_closed _ _ _ Ho').
  rewrite !segments_of_delay.
  destruct (map_result (pair_conflicts self ref other_drone_id) _) as [rs|e] eqn:Hrs;
    [|discriminate].
  intros [= <-].
  assert (Hfg : forall pq r, pair_conflicts self ref other_drone_id pq = Ok r ->
            exists r', pair_conflicts self (ref + delta) other_drone_id pq = Ok r'
                       /\ r' = map (delay_record delta) r).
  { intros [[i [p1 p2]] [j [o1 o2]]] r. unfold pair_conflicts.
    unfold mbind, result_mbind, result_bind.
    destruct (Solver.closest_points_on_segments_in_3D _ _ _ _ _) as [sol|e]; [|discriminate].
    intros [= <-]. eexists. split; [reflexivity | apply record_for_delay]. }
  destruct (map_result_rel _ _ _ _ _ Hfg Hrs) as (rs' & -> & Hrel).
  f_equal. by apply concat_delay.
Qed.

(** the crossing, a hundred seconds later *)
Lemma time_shift_invariance_witness :
  check_spatial_conflicts (SpatialAnalyzer_init 5 2 1)
    [waypoint_of 0 0 0 (0 + 100); waypoint_of 10 0 0 (10 + 100)]
    [waypoint_of 5 (-5) 0 (0 + 100); waypoint_of 5 5 0 (10 + 100)] "D2"
  = Ok (map (delay_record 100) [crossing_record]).
Proof.
  apply (time_shift_invariance (SpatialAnalyzer_init 5 2 1) 100
           crossing_primary crossing_other
           [waypoint_of 0 0 0 (0 + 100); waypoint_of 10 0 0 (10 + 100)]
           [waypoint_of 5 (-5) 0 (0 + 100); waypoint_of 5 5 0 (10 + 100)]
           [Build_Endpoint 0 0 0 0; Build_Endpoint 10 0 0 10]
           [Build_Endpoint 5 (-5) 0 0; Build_Endpoint 5 5 0 10] "D2" [crossing_record]).
  - apply two_waypoints_have_fields.
  - apply two_waypoints_have_fields.
  - apply (two_waypoints_have_fields 0 0 0 (0 + 100) 10 0 0 (10 + 100)).
  - apply (two_waypoints_have_fields 5 (-5) 0 (0 + 100) 5 5 0 (10 + 100)).
  - exact (proj1 crossing_conflicts).
Defined.

(** ** The sampling detector *)

Lemma fold_left_invariant {A S : Type} (I : S -> Prop) (f : S -> A -> S)
    (l : list A) (s : S) :
  I s -> (forall s x, I s -> I (f s x)) -> I (fold_left f l s).
Proof.
  intros Hs Hstep. revert s Hs. induction l as [|x l IH]; intros s Hs; [exact Hs|].
  simpl. apply IH. by apply Hstep.
Qed.

Lemma closer_ok (primary_pos : list R) (primary_time : R)
    (st : Method1.closest_state) (other : Sample) :
  closest_ok primary_pos primary_time st ->
  closest_ok primary_pos primary_time (Method1.closer primary_pos primary_time st other).
Proof.
  intros Hst. destruct other as [other_pos other_time]. unfold Method1.closer.
  destruct (Rleb (Rabs (primary_time - other_time)) 1) eqn:Hnear; [|exact Hst].
  destruct (lt_extended _ _); [|exact Hst].
  apply Rleb_true in Hnear. unfold closest_ok. simpl. auto.
Qed.

Lemma spaced_snoc (gap : R) (records : list Method1.Conflict) (c : Method1.Conflict) :
  spaced gap records ->
  (forall c', last records = Some c' ->
     gap <= Method1.timestamp_primary c - Method1.timestamp_primary c') ->
  spaced gap (records ++ [c]).
Proof.
  induction records as [|c1 [|c2 rest] IH]; intros Hspaced Hlast.
  - exact I.
  - simpl. split; [|exact I]. by apply Hlast.
  - destruct Hspaced as [Hgap Hrest].
    change ((c1 :: c2 :: rest) ++ [c]) with (c1 :: c2 :: (rest ++ [c])).
    split; [exact Hgap|]. apply IH; [exact Hrest|].
    intros c' Hc'. apply Hlast. exact Hc'.
Qed.

Lemma check_sample_ok (self : Method1.SpatialAnalyzer) (other_samples : list Sample)
    (other_drone_id : string) (st : list Method1.Conflict * option R) (sample : Sample) :
  records_ok self other_drone_id st ->
  records_ok self other_drone_id
    (Method1.check_sample self other_samples other_drone_id st sample).
Proof.
  intros Hst. destruct st as [conflicts last_time].
  destruct sample as [primary_pos primary_time]. unfold Method1.check_sample.
  assert (Hclosest : closest_ok primary_pos primary_time
            (fold_left (Method1.closer primary_pos primary_time) other_samples
               {| Method1.closest_distance := Infinity;
                  Method1.closest_other_data := None |})).
  { apply fold_left_invariant; [exact I|]. intros s x. apply closer_ok. }
  destruct (fold_left _ other_samples _) as [closest_distance data].
  unfold closest_ok in Hclosest. simpl in Hclosest. simpl.
  destruct data as [[[other_pos other_time] time_diff]|]; [|exact Hst].
  destruct closest_distance as [d|]; [|exact Hst].
  destruct Hclosest as (Hd & Htd & Hnear).
  destruct (Rltb d (Method1.drone_radius self)) eqn:Hradius; [|exact Hst].
  apply Rltb_true in Hradius.
  destruct Hst as (Hall & Hspaced & Hlast). simpl in Hall, Hspaced, Hlast.
  assert (Hrecord : sampled_record self other_drone_id
            {| Method1.with_drone := other_drone_id;
               Method1.min_distance := d;
               Method1.location_primary := primary_pos;
               Method1.location_other := other_pos;
               Method1.timestamp_primary := primary_time;
               Method1.timestamp_other := other_time;
               Method1.time_difference := time_diff;
               Method1.spatial_conflict := true;
               Method1.temporal_conflict := false;
               Method1.conflict_type := "SPATIAL" |}).
  { unfold sampled_record. simpl. subst d.
    split; [reflexivity|]. split; [split; [apply sqrt_pos | exact Hradius]|].
    auto 10. }
  destruct last_time as [last_time|].
  - destruct (Rleb 2 (primary_time - last_time)) eqn:Hgap;
      [|by repeat split].
    apply Rleb_true in Hgap. split; [|split]; simpl.
    + apply Forall_app. split; [exact Hall | by constructor].
    + apply spaced_snoc; [exact Hspaced|]. intros c' Hc'. simpl.
      rewrite Hc' in Hlast. injection Hlast as ->. exact Hgap.
    + by rewrite last_snoc.
  - split; [|split]; simpl.
    + apply Forall_app. split; [exact Hall | by constructor].
    + apply spaced_snoc; [exact Hspaced|]. intros c' Hc'.
      rewrite Hc' in Hlast. discriminate.
    + by rewrite last_snoc.
Qed.

Lemma compared_samples_ok (self : Method1.SpatialAnalyzer)
    (primary_samples other_samples : list Sample) (other_drone_id : string) :
  records_ok self other_drone_id
    (fold_left (Method1.check_sample self other_samples other_drone_id)
               primary_samples ([], None)).
Proof.
  apply fold_left_invariant.
  - split; [constructor|]. split; [exact I | reflexivity].
  - intros st sample. apply check_sample_ok.
Qed.

(** the records of a sampling comparison *)
Lemma sampled_records_ok (self : Method1.SpatialAnalyzer)
    (primary_waypoints other_waypoints : list Waypoint) (other_drone_id : string)
    (records : list Method1.Conflict) :
  Method1.check_spatial_conflicts self primary_waypoints other_waypoints other_drone_id
  = Ok records ->
  Forall (sampled_record self other_drone_id) records /\ spaced 2 records.
Proof.
  unfold Method1.check_spatial_conflicts. unfold mbind, result_mbind, result_bind.
  assert (Hnone : Forall (sampled_record self other_drone_id) [] /\ spaced 2 [])
    by (split; [constructor | exact I]).
  repeat match goal with
         | |- match ?m with Ok _ => _ | Raise _ => _ end = Ok _ -> _ =>
             destruct m; [|discriminate]
         | |- (if ?b then _ else _) = Ok _ -> _ => destruct b
         | |- Ok [] = Ok _ -> _ => intros [= <-]; exact Hnone
         end;
    intros [= <-];
    match goal with
    | |- context [fold_left (Method1.check_sample self ?others _) ?samples _] =>
        destruct (compared_samples_ok self samples others other_drone_id)
          as (Hall & Hspaced & _)
    end;
    by split.
Qed.

Lemma py_int_zero (x : R) : x = 0 -> py_int x = 0%Z.
Proof.
  intros ->. unfold py_int. destruct (Rle_dec 0 0) as [_|Hneg]; [|lra].
  assert (Hup : 1%Z = up 0) by (apply tech_up; simpl; lra).
  unfold Int_part. by rewrite <- Hup.
Qed.

(** a hovering path has one sample *)
Lemma hover_samples (x y z ts : R) :
  for_each (sample_segment 1 (hover_path x y z ts))
           (seq 0 (length (hover_path x y z ts) - 1)) []
  = Ok [hover_sample x y z ts].
Proof.
  rewrite (sample_loop_segments 1 (hover_path x y z ts)
             [Build_Endpoint x y z ts; Build_Endpoint x y z ts]);
    [|lia | apply two_waypoints_have_fields].
  cbn [zip zip_with tail flat_map fst snd]. rewrite app_nil_r.
  unfold segment_samples. cbn [etime].
  rewrite (py_int_zero (ts - ts)) by ring.
  change (range_values 0 (0 + 1) 1) with [0%Z]. cbn [flat_map]. rewrite app_nil_r.
  unfold segment_sample. cbn [etime xyz ex ey ez].
  assert (Hin : Rltb (ts + 0) ts || Rgtb (ts + 0) ts = false)
    by (apply outside_false; lra).
  by rewrite Hin.
Qed.

Lemma hover_distance (x y z ts : R) :
  distance (hover_sample x y z ts).1 (hover_sample x y z ts).1 = 0.
Proof.
  unfold hover_sample, point_at. cbn [fst]. rewrite sub3, scale3, add3.
  unfold distance. rewrite sub3, dot3. apply sqrt_of_square; [lra | ring].
Qed.

Lemma closer_first (primary_pos : list R) (primary_time : R) (other_pos : list R)
    (other_time : R) :
  Rabs (primary_time - other_time) <= 1 ->
  Method1.closer primary_pos primary_time
    {| Method1.closest_distance := Infinity; Method1.closest_other_data := None |}
    (other_pos, other_time)
  = {| Method1.closest_distance := Finite (distance primary_pos other_pos);
       Method1.closest_other_data :=
         Some (other_pos, other_time, Rabs (primary_time - other_time)) |}.
Proof.
  intros Hnear. unfold Method1.closer. apply Rleb_true in Hnear. by rewrite Hnear.
Qed.

(** a sample against itself, as the first sample of the comparison *)
Lemma check_sample_first (self : Method1.SpatialAnalyzer) (pos : list R) (t : R)
    (other_drone_id : string) :
  distance pos pos < Method1.drone_radius self ->
  Method1.check_sample self [(pos, t)] other_drone_id ([], None) (pos, t)
  = ([ {| Method1.with_drone := other_drone_id;
          Method1.min_distance := distance pos pos;
          Method1.location_primary := pos;
          Method1.location_other := pos;
          Method1.timestamp_primary := t;
          Method1.timestamp_other := t;
          Method1.time_difference := Rabs (t - t);
          Method1.spatial_conflict := true;
          Method1.temporal_conflict := false;
          Method1.conflict_type := "SPATIAL" |} ],
     Some t).
Proof.
  intros Hclose. unfold Method1.check_sample. cbn [fold_left].
  rewrite closer_first
    by (replace (t - t) with 0 by ring; rewrite Rabs_R0; lra).
  cbn [Method1.closest_distance Method1.closest_other_data].
  apply Rltb_true in Hclose. by rewrite Hclose.
Qed.

(** a hovering path against itself: one record *)
Lemma hover_compared (radius : R) (x y z ts : R) (other_drone_id : string) :
  0 < radius ->
  Method1.check_spatial_conflicts (Method1.SpatialAnalyzer_init radius 1)
    (hover_path x y z ts) (hover_path x y z ts) other_drone_id
  = Ok [hover_record x y z ts other_drone_id].
Proof.
  intros Hradius.
  unfold Method1.check_spatial_conflicts, wp_index, Method1.last_waypoint.
  change (hover_path x y z ts !! 0%nat) with (Some (waypoint_of x y z ts)).
  change (last (hover_path x y z ts)) with (Some (waypoint_of x y z ts)).
  unfold mbind, result_mbind, result_bind. rewrite !waypoint_of_timestamp.
  assert (Hsame : Rltb ts ts = false) by (apply Rltb_false; lra).
  rewrite Hsame. unfold Method1.sample_path_positions.
  change (Method1.interpolation_step (Method1.SpatialAnalyzer_init radius 1)) with 1%Z.
  rewrite hover_samples. cbn [fold_left].
  pose proof (hover_distance x y z ts) as Hzero. revert Hzero.
  unfold hover_record. destruct (hover_sample x y z ts) as [pos t]. cbn [fst snd].
  intros Hzero. rewrite check_sample_first; [reflexivity|].
  rewrite Hzero. exact Hradius.
Qed.

(** X28.  Every record of the sampling comparison of Method 1 names the
    other drone, has as distance the distance of its two locations, at least
    0 and strictly below the drone radius, has as time difference the
    absolute difference of its two timestamps, at most 1 second, and is a
    SPATIAL record with its temporal flag unset; and two consecutive records
    are at least 2 seconds apart in primary time. *)
Theorem sampled_records_spaced (self : Method1.SpatialAnalyzer)
    (primary_waypoints other_waypoints : list Waypoint) (other_drone_id : string)
    (records : list Method1.Conflict) :
  Method1.check_spatial_conflicts self primary_waypoints other_waypoints other_drone_id
  = Ok records ->
  Forall (sampled_record self other_drone_id) records /\ spaced 2 records.
Proof. apply sampled_records_ok. Qed.

(** a drone that hovers, against itself *)
Lemma sampled_records_spaced_witness :
  Forall (sampled_record (Method1.SpatialAnalyzer_init 10 1) "D2")
         [hover_record 0 0 0 0 "D2"]
  /\ spaced 2 [hover_record 0 0 0 0 "D2"].
Proof.
  apply (sampled_records_spaced (Method1.SpatialAnalyzer_init 10 1)
           (hover_path 0 0 0 0) (hover_path 0 0 0 0) "D2" [hover_record 0 0 0 0 "D2"]).
  apply hover_compared. lra.
Defined.

(** X29.  The sampling comparison of Method 1 raises IndexError on a path
    without waypoints: on an empty primary path, and on an empty other path
    when the primary path passes validate_waypoint_data. *)
Theorem empty_path_index_error (self : Method1.SpatialAnalyzer)
    (primary_waypoints other_waypoints : list Waypoint) (other_drone_id : string) :
  primary_waypoints = []
  \/ (other_waypoints = [] /\ validate_waypoint_data primary_waypoints = true) ->
  Method1.check_spatial_conflicts self primary_waypoints other_waypoints other_drone_id
  = Raise IndexError.
Proof.
  intros [-> | [-> Hvalid]]; [reflexivity|].
  destruct primary_waypoints as [|wp rest]; [reflexivity|].
  apply validate_waypoint_data_true in Hvalid.
  assert (Htimestamp : forall w, w ∈ wp :: rest -> exists ts, wp_get w "timestamp" = Ok ts).
  { intros w Hw. rewrite Forall_forall in Hvalid.
    apply valid_waypoint_get; [by apply Hvalid|].
    apply list_elem_of_In. simpl. tauto. }
  unfold Method1.check_spatial_conflicts, wp_index, Method1.last_waypoint.
  change ((wp :: rest) !! 0%nat) with (Some wp).
  destruct (last (wp :: rest)) as [final|] eqn:Hfinal; [|by apply last_None in Hfinal].
  destruct (Htimestamp wp) as [ts1 Hts1]; [left|].
  destruct (Htimestamp final) as [ts2 Hts2]; [by apply last_Some_elem_of|].
  unfold mbind, result_mbind, result_bind. rewrite Hts1, Hts2. reflexivity.
Qed.

(** the first path of the crossing against a drone without waypoints *)
Lemma empty_path_index_error_witness :
  Method1.check_spatial_conflicts (Method1.SpatialAnalyzer_init 10 1)
    crossing_primary [] "D2" = Raise IndexError.
Proof.
  apply (empty_path_index_error (Method1.SpatialAnalyzer_init 10 1)
           crossing_primary [] "D2").
  right. split; [reflexivity | apply two_waypoints_validated].
Defined.

Lemma check_samples_flags (self : Method1.TemporalAnalyzer) (other_drone_id : string)
    (primary : Sample) (conflicts : list Method1.Conflict) (other : Sample) :
  Forall one_flag conflicts ->
  Forall one_flag (Method1.check_samples self other_drone_id primary conflicts other).
Proof.
  intros Hall. destruct primary as [ppos ptime], other as [opos otime].
  unfold Method1.check_samples. destruct (_ && _); [|exact Hall].
  apply Forall_app. split; [exact Hall|]. by constructor.
Qed.

Lemma temporal_flags (self : Method1.TemporalAnalyzer)
    (primary_samples other_samples : list Sample) (other_drone_id : string) :
  Forall one_flag
    (Method1.check_temporal_conflict self primary_samples other_samples other_drone_id).
Proof.
  unfold Method1.check_temporal_conflict.
  apply fold_left_invariant; [constructor|]. intros conflicts primary Hall.
  apply fold_left_invariant; [exact Hall|]. intros cs other. apply check_samples_flags.
Qed.

Lemma sampled_count_ones (l : list Method1.Conflict) (acc : Z) :
  fold_left Z.add (map (fun _ => 1%Z) l) acc = (acc + Z.of_nat (length l))%Z.
Proof.
  revert acc. induction l as [|c l IH]; intros acc; simpl length; simpl fold_left.
  - lia.
  - rewrite IH. lia.
Qed.

Lemma sampled_count_cons (test : Method1.Conflict -> bool) (c : Method1.Conflict)
    (l : list Method1.Conflict) :
  Method1.count_if test (c :: l)
  = ((if test c then 1 else 0) + Method1.count_if test l)%Z.
Proof.
  unfold Method1.count_if. rewrite filter_cons.
  destruct (decide (test c = true)) as [Hc|Hc].
  - rewrite Hc. cbv iota. cbn [map fold_left]. rewrite !sampled_count_ones. lia.
  - apply not_true_is_false in Hc. rewrite Hc. cbv iota. lia.
Qed.

Lemma sampled_counts (l : list Method1.Conflict) :
  Forall one_flag l ->
  (Method1.count_if Method1.spatial_conflict l
   + Method1.count_if Method1.temporal_conflict l = Z.of_nat (length l))%Z.
Proof.
  induction 1 as [|c l Hc _ IH]; [reflexivity|].
  rewrite !sampled_count_cons. simpl length. unfold one_flag in Hc. rewrite Hc.
  destruct (Method1.temporal_conflict c); simpl negb; cbv iota; lia.
Qed.

(** a hovering path against itself: a spatial and a temporal record *)
Lemma hover_detected (radius time : R) (x y z ts : R) :
  0 < radius -> 0 < time ->
  Method1.detect_all_conflicts (Method1.ConflictDetector_init radius time)
    {| drone_id := "P"; waypoints := hover_path x y z ts |}
    [ {| drone_id := "D2"; waypoints := hover_path x y z ts |} ]
  = Ok [hover_record x y z ts "D2"; hover_temporal_record x y z ts "D2"].
Proof.
  intros Hradius Htime. unfold Method1.detect_all_conflicts.
  cbn [for_each waypoints drone_id].
  change (Method1.spatial_analyzer (Method1.ConflictDetector_init radius time))
    with (Method1.SpatialAnalyzer_init radius 1).
  change (Method1.temporal_analyzer (Method1.ConflictDetector_init radius time))
    with (Method1.TemporalAnalyzer_init time 1).
  rewrite hover_compared by exact Hradius.
  unfold mbind, result_mbind, result_bind, Method1.sample_path_positions.
  change (Method1.interpolation_step (Method1.SpatialAnalyzer_init radius 1)) with 1%Z.
  rewrite hover_samples. do 2 f_equal.
  unfold Method1.check_temporal_conflict. cbn [fold_left].
  pose proof (hover_distance x y z ts) as Hzero. revert Hzero.
  unfold hover_temporal_record. destruct (hover_sample x y z ts) as [pos t].
  cbn [fst snd]. intros Hzero. unfold Method1.check_samples.
  change (Method1.position_threshold (Method1.TemporalAnalyzer_init time 1)) with 1.
  change (Method1.time_threshold (Method1.TemporalAnalyzer_init time 1)) with time.
  assert (Hclose : Rltb (distance pos pos) 1 = true)
    by (apply Rltb_true; rewrite Hzero; lra).
  assert (Hsoon : Rltb (Rabs (t - t)) time = true).
  { apply Rltb_true. replace (t - t) with 0 by ring. by rewrite Rabs_R0. }
  by rewrite Hclose, Hsoon.
Qed.

(** X30.  Every record of the detection of Method 1 has exactly one of its
    two flags set, spatial or temporal, so that the two counts of its
    printed summary add up to the number of records; the counts are left
    out only for an empty list of records. *)
Theorem sampled_summary_counts (self : Method1.ConflictDetector) (primary_path : Path)
    (flights : list Path) (records : list Method1.Conflict) :
  Method1.detect_all_conflicts self primary_path flights = Ok records ->
  Forall one_flag records
  /\ match Method1.print_conflict_summary records with
     | Some (spatial_count, temporal_count) =>
         (spatial_count + temporal_count = Z.of_nat (length records))%Z
     | None => records = []
     end.
Proof.
  intros Hrun.
  assert (Hflags : Forall one_flag records).
  { revert Hrun. unfold Method1.detect_all_conflicts.
    apply for_each_invariant; [constructor|].
    intros conflicts drone conflicts' Hall. unfold mbind, result_mbind, result_bind.
    destruct (Method1.check_spatial_conflicts _ _ _ _) as [spatial|e] eqn:Hspatial;
      [|discriminate].
    destruct (Method1.sample_path_positions _ (waypoints primary_path)) as [ps|e];
      [|discriminate].
    destruct (Method1.sample_path_positions _ (waypoints drone)) as [os|e];
      [|discriminate].
    intros [= <-]. apply Forall_app. split; [apply Forall_app; split|].
    - exact Hall.
    - apply sampled_records_ok in Hspatial as [Hrecords _].
      eapply Forall_impl; [exact Hrecords|].
      intros c (_ & _ & _ & _ & _ & Hs & Ht & _). unfold one_flag. by rewrite Hs, Ht.
    - apply temporal_flags. }
  split; [exact Hflags|].
  pose proof (sampled_counts records Hflags) as Hcounts.
  destruct records as [|c records]; [reflexivity | exact Hcounts].
Qed.

(** a drone that hovers, against itself: one record of each kind *)
Lemma sampled_summary_counts_witness :
  Forall one_flag [hover_record 0 0 0 0 "D2"; hover_temporal_record 0 0 0 0 "D2"]
  /\ match Method1.print_conflict_summary
             [hover_record 0 0 0 0 "D2"; hover_temporal_record 0 0 0 0 "D2"] with
     | Some (spatial_count, temporal_count) =>
         (spatial_count + temporal_count
          = Z.of_nat (length [hover_record 0 0 0 0 "D2";
                              hover_temporal_record 0 0 0 0 "D2"]))%Z
     | None => [hover_record 0 0 0 0 "D2"; hover_temporal_record 0 0 0 0 "D2"] = []
     end.
Proof.
  apply (sampled_summary_counts (Method1.ConflictDetector_init 10 2)
           {| drone_id := "P"; waypoints := hover_path 0 0 0 0 |}
           [ {| drone_id := "D2"; waypoints := hover_path 0 0 0 0 |} ]
           [hover_record 0 0 0 0 "D2"; hover_temporal_record 0 0 0 0 "D2"]).
  apply hover_detected; lra.
Defined.

(** ** The aggregation on the values of the waypoints (C3) *)















